(** * AI-Powered Test Strategist: a shallow embedding of the generation engine

    The development follows the two Python modules of the repository:

    - [DataFactory] embeds [data_factory.py]: the generator registry
      [TYPE_GENERATORS], [generate_ai_content] and [generate_data];
    - [TestStrategist] embeds [test_strategist.py]: [generate_test_plan],
      [get_ideal_row_count], [generate_data_for_plan] and the two reports
      written by [main].

    Python values are a small inductive type, dictionaries are insertion
    ordered association lists, and every call that leaves the program
    (the [random] module, Faker, the generative text service) is answered
    by an oracle and recorded in a trace.  Exceptions are explicit: a
    computation returns either a value or the exception it raised, together
    with the trace of the external calls made so far.  The interactive
    front ends read their lines from a scripted standard input and hand
    their frames to a file system that may refuse a path.  Console output
    ([print]) is not modelled. *)

From Stdlib Require Import List String Ascii ZArith Lia Bool Arith PeanoNat.
From Stdlib Require Import DecimalString.
Import ListNotations.
Local Open Scope string_scope.
Local Open Scope list_scope.

(* ================================================================== *)
(** ** Python values *)
(* ================================================================== *)

(** A float is carried by its [repr]; the source does no arithmetic on one. *)
#[warnings="-register-all"]
Inductive pyval : Type :=
| PNone
| PBool (b : bool)
| PInt (z : Z)
| PFloat (repr : string)
| PStr (s : string)
| PList (items : list pyval)
| PDict (entries : list (string * pyval)).

(** The exceptions the modelled code can meet.  All of them derive from
    [Exception], so an [except Exception] clause catches every one. *)
Inductive exn : Type :=
| KeyError (key : string)
| TypeError
| AttributeError
| ValueError
| IndexError
| JSONDecodeError
| ServiceError
| OSError.

Inductive result (A : Type) : Type :=
| Ok (a : A)
| Raise (e : exn).
Arguments Ok {A} a.
Arguments Raise {A} e.

(* ================================================================== *)
(** ** Dictionaries (insertion ordered, string keys) *)
(* ================================================================== *)

Section Dict.
Context {V : Type}.

Definition dict := list (string * V).

(** [d.get(k)] *)
Fixpoint dict_get (d : dict) (k : string) : option V :=
  match d with
  | [] => None
  | (k', v) :: rest => if String.eqb k' k then Some v else dict_get rest k
  end.

(** [d.get(k, default)] *)
Definition dict_get_default (d : dict) (k : string) (default : V) : V :=
  match dict_get d k with
  | Some v => v
  | None => default
  end.

(** [d[k] = v]: an existing key keeps its position, a new key is appended. *)
Fixpoint dict_set (d : dict) (k : string) (v : V) : dict :=
  match d with
  | [] => [(k, v)]
  | (k', v') :: rest =>
      if String.eqb k' k then (k', v) :: rest
      else (k', v') :: dict_set rest k v
  end.

Definition dict_keys (d : dict) : list string := map fst d.

Definition dict_has (d : dict) (k : string) : bool :=
  match dict_get d k with
  | Some _ => true
  | None => false
  end.
End Dict.
Arguments dict V : clear implicits.

(** Membership of a name in a list of names ([col in cols]). *)
Definition name_in (k : string) (ks : list string) : bool :=
  existsb (String.eqb k) ks.

(* ================================================================== *)
(** ** Strings: [str.strip], [str.replace], [int(str)], [str * int] *)
(* ================================================================== *)

(** A string is a sequence of characters with code points below 256. *)

(** [str.isspace] on the code points below 256. *)
Definition py_isspace (c : ascii) : bool :=
  let n := nat_of_ascii c in
  (((9 <=? n) && (n <=? 13)) || ((28 <=? n) && (n <=? 32))
   || (n =? 133) || (n =? 160))%nat.

Fixpoint lstrip (s : string) : string :=
  match s with
  | EmptyString => EmptyString
  | String c rest => if py_isspace c then lstrip rest else s
  end.

Definition string_rev (s : string) : string :=
  string_of_list_ascii (rev (list_ascii_of_string s)).

Definition rstrip (s : string) : string := string_rev (lstrip (string_rev s)).

(** [s.strip()] *)
Definition strip (s : string) : string := rstrip (lstrip s).

(** [s.replace(old, new)] for a non-empty [old], as at every call of the
    source: leftmost non-overlapping occurrences, [skip] counting the
    characters of a match still to be dropped. *)
Fixpoint replace_from (old new : string) (skip : nat) (s : string) : string :=
  match s with
  | EmptyString => EmptyString
  | String c rest =>
      match skip with
      | S k => replace_from old new k rest
      | O =>
          if String.prefix old s
          then new ++ replace_from old new (String.length old - 1) rest
          else String c (replace_from old new 0 rest)
      end
  end.

Definition replace (old new s : string) : string := replace_from old new 0 s.

Definition digit_value (c : ascii) : option Z :=
  let n := nat_of_ascii c in
  if ((48 <=? n) && (n <=? 57))%nat then Some (Z.of_nat (n - 48)) else None.

(** Decimal digits with single underscores allowed between digits. *)
Fixpoint parse_digits (s : string) (acc : Z) (after_digit : bool) : option Z :=
  match s with
  | EmptyString => if after_digit then Some acc else None
  | String c rest =>
      if Ascii.eqb c "_"
      then (if after_digit then parse_digits rest acc false else None)
      else match digit_value c with
           | Some d => parse_digits rest (10 * acc + d) true
           | None => None
           end
  end.

(** CPython (3.11, and the security releases of the older versions)
    refuses to convert a decimal string of more than 4300 digits. *)
Definition max_str_digits : Z := 4300.

Fixpoint count_digits (s : string) : Z :=
  match s with
  | EmptyString => 0
  | String c rest =>
      match digit_value c with
      | Some _ => 1 + count_digits rest
      | None => count_digits rest
      end
  end.

Definition parse_decimal (s : string) : option Z :=
  if (max_str_digits <? count_digits s)%Z then None
  else parse_digits s 0 false.

(** The white space [int] skips around the digits: the ASCII white space
    of C ([\t\n\v\f\r] and the space), and the two white-space characters
    above 127, which [int] turns into spaces before it parses.  The
    separators 28 to 31, which [str.strip] removes, are not skipped. *)
Definition int_isspace (c : ascii) : bool :=
  let n := nat_of_ascii c in
  (((9 <=? n) && (n <=? 13)) || (n =? 32) || (n =? 133) || (n =? 160))%nat.

Fixpoint int_skip (s : string) : string :=
  match s with
  | EmptyString => EmptyString
  | String c rest => if int_isspace c then int_skip rest else s
  end.

Definition int_trim (s : string) : string :=
  string_rev (int_skip (string_rev (int_skip s))).

(** [int(s)] in base ten over the ASCII digits: surrounding white space,
    an optional sign, digits; [None] stands for [ValueError]. *)
Definition py_int (s : string) : option Z :=
  match int_trim s with
  | String "-" rest => option_map Z.opp (parse_decimal rest)
  | String "+" rest => parse_decimal rest
  | t => parse_decimal t
  end.

(** [repr(z)] of an integer. *)
Definition repr_int (z : Z) : string :=
  NilZero.string_of_int (Z.to_int z).

(** *** [float(n)] of an integer and its [repr] *)

(** The float nearest to [n], for [0 <= n], as an integer: [n] itself up
    to 53 bits, and beyond that the neighbour with a 53-bit mantissa, a
    tie going to the even mantissa. *)
Definition nearest_double (n : Z) : Z :=
  let bits := (Z.log2 n + 1)%Z in
  if (bits <=? 53)%Z then n
  else
    let sh := (bits - 53)%Z in
    let q := Z.shiftr n sh in
    let r := (n - Z.shiftl q sh)%Z in
    let half := Z.shiftl 1 (sh - 1) in
    let q' :=
      if (half <? r)%Z || ((r =? half)%Z && Z.odd q) then (q + 1)%Z else q in
    Z.shiftl q' sh.

(** The shortest decimal that reads back as the float [x]: the nearest
    decimal of [d] significant digits below and above [x], for
    [d = 1, 2, ...], until one of them rounds to [x]. *)
Fixpoint shortest_decimal (x digits d : Z) (fuel : nat) : Z :=
  match fuel with
  | O => x
  | S k =>
      if (digits <=? d)%Z then x
      else
        let p := (10 ^ (digits - d))%Z in
        let lo := (x / p * p)%Z in
        let hi := (lo + p)%Z in
        let okl := (nearest_double lo =? x)%Z in
        let okh := (nearest_double hi =? x)%Z in
        if okl && okh then (if (x - lo <=? hi - x)%Z then lo else hi)
        else if okl then lo
        else if okh then hi
        else shortest_decimal x digits (d + 1) k
  end.

Fixpoint drop_zeros (l : list ascii) : list ascii :=
  match l with
  | "0"%char :: rest => drop_zeros rest
  | _ => l
  end.

(** The digits without the zeros at the end. *)
Definition significant (digits : string) : string :=
  string_of_list_ascii (rev (drop_zeros (rev (list_ascii_of_string digits)))).

(** [repr(float(n))] for [0 <= n]: plain digits and [.0] up to sixteen
    digits, the exponent form beyond; [inf] stands for what lies beyond
    the largest float. *)
Definition float_repr_nat (n : Z) : string :=
  let x := nearest_double n in
  if (2 ^ 1024 <=? x)%Z then "inf"
  else
    let digits := repr_int x in
    let c := shortest_decimal x (Z.of_nat (String.length digits)) 1 17 in
    let s := repr_int c in
    let decpt := String.length s in
    if (decpt <=? 16)%nat then s ++ ".0"
    else
      match significant s with
      | String first others =>
          String first
            (match others with
             | EmptyString => ""
             | _ => "." ++ others
             end)
          ++ "e+" ++ repr_int (Z.of_nat (decpt - 1))
      | EmptyString => s
      end.

(** [repr(float(z))] *)
Definition float_repr (z : Z) : string :=
  if (z <? 0)%Z then "-" ++ float_repr_nat (- z) else float_repr_nat z.

(** [s * n] *)
Fixpoint str_mul (s : string) (n : nat) : string :=
  match n with
  | O => EmptyString
  | S k => s ++ str_mul s k
  end.

(* ================================================================== *)
(** ** The outside world: oracles and the trace of external calls *)
(* ================================================================== *)

Inductive faker_method : Type :=
| fake_name
| fake_safe_email
| fake_password (length : Z)
| fake_random_int
| fake_date
| fake_uuid4.

(** What a prompt sent to the text service is built from.  The source
    renders these into one f-string; the model keeps the holes. *)
Inductive prompt : Type :=
| FieldPrompt (context : string)
| PlanPrompt (requirement : string)
| RowCountPrompt (plan : pyval)
| ScenarioPrompt (rows_per_scenario : Z) (description : pyval) (fields : pyval).

Inductive event : Type :=
| EvChoice (population : list pyval) (index : nat)
| EvFaker (method : faker_method) (value : pyval)
| EvService (request : prompt) (reply : option string).

(** The world is the history of external calls, oldest first. *)
Definition World := list event.

(** The environment answers every external call from the history so far.
    [service] is [model.generate_content(p)] followed by [.text]: [None]
    when either raises.  [json_loads] is [json.loads]: [None] when it
    raises.  [gemini_enabled] is the module flag of [data_factory.py].
    [open_error names path] is the file system: the exception that
    opening [path] for writing raises, if any ([OSError] for a missing
    directory, a refused permission or a full disk, [ValueError] for a
    path with a null character), the files [names] having been written
    by this run. *)
Record Env : Type := {
  random_index : World -> nat;
  faker : World -> faker_method -> pyval;
  service : World -> prompt -> option string;
  json_loads : string -> option pyval;
  gemini_enabled : bool;
  open_error : list string -> string -> option exn
}.

(* ================================================================== *)
(** ** The monad of the embedding: trace passing with exceptions *)
(* ================================================================== *)

Definition M (A : Type) : Type := World -> result A * World.

Definition ret {A} (a : A) : M A := fun w => (Ok a, w).

Definition raise {A} (e : exn) : M A := fun w => (Raise e, w).

Definition bind {A B} (m : M A) (k : A -> M B) : M B :=
  fun w =>
    match m w with
    | (Ok a, w') => k a w'
    | (Raise e, w') => (Raise e, w')
    end.

(** [try: m  except Exception as e: handler e] *)
Definition try_except {A} (m : M A) (handler : exn -> M A) : M A :=
  fun w =>
    match m w with
    | (Ok a, w') => (Ok a, w')
    | (Raise e, w') => handler e w'
    end.

Definition lift {A} (r : result A) : M A := fun w => (r, w).

Declare Scope py_scope.
Delimit Scope py_scope with py.
Notation "x <- m ;; k" := (bind m (fun x => k))
  (at level 61, m at next level, right associativity) : py_scope.
Local Open Scope py_scope.

(** [random.choice(population)]; the population is logged as Python values. *)
Definition random_choice_with {A} (inj : A -> pyval) (env : Env)
    (population : list A) : M A :=
  fun w =>
    let i := random_index env w mod List.length population in
    match nth_error population i with
    | Some a => (Ok a, w ++ [EvChoice (map inj population) i])
    | None => (Raise IndexError, w)
    end.

Definition random_choice := random_choice_with (fun v : pyval => v).
Definition random_choice_str := random_choice_with PStr.

(** A Faker provider method called without arguments. *)
Definition call_faker (env : Env) (m : faker_method) : M pyval :=
  fun w => let v := faker env w m in (Ok v, w ++ [EvFaker m v]).

(** [model.generate_content(p).text] *)
Definition model_generate_content (env : Env) (p : prompt) : M string :=
  fun w =>
    let reply := service env w p in
    match reply with
    | Some text => (Ok text, w ++ [EvService p reply])
    | None => (Raise ServiceError, w ++ [EvService p reply])
    end.

(** [json.loads(text)] *)
Definition py_json_loads (env : Env) (text : string) : M pyval :=
  match json_loads env text with
  | Some v => ret v
  | None => raise JSONDecodeError
  end.

(* ================================================================== *)
(** ** Dynamic operations on Python values *)
(* ================================================================== *)

(** [v[key]] with a string key: only a dict can answer. *)
Definition py_getitem (v : pyval) (key : string) : result pyval :=
  match v with
  | PDict d =>
      match dict_get d key with
      | Some x => Ok x
      | None => Raise (KeyError key)
      end
  | _ => Raise TypeError
  end.

(** [v.get(key, default)]: only a dict has the method. *)
Definition py_get (v : pyval) (key : string) (default : pyval) : result pyval :=
  match v with
  | PDict d => Ok (dict_get_default d key default)
  | _ => Raise AttributeError
  end.

(** [len(v)] *)
Definition py_len (v : pyval) : result nat :=
  match v with
  | PStr s => Ok (String.length s)
  | PList items => Ok (List.length items)
  | PDict d => Ok (List.length d)
  | _ => Raise TypeError
  end.

(** The items that [for x in v] visits: the elements of a list, the
    characters of a string, the keys of a dict. *)
Definition py_iter (v : pyval) : result (list pyval) :=
  match v with
  | PList items => Ok items
  | PStr s => Ok (map (fun c => PStr (String c EmptyString)) (list_ascii_of_string s))
  | PDict d => Ok (map PStr (dict_keys d))
  | _ => Raise TypeError
  end.

(* ================================================================== *)
(** ** pandas: [pd.DataFrame(list of dicts)] *)
(* ================================================================== *)

(** A cell is a value or null: [None] stands for the null markers that
    [isna] recognises and [to_csv] writes as an empty field ([NaN], and
    the Python [None] where a column keeps it). *)
Definition cell := option pyval.

Record DataFrame : Type := {
  columns : list string;
  rows : list (list cell)
}.

(** New keys of a record are appended to the columns seen so far. *)
Fixpoint add_columns (cols : list string) (keys : list string) : list string :=
  match keys with
  | [] => cols
  | k :: rest =>
      if name_in k cols then add_columns cols rest
      else add_columns (cols ++ [k]) rest
  end.

Definition frame_columns (data : list (dict pyval)) : list string :=
  fold_left (fun cols record => add_columns cols (dict_keys record)) data [].

(** *** The dtype of a column

    [pd.DataFrame] first lays the records out as a table of objects, a
    key that a record lacks giving [NaN], and then looks for one dtype per
    column ([maybe_convert_objects]).  The scan of a column notes what it
    meets and stops at the first string or container. *)
Record Seen : Type := {
  null_ : bool;     (* a [None] *)
  nan_ : bool;      (* a [NaN] *)
  bool_ : bool;
  int_ : bool;
  uint_ : bool;     (* an integer above the signed 64-bit range *)
  sint_ : bool;     (* a negative integer *)
  float_ : bool;
  str_ : bool;
  object_ : bool
}.

Definition nothing_seen : Seen :=
  {| null_ := false; nan_ := false; bool_ := false; int_ := false;
     uint_ := false; sint_ := false; float_ := false; str_ := false;
     object_ := false |}.

Definition see_null (s : Seen) : Seen :=
  {| null_ := true; nan_ := nan_ s; bool_ := bool_ s; int_ := int_ s;
     uint_ := uint_ s; sint_ := sint_ s; float_ := float_ s; str_ := str_ s;
     object_ := object_ s |}.

Definition see_nan (s : Seen) : Seen :=
  {| null_ := null_ s; nan_ := true; bool_ := bool_ s; int_ := int_ s;
     uint_ := uint_ s; sint_ := sint_ s; float_ := float_ s; str_ := str_ s;
     object_ := object_ s |}.

Definition see_bool (s : Seen) : Seen :=
  {| null_ := null_ s; nan_ := nan_ s; bool_ := true; int_ := int_ s;
     uint_ := uint_ s; sint_ := sint_ s; float_ := float_ s; str_ := str_ s;
     object_ := object_ s |}.

Definition see_int (s : Seen) : Seen :=
  {| null_ := null_ s; nan_ := nan_ s; bool_ := bool_ s; int_ := true;
     uint_ := uint_ s; sint_ := sint_ s; float_ := float_ s; str_ := str_ s;
     object_ := object_ s |}.

Definition INT64_MIN : Z := (- 2 ^ 63)%Z.
Definition INT64_MAX : Z := (2 ^ 63 - 1)%Z.
Definition UINT64_MAX : Z := (2 ^ 64 - 1)%Z.

(** [Seen.saw_int]: the sign and size of an integer. *)
Definition saw_int (s : Seen) (z : Z) : Seen :=
  {| null_ := null_ s; nan_ := nan_ s; bool_ := bool_ s; int_ := int_ s;
     uint_ := uint_ s || ((INT64_MAX <? z)%Z && (z <=? UINT64_MAX)%Z);
     sint_ := sint_ s || ((INT64_MIN <=? z)%Z && (z <? 0)%Z);
     float_ := float_ s; str_ := str_ s; object_ := object_ s |}.

Definition see_float (s : Seen) : Seen :=
  {| null_ := null_ s; nan_ := nan_ s; bool_ := bool_ s; int_ := int_ s;
     uint_ := uint_ s; sint_ := sint_ s; float_ := true; str_ := str_ s;
     object_ := object_ s |}.

Definition see_str (s : Seen) : Seen :=
  {| null_ := null_ s; nan_ := nan_ s; bool_ := bool_ s; int_ := int_ s;
     uint_ := uint_ s; sint_ := sint_ s; float_ := float_ s; str_ := true;
     object_ := object_ s |}.

Definition see_object (s : Seen) : Seen :=
  {| null_ := null_ s; nan_ := nan_ s; bool_ := bool_ s; int_ := int_ s;
     uint_ := uint_ s; sint_ := sint_ s; float_ := float_ s; str_ := str_ s;
     object_ := true |}.

(** The float [NaN], carried by its [repr]. *)
Definition is_nan (repr : string) : bool := String.eqb repr "nan".

(** The scan over the objects of a column; [None] is the [NaN] of a
    lacking key.  The size of an integer is looked at only as long as no
    [None] was met. *)
Fixpoint scan (seen : Seen) (objects : list (option pyval)) : Seen :=
  match objects with
  | [] => seen
  | val :: rest =>
      match val with
      | None => scan (see_nan seen) rest
      | Some PNone => scan (see_null seen) rest
      | Some (PBool _) => scan (see_bool seen) rest
      | Some (PFloat repr) =>
          if is_nan repr then scan (see_nan seen) rest
          else scan (see_float seen) rest
      | Some (PInt z) =>
          let seen := see_int seen in
          if null_ seen then scan seen rest
          else
            let seen := saw_int seen z in
            if (uint_ seen && sint_ seen)
               || (UINT64_MAX <? z)%Z || (z <? INT64_MIN)%Z
            then see_object seen
            else scan seen rest
      | Some (PStr _) => see_str seen
      | Some (PList _) => see_object seen
      | Some (PDict _) => see_object seen
      end
  end.

(** The column becomes a column of floats: it holds numbers only, and
    among them a float, a [NaN], or a [None] beside an integer.  Every
    other column keeps its values: integers alone stay integers,
    booleans alone stay booleans, and a column with a string, a
    container, or a boolean beside anything else is a column of objects. *)
Definition converts_to_float (seen : Seen) : bool :=
  negb (object_ seen || str_ seen || bool_ seen)
  && (float_ seen || nan_ seen || (null_ seen && int_ seen)).

(** What a column stores for an object: a null marker for a lacking key,
    for [None] and for [NaN]; the float of an integer in a column of
    floats; the value itself otherwise. *)
Definition store (as_float : bool) (val : option pyval) : cell :=
  match val with
  | None => None
  | Some PNone => None
  | Some (PFloat repr) => if is_nan repr then None else val
  | Some (PInt z) => if as_float then Some (PFloat (float_repr z)) else val
  | Some _ => val
  end.

(** The objects of the records under a key. *)
Definition column_objects (data : list (dict pyval)) (c : string)
  : list (option pyval) :=
  map (fun record => dict_get record c) data.

Definition as_float (data : list (dict pyval)) (c : string) : bool :=
  converts_to_float (scan nothing_seen (column_objects data c)).

Definition frame_row (data : list (dict pyval)) (cols : list string)
    (record : dict pyval) : list cell :=
  map (fun c => store (as_float data c) (dict_get record c)) cols.

(** The columns are the keys in order of first appearance; a record that
    lacks a column gets a null cell there, and every column is brought to
    its dtype. *)
Definition pd_DataFrame (data : list (dict pyval)) : DataFrame :=
  let cols := frame_columns data in
  {| columns := cols; rows := map (frame_row data cols) data |}.

(** The keys of a sequence, each kept where it first occurs; [seen] are
    the keys met before. *)
Fixpoint first_occurrences (seen keys : list string) : list string :=
  match keys with
  | [] => []
  | k :: rest =>
      if name_in k seen then first_occurrences seen rest
      else k :: first_occurrences (k :: seen) rest
  end.

(** [df.empty]: some axis has length zero. *)
Definition df_empty (df : DataFrame) : bool :=
  (List.length (columns df) =? 0)%nat || (List.length (rows df) =? 0)%nat.

Definition nrows (df : DataFrame) : nat := List.length (rows df).

Fixpoint index_of (c : string) (cols : list string) : option nat :=
  match cols with
  | [] => None
  | c' :: rest =>
      if String.eqb c' c then Some O else option_map S (index_of c rest)
  end.

(** The cell of row [i] in column [c]; [None] when there is no such row or
    column, [Some None] for a null cell. *)
Definition df_cell (df : DataFrame) (i : nat) (c : string) : option cell :=
  match index_of c (columns df), nth_error (rows df) i with
  | Some j, Some r => nth_error r j
  | _, _ => None
  end.

(** The cell of a row under a column label. *)
Definition row_cell (cols : list string) (r : list cell) (c : string) : cell :=
  match index_of c cols with
  | Some j => nth j r None
  | None => None
  end.

(** [df[cols]]: the listed columns in the listed order; [KeyError] on a
    label that is not a column.  Column labels are unique in every frame
    built by [pd_DataFrame]. *)
Definition df_select (df : DataFrame) (cols : list string) : result DataFrame :=
  match find (fun c => negb (name_in c (columns df))) cols with
  | Some c => Raise (KeyError c)
  | None =>
      Ok {| columns := cols;
            rows := map (fun r => map (row_cell (columns df) r) cols) (rows df) |}
  end.

(** [df.drop(columns=cols)]: [KeyError] on a label that is not a column. *)
Definition df_drop (df : DataFrame) (cols : list string) : result DataFrame :=
  match find (fun c => negb (name_in c (columns df))) cols with
  | Some c => Raise (KeyError c)
  | None =>
      let kept := filter (fun c => negb (name_in c cols)) (columns df) in
      Ok {| columns := kept;
            rows := map (fun r => map (row_cell (columns df) r) kept) (rows df) |}
  end.

(* ================================================================== *)
(** * data_factory.py *)
(* ================================================================== *)

Module DataFactory.

(** A registry entry is a Python callable of fixed arity: the Faker
    methods and the lambdas are called without arguments, and
    [generate_ai_content] takes the prompt.  Calling with the wrong
    number of positional arguments raises [TypeError]. *)
Inductive callable : Type :=
| Fn0 (body : M pyval)
| Fn1 (body : string -> M pyval).

(** [f()] *)
Definition call0 (f : callable) : M pyval :=
  match f with
  | Fn0 body => body
  | Fn1 _ => raise TypeError
  end.

(** [f(arg)] *)
Definition call1 (f : callable) (arg : string) : M pyval :=
  match f with
  | Fn1 body => body arg
  | Fn0 _ => raise TypeError
  end.

(** [generate_ai_content(prompt)] *)
Definition generate_ai_content (env : Env) (prompt : string) : M pyval :=
  if negb (gemini_enabled env) then ret (PStr "AI_DISABLED")
  else
    try_except
      (response <- model_generate_content env (FieldPrompt prompt) ;;
       ret (PStr (strip response)))
      (fun _ => ret (PStr "AI_GENERATION_ERROR")).

(** The registry: type name, then case, then producer. *)
Definition TYPE_GENERATORS (env : Env) : dict (dict callable) :=
  [ ("name",
      [ ("positive", Fn0 (call_faker env fake_name));
        ("negative", Fn0 (random_choice env
                            [PStr ""; PStr "Name123"; PStr (str_mul "A" 201)])) ]);
    ("email",
      [ ("positive", Fn0 (call_faker env fake_safe_email));
        ("negative", Fn0 (ret (PStr "not-an-email"))) ]);
    ("password",
      [ ("positive", Fn0 (call_faker env (fake_password 12)));
        ("negative", Fn0 (ret (PStr "123"))) ]);
    ("integer",
      [ ("positive", Fn0 (call_faker env fake_random_int));
        ("negative", Fn0 (random_choice env
                            [PInt (-1); PFloat "999.9"; PStr "abc"])) ]);
    ("date",
      [ ("positive", Fn0 (call_faker env fake_date));
        ("negative", Fn0 (ret (PStr "2025-99-99"))) ]);
    ("uuid",
      [ ("positive", Fn0 (call_faker env fake_uuid4));
        ("negative", Fn0 (ret (PStr "not-a-uuid"))) ]);
    ("ai_text",
      [ ("positive", Fn1 (generate_ai_content env));
        ("negative", Fn0 (ret (PStr "INVALID_AI_PROMPT"))) ]) ].

(** A field descriptor [{'type': ..., 'prompt': ...}]; either key may be
    absent. *)
Record field_config : Type := {
  cfg_type : option string;
  cfg_prompt : option string
}.

(** A schema [{'fields': {...}}]; the key may be absent. *)
Record schema : Type := {
  schema_fields : option (dict field_config)
}.

(** [str(field_type)], where an absent type is [None]. *)
Definition type_str (field_type : option string) : string :=
  match field_type with
  | Some t => t
  | None => "None"
  end.

(** [field_type == name] *)
Definition type_is (field_type : option string) (name : string) : bool :=
  match field_type with
  | Some t => String.eqb t name
  | None => false
  end.

(** [TYPE_GENERATORS.get(field_type, {})] *)
Definition generators_of (env : Env) (field_type : option string)
  : dict callable :=
  match field_type with
  | Some t => dict_get_default (TYPE_GENERATORS env) t []
  | None => []
  end.

Definition sentinel (field_type : option string) (current_case : string)
  : string :=
  "NO_GENERATOR_FOR_" ++ type_str field_type ++ "_" ++ current_case.

(** Line 106: the case of one field of one row. *)
Definition select_case (env : Env) (test_type : string) : M string :=
  if negb (String.eqb test_type "mixed") then ret test_type
  else random_choice_str env ["positive"; "negative"].

(** Lines 108 to 119: the value stored under the field's name. *)
Definition field_value (env : Env) (field_config : field_config)
    (current_case : string) : M pyval :=
  let field_type := cfg_type field_config in
  let generator_map := generators_of env field_type in
  match dict_get generator_map current_case with
  | Some generator_func =>
      if type_is field_type "ai_text" then
        let prompt :=
          match cfg_prompt field_config with
          | Some p => p
          | None => "generate random text"
          end in
        call1 generator_func prompt
      else call0 generator_func
  | None => ret (PStr (sentinel field_type current_case))
  end.

(** The body of the inner loop (lines 105 to 119). *)
Definition field_step (env : Env) (test_type : string) (field_name : string)
    (field_config : field_config) (record : dict pyval) : M (dict pyval) :=
  current_case <- select_case env test_type ;;
  v <- field_value env field_config current_case ;;
  ret (dict_set record field_name v).

(** The inner loop over [fields.items()]. *)
Fixpoint build_record (env : Env) (test_type : string)
    (items : dict field_config) (record : dict pyval) : M (dict pyval) :=
  match items with
  | [] => ret record
  | (field_name, field_config) :: rest =>
      record' <- field_step env test_type field_name field_config record ;;
      build_record env test_type rest record'
  end.

(** The outer loop over [range(num_rows)]. *)
Fixpoint generate_rows (env : Env) (test_type : string)
    (fields : dict field_config) (n : nat) (data : list (dict pyval))
  : M (list (dict pyval)) :=
  match n with
  | O => ret data
  | S k =>
      record <- build_record env test_type fields [] ;;
      generate_rows env test_type fields k (data ++ [record])
  end.

(** [generate_data(schema, num_rows, test_type)] *)
Definition generate_data (env : Env) (schema : schema) (num_rows : Z)
    (test_type : string) : M DataFrame :=
  let fields :=
    match schema_fields schema with
    | Some f => f
    | None => []
    end in
  data <- generate_rows env test_type fields (Z.to_nat num_rows) [] ;;
  ret (pd_DataFrame data).

(** *** Observations used to state the properties *)

(** The cases [current_case] can take under a policy (line 106). *)
Definition cases_of (test_type : string) : list string :=
  if String.eqb test_type "mixed" then ["positive"; "negative"] else [test_type].

(** The case picked by a trace event, when the event is a draw from
    [['positive', 'negative']]. *)
Definition drawn_case (ev : event) : option string :=
  match ev with
  | EvChoice [PStr a; PStr b] i =>
      if String.eqb a "positive" && String.eqb b "negative"
      then nth_error [a; b] i
      else None
  | _ => None
  end.

(** The case draws of a trace, oldest first. *)
Fixpoint case_draws (evs : list event) : list string :=
  match evs with
  | [] => []
  | ev :: rest =>
      match drawn_case ev with
      | Some c => c :: case_draws rest
      | None => case_draws rest
      end
  end.

(** Every case draw among [evs], the events that follow the history [w],
    picked the member of [['positive', 'negative']] that the random source
    pointed at when the draw was made. *)
Fixpoint draws_follow (env : Env) (w : World) (evs : list event) : Prop :=
  match evs with
  | [] => True
  | ev :: rest =>
      (forall c, drawn_case ev = Some c ->
                 nth_error ["positive"; "negative"]
                           (random_index env w mod 2) = Some c)
      /\ draws_follow env (w ++ [ev]) rest
  end.

(** An environment like [base] whose random source makes the k-th case
    draw of a run pick the k-th entry of [cases]. *)
Definition steered (base : Env) (cases : list string) : Env :=
  {| random_index := fun w =>
       if String.eqb (nth (List.length (case_draws w)) cases "positive")
                     "negative"
       then 1 else 0;
     faker := faker base;
     service := service base;
     json_loads := json_loads base;
     gemini_enabled := gemini_enabled base;
     open_error := open_error base |}.

(** The sequences of [n] answers of the random source to draws from
    [['positive', 'negative']], each named by the member it picks.  The
    [random] module makes every one of them as likely as any other. *)
Fixpoint answer_sequences (n : nat) : list (list string) :=
  match n with
  | O => [[]]
  | S k =>
      map (cons "positive") (answer_sequences k)
      ++ map (cons "negative") (answer_sequences k)
  end.

Fixpoint same_cases (l1 l2 : list string) : bool :=
  match l1, l2 with
  | [], [] => true
  | a :: r1, b :: r2 => String.eqb a b && same_cases r1 r2
  | _, _ => false
  end.

(** Some run of lines 108 to 119 stores [v] for the field under
    [current_case]. *)
Definition field_value_gives (env : Env) (field_config : field_config)
    (current_case : string) (v : pyval) : Prop :=
  exists w w', field_value env field_config current_case w = (Ok v, w').

(** What the generators of lines 40 to 47 are, read off the registry one
    entry at a time: a Faker provider, a draw from a literal list, a
    constant, or [generate_ai_content]. *)
Inductive generator : Type :=
| Provider (method : faker_method)
| Draw (population : list pyval)
| Constant (v : pyval)
| AiContent.

Definition registered : list (string * string * generator) :=
  [ ("name", "positive", Provider fake_name);
    ("name", "negative",
       Draw [PStr ""; PStr "Name123"; PStr (str_mul "A" 201)]);
    ("email", "positive", Provider fake_safe_email);
    ("email", "negative", Constant (PStr "not-an-email"));
    ("password", "positive", Provider (fake_password 12));
    ("password", "negative", Constant (PStr "123"));
    ("integer", "positive", Provider fake_random_int);
    ("integer", "negative", Draw [PInt (-1); PFloat "999.9"; PStr "abc"]);
    ("date", "positive", Provider fake_date);
    ("date", "negative", Constant (PStr "2025-99-99"));
    ("uuid", "positive", Provider fake_uuid4);
    ("uuid", "negative", Constant (PStr "not-a-uuid"));
    ("ai_text", "positive", AiContent);
    ("ai_text", "negative", Constant (PStr "INVALID_AI_PROMPT")) ].

Fixpoint generator_for (table : list (string * string * generator))
    (type case : string) : option generator :=
  match table with
  | [] => None
  | (t, c, g) :: rest =>
      if String.eqb t type && String.eqb c case then Some g
      else generator_for rest type case
  end.

(** [v] is a value the generator can return when called at the field's
    prompt. *)
Definition returns (env : Env) (g : generator) (prompt : string) (v : pyval)
  : Prop :=
  match g with
  | Provider method => exists w, v = faker env w method
  | Draw population => In v population
  | Constant c => v = c
  | AiContent =>
      (gemini_enabled env = false /\ v = PStr "AI_DISABLED")
      \/
      (gemini_enabled env = true /\
       exists w,
         match service env w (FieldPrompt prompt) with
         | Some text => v = PStr (strip text)
         | None => v = PStr "AI_GENERATION_ERROR"
         end)
  end.

(** [v] is a value of the generator registered for the field's type under
    [current_case], called at the field's prompt or at [generate random
    text]; or, when none is registered, the text
    [NO_GENERATOR_FOR_<type>_<case>]. *)
Definition produced_by (env : Env) (field_config : field_config)
    (current_case : string) (v : pyval) : Prop :=
  let type :=
    match cfg_type field_config with
    | Some t => t
    | None => "None"
    end in
  let prompt :=
    match cfg_prompt field_config with
    | Some p => p
    | None => "generate random text"
    end in
  match cfg_type field_config with
  | Some t =>
      match generator_for registered t current_case with
      | Some g => returns env g prompt v
      | None => v = PStr ("NO_GENERATOR_FOR_" ++ type ++ "_" ++ current_case)
      end
  | None => v = PStr ("NO_GENERATOR_FOR_" ++ type ++ "_" ++ current_case)
  end.

(** The field names of a schema, in schema order. *)
Definition fields_of (schema : schema) : dict field_config :=
  match schema_fields schema with
  | Some f => f
  | None => []
  end.

Definition field_names (schema : schema) : list string :=
  dict_keys (fields_of schema).

(** A generated row seen as the (case, value) chosen for each field. *)
Definition cell_ok (env : Env) (test_type : string)
    (item : string * field_config) (cv : string * pyval) : Prop :=
  In (fst cv) (cases_of test_type) /\
  field_value_gives env (snd item) (fst cv) (snd cv).

(** The record obtained by storing the values of a row under the field
    names, in order, starting from [record]. *)
Definition record_of (names : list string) (cvs : list (string * pyval))
    (record : dict pyval) : dict pyval :=
  fold_left (fun r nv => dict_set r (fst nv) (snd (snd nv)))
            (combine names cvs) record.

(** The cases drawn by a run under the mixed policy from an empty
    history, in the order of the draws. *)
Definition cases_drawn (env : Env) (schema : schema) (num_rows : Z)
  : list string :=
  case_draws (snd (generate_data env schema num_rows "mixed" [])).

(** The records of a grid of rows. *)
Definition grid_records (names : list string)
    (grid : list (list (string * pyval))) : list (dict pyval) :=
  map (fun cvs => record_of names cvs []) grid.

End DataFactory.

(* ================================================================== *)
(** * test_strategist.py *)
(* ================================================================== *)

Module TestStrategist.

(** [text.strip().replace("```json", "").replace("```", "")] *)
Definition strip_fences (text : string) : string :=
  replace "```" "" (replace "```json" "" (strip text)).

(** [generate_test_plan(requirement)]; the Python [None] is [None]. *)
Definition generate_test_plan (env : Env) (requirement : string)
  : M (option pyval) :=
  try_except
    (response <- model_generate_content env (PlanPrompt requirement) ;;
     let json_text := strip_fences response in
     plan <- py_json_loads env json_text ;;
     scenarios <- lift (py_getitem plan "scenarios") ;;
     _ <- lift (py_len scenarios) ;;
     ret (Some plan))
    (fun _ => ret None).

(** [get_ideal_row_count(plan)].  The [json.dumps(plan, indent=2)] of the
    prompt, evaluated before the guarded block, cannot fail on a parsed
    plan. *)
Definition get_ideal_row_count (env : Env) (plan : pyval) : M Z :=
  try_except
    (response <- model_generate_content env (RowCountPrompt plan) ;;
     match py_int (strip response) with
     | Some ideal_count => ret ideal_count
     | None => raise ValueError
     end)
    (fun _ => ret 3%Z).

(** [row['scenario_name'] = scenario_name; row['test_type'] = test_type] *)
Definition tag_row (scenario_name test_type : pyval) (row : pyval)
  : result (dict pyval) :=
  match row with
  | PDict d =>
      Ok (dict_set (dict_set d "scenario_name" scenario_name)
                   "test_type" test_type)
  | _ => Raise TypeError
  end.

(** The loop of lines 91 to 93 over the parsed rows. *)
Fixpoint tag_rows (scenario_name test_type : pyval) (generated : list pyval)
  : result (list (dict pyval)) :=
  match generated with
  | [] => Ok []
  | row :: rest =>
      match tag_row scenario_name test_type row with
      | Raise e => Raise e
      | Ok tagged =>
          match tag_rows scenario_name test_type rest with
          | Raise e => Raise e
          | Ok others => Ok (tagged :: others)
          end
      end
  end.

(** The guarded block of lines 88 to 93: the rows of one scenario. *)
Definition scenario_rows (env : Env) (rows_per_scenario : Z)
    (fields scenario_name description test_type : pyval)
  : M (list (dict pyval)) :=
  response <- model_generate_content env
                (ScenarioPrompt rows_per_scenario description fields) ;;
  let json_text := strip_fences response in
  generated_rows <- py_json_loads env json_text ;;
  items <- lift (py_iter generated_rows) ;;
  lift (tag_rows scenario_name test_type items).

(** The body of the loop over the scenarios (lines 75 to 96).  The
    [len(plan['scenarios'])] printed on line 79 and the [json.dumps(fields)]
    of the prompt cannot fail once the loop runs over a parsed plan. *)
Definition scenario_step (env : Env) (rows_per_scenario : Z) (fields : pyval)
    (scenario : pyval) (all_test_data : list (dict pyval))
  : M (list (dict pyval)) :=
  scenario_name <- lift (py_getitem scenario "scenario_name") ;;
  description <- lift (py_getitem scenario "description") ;;
  test_type <- lift (py_getitem scenario "test_type") ;;
  try_except
    (tagged <- scenario_rows env rows_per_scenario fields
                 scenario_name description test_type ;;
     ret (all_test_data ++ tagged))
    (fun _ => ret all_test_data).

Fixpoint scenarios_loop (env : Env) (rows_per_scenario : Z) (fields : pyval)
    (scenarios : list pyval) (all_test_data : list (dict pyval))
  : M (list (dict pyval)) :=
  match scenarios with
  | [] => ret all_test_data
  | scenario :: rest =>
      all_test_data' <- scenario_step env rows_per_scenario fields scenario
                          all_test_data ;;
      scenarios_loop env rows_per_scenario fields rest all_test_data'
  end.

(** [generate_data_for_plan(plan, rows_per_scenario)] *)
Definition generate_data_for_plan (env : Env) (plan : pyval)
    (rows_per_scenario : Z) : M DataFrame :=
  fields <- lift (py_get plan "fields" (PList [])) ;;
  scenarios_value <- lift (py_getitem plan "scenarios") ;;
  scenarios <- lift (py_iter scenarios_value) ;;
  all_test_data <- scenarios_loop env rows_per_scenario fields scenarios [] ;;
  ret (pd_DataFrame all_test_data).

Definition cols_to_move : list string := ["scenario_name"; "test_type"].

(** Lines 126 to 138 of [main]: the full report and the data-only frame,
    or nothing when the frame is empty. *)
Definition main_reports (df : DataFrame)
  : result (option (DataFrame * DataFrame)) :=
  if negb (df_empty df) then
    match df_select df
            (cols_to_move ++
             filter (fun col => negb (name_in col cols_to_move)) (columns df))
    with
    | Raise e => Raise e
    | Ok df_full =>
        match df_drop df cols_to_move with
        | Raise e => Raise e
        | Ok data_only_df => Ok (Some (df_full, data_only_df))
        end
    end
  else Ok None.

(** *** Observations used to state the properties *)

(** The scenario is a dict with the three keys read on lines 75 to 77. *)
Definition has_keys (scenario : pyval) : bool :=
  match scenario with
  | PDict d =>
      dict_has d "scenario_name" && dict_has d "description"
      && dict_has d "test_type"
  | _ => false
  end.

(** What the guarded block yields for a scenario asked at history [w]:
    the tagged rows, or nothing when the block raised; and the history
    afterwards. *)
Definition scenario_outcome (env : Env) (rows_per_scenario : Z)
    (fields scenario : pyval) (w : World)
  : option (list (dict pyval)) * World :=
  match py_getitem scenario "scenario_name",
        py_getitem scenario "description",
        py_getitem scenario "test_type" with
  | Ok scenario_name, Ok description, Ok test_type =>
      match scenario_rows env rows_per_scenario fields
              scenario_name description test_type w with
      | (Ok tagged, w') => (Some tagged, w')
      | (Raise _, w') => (None, w')
      end
  | _, _, _ => (None, w)
  end.

(** The outcomes of the scenarios of a plan, asked one after the other. *)
Fixpoint plan_outcomes (env : Env) (rows_per_scenario : Z) (fields : pyval)
    (scenarios : list pyval) (w : World)
  : list (option (list (dict pyval))) :=
  match scenarios with
  | [] => []
  | scenario :: rest =>
      let (outcome, w') :=
        scenario_outcome env rows_per_scenario fields scenario w in
      outcome :: plan_outcomes env rows_per_scenario fields rest w'
  end.

Definition rows_or_skip (outcome : option (list (dict pyval)))
  : list (dict pyval) :=
  match outcome with
  | Some tagged => tagged
  | None => []
  end.

(** The rows of all the scenarios that succeeded, in plan order. *)
Definition plan_rows (outcomes : list (option (list (dict pyval))))
  : list (dict pyval) :=
  List.concat (map rows_or_skip outcomes).

Definition succeeded (outcome : option (list (dict pyval))) : bool :=
  match outcome with
  | Some _ => true
  | None => false
  end.

(** The number of scenarios whose rows were generated. *)
Definition successes (outcomes : list (option (list (dict pyval)))) : nat :=
  List.length (filter succeeded outcomes).

(** The row carries the provenance of its scenario. *)
Definition tagged_with (scenario_name test_type : pyval) (row : dict pyval)
  : Prop :=
  dict_get row "scenario_name" = Some scenario_name /\
  dict_get row "test_type" = Some test_type.

(** The record has both provenance keys. *)
Definition has_tag_keys (row : dict pyval) : Prop :=
  In "scenario_name" (dict_keys row) /\ In "test_type" (dict_keys row).

(** *** The rows as the replies of the service give them

    What a dataset should hold, read off the replies alone: these
    definitions do not go through the loop of lines 74 to 96. *)

Definition is_object (v : pyval) : bool :=
  match v with
  | PDict _ => true
  | _ => false
  end.

(** The objects a reply holds: there is a reply, it parses once the code
    fences are taken out, the parsed value can be gone through, and all
    that it holds are objects.  Any other reply holds nothing usable. *)
Definition returned_objects (env : Env) (reply : option string)
  : option (list pyval) :=
  match reply with
  | None => None
  | Some text =>
      match json_loads env (strip_fences text) with
      | None => None
      | Some generated =>
          match py_iter generated with
          | Ok items => if forallb is_object items then Some items else None
          | Raise _ => None
          end
      end
  end.

(** An object with the two provenance keys set. *)
Definition tagged (scenario_name test_type : pyval) (item : pyval)
  : dict pyval :=
  match item with
  | PDict d =>
      dict_set (dict_set d "scenario_name" scenario_name) "test_type" test_type
  | _ => []
  end.

(** The rows a scenario contributes for a reply: the objects of the
    reply, all of them and in the order returned, each tagged with the
    scenario's name and test type; nothing for an unusable reply. *)
Definition contribution (env : Env) (scenario : pyval) (reply : option string)
  : list (dict pyval) :=
  match py_getitem scenario "scenario_name",
        py_getitem scenario "test_type",
        returned_objects env reply with
  | Ok scenario_name, Ok test_type, Some items =>
      map (tagged scenario_name test_type) items
  | _, _, _ => []
  end.

(** The request made for a scenario (lines 80 to 86). *)
Definition request_for (rows_per_scenario : Z) (fields scenario : pyval)
  : option prompt :=
  match py_getitem scenario "description" with
  | Ok description => Some (ScenarioPrompt rows_per_scenario description fields)
  | Raise _ => None
  end.

(** The exchanges with the service over a plan, one per scenario in plan
    order, each reply being the service's answer after the exchanges
    before it. *)
Fixpoint exchanges (env : Env) (rows_per_scenario : Z) (fields : pyval)
    (scenarios : list pyval) (w : World) : list (prompt * option string) :=
  match scenarios with
  | [] => []
  | scenario :: rest =>
      match request_for rows_per_scenario fields scenario with
      | Some request =>
          let reply := service env w request in
          (request, reply)
          :: exchanges env rows_per_scenario fields rest
               (w ++ [EvService request reply])
      | None => []
      end
  end.

(** The trace event of an exchange. *)
Definition exchange_event (x : prompt * option string) : event :=
  EvService (fst x) (snd x).

(** What each scenario contributes, in plan order. *)
Definition contributions (env : Env) (scenarios : list pyval)
    (replies : list (option string)) : list (list (dict pyval)) :=
  map (fun sr => contribution env (fst sr) (snd sr)) (combine scenarios replies).

(** [len(plan['scenarios'])] can be taken (line 42). *)
Definition has_sized_scenarios (plan : pyval) : bool :=
  match py_getitem plan "scenarios" with
  | Ok scenarios =>
      match py_len scenarios with
      | Ok _ => true
      | Raise _ => false
      end
  | Raise _ => false
  end.

End TestStrategist.

(* ================================================================== *)
(** * The interactive front ends *)
(* ================================================================== *)

(** ** More Python operations *)

(** [s.endswith(suffix)]: some tail of [s] is [suffix]. *)
Fixpoint endswith (s suffix : string) : bool :=
  String.eqb s suffix
  || match s with
     | EmptyString => false
     | String _ rest => endswith rest suffix
     end.

(** [c.lower()] on the code points below 256: the ASCII capitals and the
    Latin-1 capitals other than the multiplication sign. *)
Definition lower_char (c : ascii) : ascii :=
  let n := nat_of_ascii c in
  if (((65 <=? n) && (n <=? 90))
      || ((192 <=? n) && (n <=? 222) && negb (n =? 215)))%nat
  then ascii_of_nat (n + 32) else c.

(** [s.lower()] *)
Fixpoint py_lower (s : string) : string :=
  match s with
  | EmptyString => EmptyString
  | String c rest => String (lower_char c) (py_lower rest)
  end.

(** [bool(v)] *)
Definition py_truthy (v : pyval) : bool :=
  match v with
  | PNone => false
  | PBool b => b
  | PInt z => negb (z =? 0)%Z
  | PFloat repr => negb (String.eqb repr "0.0" || String.eqb repr "-0.0")
  | PStr s => negb (String.eqb s "")
  | PList items => negb (List.length items =? 0)%nat
  | PDict d => negb (List.length d =? 0)%nat
  end.

(** [l[i]] with an integer index, negative indices counting from the end. *)
Definition list_getitem {A} (l : list A) (i : Z) : result A :=
  let n := Z.of_nat (List.length l) in
  let j := if (i <? 0)%Z then (n + i)%Z else i in
  if ((0 <=? j) && (j <? n))%Z then
    match nth_error l (Z.to_nat j) with
    | Some a => Ok a
    | None => Raise IndexError
    end
  else Raise IndexError.

(** [d[k]] on a dict with integer keys. *)
Fixpoint int_dict_getitem {V} (d : list (Z * V)) (k : Z) : result V :=
  match d with
  | [] => Raise (KeyError (repr_int k))
  | (k', v) :: rest => if (k' =? k)%Z then Ok v else int_dict_getitem rest k
  end.

(** ** The console *)

Module Console.

(** A session: the lines still to be typed on standard input, the history
    of external calls, and the frames written by [to_csv] with their file
    names, oldest first. *)
Record Session : Type := {
  stdin : list string;
  world : World;
  written : list (string * DataFrame)
}.

(** How a run ends: with a value, with an exception of the program, or
    with the [EOFError] of [input()] on an exhausted standard input, which
    no handler of the source catches. *)
Inductive outcome (A : Type) : Type :=
| Returned (a : A)
| Raised (e : exn)
| EndOfInput.
Arguments Returned {A} a.
Arguments Raised {A} e.
Arguments EndOfInput {A}.

Definition IO (A : Type) : Type := Session -> outcome A * Session.

Definition io_ret {A} (a : A) : IO A := fun s => (Returned a, s).

Definition io_bind {A B} (m : IO A) (k : A -> IO B) : IO B :=
  fun s =>
    match m s with
    | (Returned a, s') => k a s'
    | (Raised e, s') => (Raised e, s')
    | (EndOfInput, s') => (EndOfInput, s')
    end.

(** A computation that only talks to the random source, Faker and the
    service. *)
Definition run {A} (m : M A) : IO A :=
  fun s =>
    match m (world s) with
    | (Ok a, w') =>
        (Returned a, {| stdin := stdin s; world := w'; written := written s |})
    | (Raise e, w') =>
        (Raised e, {| stdin := stdin s; world := w'; written := written s |})
    end.

Definition io_lift {A} (r : result A) : IO A :=
  fun s =>
    match r with
    | Ok a => (Returned a, s)
    | Raise e => (Raised e, s)
    end.

(** [df.to_csv(filename, index=False)]: the file is written, or the
    exception of a path that cannot be opened is raised and nothing is
    written. *)
Definition to_csv (env : Env) (df : DataFrame) (filename : string) : IO unit :=
  fun s =>
    match open_error env (map fst (written s)) filename with
    | Some e => (Raised e, s)
    | None =>
        (Returned tt,
         {| stdin := stdin s; world := world s;
            written := written s ++ [(filename, df)] |})
    end.

(** Taking lines off standard input: [Some] with the value obtained and
    the lines left, or [None] when the input ran out. *)
Definition reading {A} (loop : list string -> option (A * list string))
  : IO A :=
  fun s =>
    match loop (stdin s) with
    | Some (value, rest) =>
        (Returned value,
         {| stdin := rest; world := world s; written := written s |})
    | None =>
        (EndOfInput,
         {| stdin := []; world := world s; written := written s |})
    end.

End Console.

Declare Scope io_scope.
Delimit Scope io_scope with io.
Notation "x <~ m ;; k" := (Console.io_bind m (fun x => k))
  (at level 61, m at next level, right associativity) : io_scope.

(** ** data_factory.py: the interactive schema builder and [main] *)

Module DataFactoryCli.
Import Console DataFactory.
Local Open Scope io_scope.

(** The loop of [get_user_input] over the lines still to be read: a line
    whose conversion raises [ValueError] ([None]) or whose value fails the
    validation is answered with a message and the next line is asked for. *)
Fixpoint first_valid {A} (type_converter : string -> option A)
    (validation : A -> bool) (lines : list string)
  : option (A * list string) :=
  match lines with
  | [] => None
  | line :: rest =>
      match type_converter line with
      | Some value =>
          if validation value then Some (value, rest)
          else first_valid type_converter validation rest
      | None => first_valid type_converter validation rest
      end
  end.

(** [get_user_input(prompt, type_converter, validation)] *)
Definition get_user_input {A} (type_converter : string -> option A)
    (validation : A -> bool) : IO A :=
  reading (first_valid type_converter validation).

(** The default arguments: [str] and [lambda x: True]. *)
Definition as_str (line : string) : option string := Some line.
Definition any_value {A} (x : A) : bool := true.

(** [list(TYPE_GENERATORS.keys())] *)
Definition available_types (env : Env) : list string :=
  dict_keys (TYPE_GENERATORS env).

(** The loop of lines 74 to 92 over [range(num_fields)]. *)
Fixpoint define_fields (env : Env) (n : nat) (fields : dict field_config)
  : IO (dict field_config) :=
  match n with
  | O => io_ret fields
  | S k =>
      field_name <~ get_user_input as_str any_value ;;
      type_index <~ get_user_input py_int
                      (fun x => (1 <=? x)%Z &&
                                (x <=? Z.of_nat (List.length (available_types env)))%Z) ;;
      field_type <~ io_lift (list_getitem (available_types env) (type_index - 1)) ;;
      let fields :=
        dict_set fields field_name
                 {| cfg_type := Some field_type; cfg_prompt := None |} in
      if String.eqb field_type "ai_text" then
        if negb (gemini_enabled env) then define_fields env k fields
        else
          ai_prompt <~ get_user_input as_str any_value ;;
          define_fields env k
            (dict_set fields field_name
                      {| cfg_type := Some field_type;
                         cfg_prompt := Some ai_prompt |})
      else define_fields env k fields
  end.

(** [build_schema_interactively()] *)
Definition build_schema_interactively (env : Env) : IO schema :=
  num_fields <~ get_user_input py_int (fun x => (0 <? x)%Z) ;;
  fields <~ define_fields env (Z.to_nat num_fields) [] ;;
  io_ret {| schema_fields := Some fields |}.

Definition test_type_map : list (Z * string) :=
  [(1%Z, "positive"); (2%Z, "negative"); (3%Z, "mixed")].

(** [main()] *)
Definition main (env : Env) : IO unit :=
  schema <~ build_schema_interactively env ;;
  num_rows <~ get_user_input py_int (fun x => (0 <? x)%Z) ;;
  test_type_choice <~ get_user_input py_int
                        (fun x => existsb (Z.eqb x) [1%Z; 2%Z; 3%Z]) ;;
  test_type <~ io_lift (int_dict_getitem test_type_map test_type_choice) ;;
  output_filename <~ get_user_input as_str any_value ;;
  let output_filename :=
    if negb (endswith output_filename ".csv")
    then (output_filename ++ ".csv")%string else output_filename in
  df <~ run (generate_data env schema num_rows test_type) ;;
  if negb (df_empty df) then to_csv env df output_filename else io_ret tt.

End DataFactoryCli.

(** ** test_strategist.py: [get_user_input] and [main] *)

Module TestStrategistCli.
Import Console TestStrategist.
Local Open Scope io_scope.

(** The loop of [get_user_input] over the lines still to be read: a line
    that is empty once stripped is answered with a message and the next
    line is asked for. *)
Fixpoint first_nonblank (lines : list string) : option (string * list string) :=
  match lines with
  | [] => None
  | line :: rest =>
      let value := strip line in
      if py_truthy (PStr value) then Some (value, rest)
      else first_nonblank rest
  end.

(** [get_user_input(prompt)] *)
Definition get_user_input : IO string := reading first_nonblank.

(** Lines 110 to 118: the number of rows per scenario. *)
Definition rows_per_scenario_of (env : Env) (test_plan : pyval)
    (rows_input : string) : IO Z :=
  if name_in (py_lower rows_input) ["ideal"; "ai"; "auto"] then
    run (get_ideal_row_count env test_plan)
  else
    match py_int rows_input with
    | Some rows_per_scenario => io_ret rows_per_scenario
    | None => io_ret 3%Z
    end.

(** Lines 126 to 138: the two files, written one after the other. *)
Definition write_reports (env : Env) (df : DataFrame)
    (output_filename : string) : IO unit :=
  if negb (df_empty df) then
    let full_report_filename :=
      replace ".csv" "_full_report.csv" output_filename in
    df_full <~ io_lift
                 (df_select df
                    (cols_to_move ++
                     filter (fun col => negb (name_in col cols_to_move))
                            (columns df))) ;;
    _ <~ to_csv env df_full full_report_filename ;;
    let data_only_filename :=
      replace ".csv" "_data_only.csv" output_filename in
    data_only_df <~ io_lift (df_drop df cols_to_move) ;;
    to_csv env data_only_df data_only_filename
  else io_ret tt.

(** [main()] *)
Definition main (env : Env) : IO unit :=
  requirement <~ get_user_input ;;
  test_plan <~ run (generate_test_plan env requirement) ;;
  match test_plan with
  | None => io_ret tt
  | Some test_plan =>
      if negb (py_truthy test_plan) then io_ret tt
      else
        rows_input <~ get_user_input ;;
        rows_per_scenario <~ rows_per_scenario_of env test_plan rows_input ;;
        output_filename <~ get_user_input ;;
        let output_filename :=
          if negb (endswith output_filename ".csv")
          then (output_filename ++ ".csv")%string else output_filename in
        df <~ run (generate_data_for_plan env test_plan rows_per_scenario) ;;
        write_reports env df output_filename
  end.

End TestStrategistCli.

(** ** Observations on traces *)

Definition is_random_call (ev : event) : bool :=
  match ev with
  | EvChoice _ _ => true
  | _ => false
  end.

Definition is_service_call (ev : event) : bool :=
  match ev with
  | EvService _ _ => true
  | _ => false
  end.

(** Whatever the history and the result, the computation only adds events
    that satisfy [P]. *)
Definition emits {A} (P : event -> Prop) (m : M A) : Prop :=
  forall w, exists evs, snd (m w) = w ++ evs /\ Forall P evs.

(** The text has no code fence at any position. *)
Fixpoint fence_free (s : string) : bool :=
  negb (String.prefix "```" s)
  && match s with
     | EmptyString => true
     | String _ rest => fence_free rest
     end.

(** ** Observations on the front ends *)

(** The line is turned down by [get_user_input] of data_factory.py: its
    conversion fails or its value does not pass the validation. *)
Definition rejected {A} (type_converter : string -> option A)
    (validation : A -> bool) (line : string) : Prop :=
  match type_converter line with
  | Some value => validation value = false
  | None => True
  end.

(** A descriptor as the schema builder makes them: a type taken from the
    menu, and a prompt exactly when the type is [ai_text] and the text
    service is configured. *)
Definition built_config (env : Env) (cfg : DataFactory.field_config) : Prop :=
  exists t,
    DataFactory.cfg_type cfg = Some t /\
    In t (DataFactoryCli.available_types env) /\
    (DataFactory.cfg_prompt cfg <> None <->
     t = "ai_text" /\ gemini_enabled env = true).

(** [lstrip] on the list of characters of a string. *)
Fixpoint drop_spaces (l : list ascii) : list ascii :=
  match l with
  | [] => []
  | c :: rest => if py_isspace c then drop_spaces rest else l
  end.

(** The list does not start with white space. *)
Definition head_clean (l : list ascii) : Prop :=
  match l with
  | [] => True
  | c :: _ => py_isspace c = false
  end.

(** The character of a code fence. *)
Definition tick : ascii := "`"%char.


(* ================================================================== *)
(** * Sample inputs *)
(* ================================================================== *)

Module Samples.
Import DataFactory.

(** A double quote, for JSON text. *)
Definition dq : string := String (ascii_of_nat 34) EmptyString.

Definition is_choice (ev : event) : bool :=
  match ev with
  | EvChoice _ _ => true
  | _ => false
  end.

(** An environment whose random source counts the draws made so far (so
    successive draws walk through a population), whose Faker returns fixed
    values, whose service answers the
    n-th call of a run with the n-th reply of a script, and whose JSON
    parser is a table of the texts used below. *)
Definition scripted (replies : list (option string))
    (parsed : dict pyval) : Env :=
  {| random_index := fun w => List.length (filter is_choice w);
     faker := fun _ m =>
       match m with
       | fake_random_int => PInt 4821
       | fake_name => PStr "Asha Rao"
       | fake_safe_email => PStr "asha@example.org"
       | fake_password _ => PStr "q7!Lm2#xWz9p"
       | fake_date => PStr "2011-04-23"
       | fake_uuid4 => PStr "1b4e28ba-2fa1-41d2-883f-0016d3cca427"
       end;
     service := fun w _ => nth (List.length w) replies None;
     json_loads := fun text => dict_get parsed text;
     gemini_enabled := true;
     open_error := fun _ _ => None |}.

Definition quiet : Env := scripted [] [].

Definition field (type : string) : field_config :=
  {| cfg_type := Some type; cfg_prompt := None |}.

(** [{'fields': {'bio': {'type': 'ai_text', 'prompt': 'a short bio'}}}] *)
Definition bio_schema : schema :=
  {| schema_fields :=
       Some [("bio", {| cfg_type := Some "ai_text";
                        cfg_prompt := Some "a short bio" |})] |}.

(** [{'fields': {'email': {'type': 'email'}, 'bio': {'type': 'ai_text'}}}] *)
Definition email_bio_schema : schema :=
  {| schema_fields := Some [("email", field "email"); ("bio", field "ai_text")] |}.

(** [{'fields': {'code': {'type': 'foo'}, 'email': {'type': 'email'}}}] *)
Definition foo_schema : schema :=
  {| schema_fields := Some [("code", field "foo"); ("email", field "email")] |}.

(** [{'fields': {'code': {'type': 'foo'}, 'bio': {'type': 'ai_text'}}}] *)
Definition foo_bio_schema : schema :=
  {| schema_fields := Some [("code", field "foo"); ("bio", field "ai_text")] |}.

(** [{'fields': {'a': {'type': 'email'}, 'b': {'type': 'email'}}}] *)
Definition two_emails_schema : schema :=
  {| schema_fields := Some [("a", field "email"); ("b", field "email")] |}.

(** A scenario object of a plan. *)
Definition scenario (name test_type : string) : pyval :=
  PDict [("scenario_name", PStr name); ("test_type", PStr test_type);
         ("description", PStr "as named")].

(** A plan over the fields [a] and [b] with three scenarios. *)
Definition login_plan : pyval :=
  PDict [("fields", PList [PStr "a"; PStr "b"]);
         ("scenarios",
          PList [scenario "valid login" "positive";
                 scenario "wrong password" "negative";
                 scenario "empty form" "negative"])].

(** A plan with a single scenario. *)
Definition single_plan : pyval :=
  PDict [("fields", PList [PStr "a"; PStr "b"]);
         ("scenarios", PList [scenario "valid login" "positive"])].

(** A plan whose second scenario has no [description]. *)
Definition broken_plan : pyval :=
  PDict [("fields", PList [PStr "a"]);
         ("scenarios",
          PList [scenario "valid login" "positive";
                 PDict [("scenario_name", PStr "wrong password");
                        ("test_type", PStr "negative")]])].

(** [{"fields": [], "scenarios": []}] *)
Definition empty_plan : pyval :=
  PDict [("fields", PList []); ("scenarios", PList [])].

(** JSON texts and what [json.loads] makes of them. *)
Definition two_rows_text : string :=
  "[{" ++ dq ++ "a" ++ dq ++ ": 1}, {" ++ dq ++ "b" ++ dq ++ ": 2}]".
Definition two_rows : pyval :=
  PList [PDict [("a", PInt 1)]; PDict [("b", PInt 2)]].

Definition one_row_text : string :=
  "[{" ++ dq ++ "a" ++ dq ++ ": 3, " ++ dq ++ "b" ++ dq ++ ": 4}]".
Definition one_row : pyval :=
  PList [PDict [("a", PInt 3); ("b", PInt 4)]].

Definition empty_plan_text : string :=
  "{" ++ dq ++ "fields" ++ dq ++ ": [], "
      ++ dq ++ "scenarios" ++ dq ++ ": []}".

Definition parsed : dict pyval :=
  [(two_rows_text, two_rows); (one_row_text, one_row);
   (empty_plan_text, empty_plan)].

End Samples.

(** Sample sessions of the two front ends. *)
Module Scripts.
Import Console.

(** The environment of [Samples.quiet] with the text service not
    configured. *)
Definition offline : Env :=
  {| random_index := random_index Samples.quiet;
     faker := faker Samples.quiet;
     service := service Samples.quiet;
     json_loads := json_loads Samples.quiet;
     gemini_enabled := false;
     open_error := open_error Samples.quiet |}.

Definition typing (lines : list string) : Session :=
  {| stdin := lines; world := []; written := [] |}.

(** Two fields, [email] of type 2 and [age] of type 4 (after a rejected
    [x] and a rejected [9]). *)
Definition two_fields : Session :=
  typing ["two"; "2"; "email"; "2"; "age"; "x"; "9"; "4"].

(** A requirement typed after a blank line. *)
Definition one_requirement : Session :=
  typing ["   "; "  a login form  "].

(** One field [email] of type 2, two rows, the positive policy, and the
    file name [out]. *)
Definition email_run : Session :=
  typing ["1"; "email"; "2"; "2"; "1"; "out"].

(** A file system that lets one file be written and refuses the next. *)
Definition one_file_only (base : Env) : Env :=
  {| random_index := random_index base;
     faker := faker base;
     service := service base;
     json_loads := json_loads base;
     gemini_enabled := gemini_enabled base;
     open_error := fun names _ =>
       if (List.length names =? 0)%nat then None else Some OSError |}.

(** The text of [Samples.single_plan]. *)
Definition single_plan_text : string := "single plan".

(** A service that answers a plan request with [Samples.single_plan] and
    the scenario request with two rows. *)
Definition planner : Env :=
  Samples.scripted [Some single_plan_text; Some Samples.two_rows_text]
    ((single_plan_text, Samples.single_plan) :: Samples.parsed).

(** A requirement, two rows per scenario, and the file name [login]. *)
Definition login_run : Session :=
  typing ["a login form"; "2"; "login"].

End Scripts.

(* ================================================================== *)
(** * Properties *)
(* ================================================================== *)

(** ** Running computations *)

#[local] Arguments String.eqb : simpl never.

Section MonadFacts.
Context {A B : Type}.

Lemma bind_ok (m : M A) (k : A -> M B) w a w1 :
  m w = (Ok a, w1) -> bind m k w = k a w1.
Proof. intros H. unfold bind. rewrite H. reflexivity. Qed.

Lemma bind_raise (m : M A) (k : A -> M B) w e w1 :
  m w = (Raise e, w1) -> bind m k w = (Raise e, w1).
Proof. intros H. unfold bind. rewrite H. reflexivity. Qed.

Lemma bind_ok_inv (m : M A) (k : A -> M B) w b w' :
  bind m k w = (Ok b, w') ->
  exists a w1, m w = (Ok a, w1) /\ k a w1 = (Ok b, w').
Proof.
  unfold bind. destruct (m w) as [[a | e] w1]; intros H.
  - exists a, w1. split; [reflexivity | exact H].
  - discriminate H.
Qed.

Lemma bind_raise_inv (m : M A) (k : A -> M B) w e w' :
  bind m k w = (Raise e, w') ->
  m w = (Raise e, w') \/
  exists a w1, m w = (Ok a, w1) /\ k a w1 = (Raise e, w').
Proof.
  unfold bind. destruct (m w) as [[a | e0] w1]; intros H.
  - right. exists a, w1. split; [reflexivity | exact H].
  - left. inversion H. reflexivity.
Qed.
End MonadFacts.

(** Rewrite the head of a sequence with the known run of its first step. *)
Arguments bind_ok {A B m} k {w a w1} _.
Arguments bind_raise {A B m} k {w e w1} _.
Ltac run_ok H := rewrite (bind_ok _ H); cbv beta.
Ltac run_raise H := rewrite (bind_raise _ H); cbv beta.

(** ** Dictionaries *)

Section DictFacts.
Context {V : Type}.
Implicit Types (d : dict V) (k : string) (v : V).

Lemma dict_get_set_same d k v : dict_get (dict_set d k v) k = Some v.
Proof.
  induction d as [| [k' v'] rest IH]; simpl.
  - rewrite String.eqb_refl. reflexivity.
  - destruct (String.eqb k' k) eqn:E; simpl; rewrite E; [reflexivity | exact IH].
Qed.

Lemma dict_get_set_other d k k' v :
  k <> k' -> dict_get (dict_set d k v) k' = dict_get d k'.
Proof.
  intros Hne. induction d as [| [k0 v0] rest IH]; simpl.
  - destruct (String.eqb_spec k k'); [contradiction | reflexivity].
  - destruct (String.eqb_spec k0 k) as [-> | Hk]; simpl.
    + destruct (String.eqb_spec k k'); [contradiction | reflexivity].
    + destruct (String.eqb_spec k0 k'); [reflexivity | exact IH].
Qed.

Lemma name_in_spec k ks : name_in k ks = true <-> In k ks.
Proof.
  unfold name_in. rewrite existsb_exists. split.
  - intros [x [Hin Heq]]. apply String.eqb_eq in Heq. subst. exact Hin.
  - intros Hin. exists k. split; [exact Hin | apply String.eqb_refl].
Qed.

Lemma name_in_false k ks : name_in k ks = false <-> ~ In k ks.
Proof.
  rewrite <- name_in_spec. destruct (name_in k ks); split; intros H;
    try discriminate; try reflexivity; try (intros X; discriminate X).
  exfalso. apply H. reflexivity.
Qed.

Lemma dict_get_in_keys d k v : dict_get d k = Some v -> In k (dict_keys d).
Proof.
  induction d as [| [k' v'] rest IH]; simpl; [discriminate |].
  destruct (String.eqb_spec k' k); intros H; [left; assumption | right; auto].
Qed.

End DictFacts.

(** ** Columns of a frame *)

Lemma add_columns_fresh cols keys :
  NoDup keys -> (forall k, In k keys -> ~ In k cols) ->
  add_columns cols keys = cols ++ keys.
Proof.
  revert cols. induction keys as [| k rest IH]; intros cols Hnd Hfresh; simpl.
  - rewrite app_nil_r. reflexivity.
  - inversion Hnd as [| ? ? Hk Hrest]; subst.
    destruct (name_in k cols) eqn:E.
    + apply name_in_spec in E. exfalso. apply (Hfresh k); [left; reflexivity | exact E].
    + rewrite IH; [rewrite <- app_assoc; reflexivity | exact Hrest |].
      intros k' Hin Hc. apply in_app_or in Hc. destruct Hc as [Hc | [-> | []]].
      * apply (Hfresh k'); [right; exact Hin | exact Hc].
      * contradiction.
Qed.

Lemma add_columns_known cols keys :
  (forall k, In k keys -> In k cols) -> add_columns cols keys = cols.
Proof.
  induction keys as [| k rest IH]; intros Hall; simpl; [reflexivity |].
  destruct (name_in k cols) eqn:E.
  - apply IH. intros k' Hin. apply Hall. right. exact Hin.
  - apply name_in_false in E. exfalso. apply E, Hall. left. reflexivity.
Qed.

Lemma add_columns_in cols keys k :
  In k (add_columns cols keys) <-> In k cols \/ In k keys.
Proof.
  revert cols. induction keys as [| k0 rest IH]; intros cols; simpl.
  - tauto.
  - destruct (name_in k0 cols) eqn:E; rewrite IH.
    + apply name_in_spec in E. split; [tauto |].
      intros [H | [<- | H]]; tauto.
    + rewrite in_app_iff. simpl. tauto.
Qed.

Lemma add_columns_NoDup cols keys : NoDup cols -> NoDup (add_columns cols keys).
Proof.
  revert cols. induction keys as [| k rest IH]; intros cols Hnd; simpl; [exact Hnd |].
  destruct (name_in k cols) eqn:E; apply IH; [exact Hnd |].
  apply name_in_false in E.
  apply NoDup_app; [exact Hnd | repeat constructor; intros [] |].
  intros x Hx [<- | []]. contradiction.
Qed.

(** ** Frames built from records *)

Module FrameFacts.

Lemma fold_add_columns_in (data : list (dict pyval)) : forall cols k,
  In k (fold_left (fun cols record => add_columns cols (dict_keys record))
                  data cols)
  <-> In k cols \/ exists r, In r data /\ In k (dict_keys r).
Proof.
  induction data as [| r rest IH]; intros cols k; simpl.
  - split; [auto | intros [H | (r & [] & _)]; exact H].
  - rewrite IH, add_columns_in. split.
    + intros [[H | H] | (r' & Hr' & Hk)]; eauto.
    + intros [H | (r' & [<- | Hr'] & Hk)]; eauto.
Qed.

Lemma fold_add_columns_NoDup (data : list (dict pyval)) : forall cols,
  NoDup cols ->
  NoDup (fold_left (fun cols record => add_columns cols (dict_keys record))
                   data cols).
Proof.
  induction data as [| r rest IH]; intros cols Hnd; simpl; [exact Hnd |].
  apply IH, add_columns_NoDup, Hnd.
Qed.

Lemma frame_columns_in data k :
  In k (frame_columns data) <-> exists r, In r data /\ In k (dict_keys r).
Proof.
  unfold frame_columns. rewrite fold_add_columns_in. split.
  - intros [[] | H]; exact H.
  - auto.
Qed.

Lemma frame_columns_NoDup data : NoDup (frame_columns data).
Proof. apply fold_add_columns_NoDup. constructor. Qed.

Lemma index_of_sound (cols : list string) : forall c,
  In c cols -> exists j, index_of c cols = Some j /\ nth_error cols j = Some c.
Proof.
  induction cols as [| c0 rest IH]; intros c Hin; [contradiction |]. simpl.
  destruct (String.eqb_spec c0 c) as [-> | Hne].
  - exists 0. auto.
  - destruct Hin as [E | Hin]; [contradiction |].
    destruct (IH c Hin) as (j & Hj & Hn). exists (S j). rewrite Hj. auto.
Qed.

(** A cell of a frame whose rows are read off rows [rs] column by column. *)
Lemma df_cell_mapped {R} (cols : list string) (rs : list R)
    (f : R -> string -> cell) i c :
  In c cols ->
  df_cell {| columns := cols; rows := map (fun r => map (f r) cols) rs |} i c
  = option_map (fun r => f r c) (nth_error rs i).
Proof.
  intros Hin. unfold df_cell. cbn [columns rows].
  destruct (index_of_sound cols c Hin) as (j & -> & Hj).
  rewrite nth_error_map. destruct (nth_error rs i) as [r |]; [| reflexivity].
  simpl. rewrite (map_nth_error _ _ _ Hj). reflexivity.
Qed.

(** A cell of a frame whose rows have one cell per column. *)
Lemma df_cell_row_cell (df : DataFrame) i c :
  Forall (fun r => List.length r = List.length (columns df)) (rows df) ->
  In c (columns df) ->
  df_cell df i c
  = option_map (fun r => row_cell (columns df) r c) (nth_error (rows df) i).
Proof.
  intros Hlen Hin. unfold df_cell, row_cell.
  destruct (index_of_sound (columns df) c Hin) as (j & -> & Hj).
  destruct (nth_error (rows df) i) as [r |] eqn:Er; [| reflexivity].
  simpl. rewrite Forall_forall in Hlen.
  pose proof (Hlen r (nth_error_In _ _ Er)) as Hr.
  assert (Hjlt : j < List.length r).
  { rewrite Hr. apply nth_error_Some. rewrite Hj. discriminate. }
  rewrite (nth_error_nth' r None Hjlt). reflexivity.
Qed.

Lemma pd_DataFrame_rows_length data :
  Forall (fun r => List.length r = List.length (columns (pd_DataFrame data)))
         (rows (pd_DataFrame data)).
Proof.
  unfold pd_DataFrame. cbn [rows columns]. apply Forall_map.
  apply Forall_forall. intros r _. unfold frame_row. apply length_map.
Qed.

(** The cell of a record under a column is what the column stores for
    the record's value for that key, or for the lack of it. *)
Lemma df_cell_pd_DataFrame data i record c :
  nth_error data i = Some record ->
  In c (columns (pd_DataFrame data)) ->
  df_cell (pd_DataFrame data) i c
  = Some (store (as_float data c) (dict_get record c)).
Proof.
  intros Hi Hin. unfold pd_DataFrame in *. cbn [columns] in Hin.
  pose proof (df_cell_mapped (frame_columns data) data
                (fun r c => store (as_float data c) (dict_get r c)) i c Hin)
    as H.
  rewrite Hi in H. exact H.
Qed.

(** *** The columns are the keys at their first occurrence *)

Lemma name_in_ext k (s1 s2 : list string) :
  (forall x, In x s1 <-> In x s2) -> name_in k s1 = name_in k s2.
Proof.
  intros H. destruct (name_in k s2) eqn:E2.
  - apply name_in_spec. apply H. apply name_in_spec. exact E2.
  - apply name_in_false. intros Hin. apply name_in_false in E2.
    apply E2. apply H. exact Hin.
Qed.

Lemma first_occurrences_ext keys : forall s1 s2,
  (forall x, In x s1 <-> In x s2) ->
  first_occurrences s1 keys = first_occurrences s2 keys.
Proof.
  induction keys as [| k rest IH]; intros s1 s2 H; simpl; [reflexivity |].
  rewrite (name_in_ext k s1 s2 H). destruct (name_in k s2).
  - apply IH. exact H.
  - f_equal. apply IH. intros x. simpl. rewrite H. reflexivity.
Qed.

Lemma first_occurrences_app l1 : forall l2 seen,
  first_occurrences seen (l1 ++ l2)
  = first_occurrences seen l1 ++ first_occurrences (l1 ++ seen) l2.
Proof.
  induction l1 as [| k r IH]; intros l2 seen; simpl; [reflexivity |].
  destruct (name_in k seen) eqn:E.
  - rewrite IH. f_equal. apply first_occurrences_ext.
    intros x. simpl. apply name_in_spec in E. rewrite !in_app_iff.
    split; [tauto |]. intros [-> | H]; tauto.
  - simpl. f_equal. rewrite IH. f_equal. apply first_occurrences_ext.
    intros x. simpl. rewrite !in_app_iff. simpl. tauto.
Qed.

Lemma first_occurrences_in keys : forall seen k,
  In k (first_occurrences seen keys) <-> In k keys /\ ~ In k seen.
Proof.
  induction keys as [| k0 rest IH]; intros seen k; simpl; [tauto |].
  destruct (name_in k0 seen) eqn:E.
  - rewrite IH. apply name_in_spec in E. split; [tauto |].
    intros [[-> | H] Hn]; [contradiction | tauto].
  - apply name_in_false in E. simpl. rewrite IH. simpl. split.
    + intros [-> | [H Hn]]; [tauto |]. split; [tauto |]. tauto.
    + intros [[-> | H] Hn]; [tauto |].
      destruct (String.eqb_spec k0 k) as [-> | Hne]; [tauto |].
      right. split; [exact H |]. intros [E' | Hs]; [contradiction | tauto].
Qed.

Lemma add_columns_first keys : forall cols,
  add_columns cols keys = cols ++ first_occurrences cols keys.
Proof.
  induction keys as [| k rest IH]; intros cols; simpl.
  - rewrite app_nil_r. reflexivity.
  - destruct (name_in k cols); [apply IH |].
    rewrite IH, <- app_assoc. simpl. do 2 f_equal.
    apply first_occurrences_ext. intros x. rewrite in_app_iff. simpl. tauto.
Qed.

Lemma fold_add_columns_first (data : list (dict pyval)) : forall cols,
  fold_left (fun cols record => add_columns cols (dict_keys record)) data cols
  = cols ++ first_occurrences cols (List.concat (map dict_keys data)).
Proof.
  induction data as [| r rest IH]; intros cols; simpl.
  - rewrite app_nil_r. reflexivity.
  - rewrite IH, add_columns_first, first_occurrences_app, <- app_assoc.
    do 2 f_equal. apply first_occurrences_ext.
    intros x. rewrite !in_app_iff, first_occurrences_in. split.
    + intros [H | [H _]]; tauto.
    + intros [H | H]; [| tauto].
      destruct (in_dec string_dec x cols); tauto.
Qed.

(** The columns of a frame are the keys of its records, each where it
    first occurs. *)
Lemma frame_columns_first data :
  frame_columns data = first_occurrences [] (List.concat (map dict_keys data)).
Proof. unfold frame_columns. apply fold_add_columns_first. Qed.

(** What a column stores is null, the object itself, or the float of an
    integer. *)
Lemma store_value b val v :
  store b val = Some v ->
  exists v0, val = Some v0 /\
    (v = v0 \/ exists z, v0 = PInt z /\ v = PFloat (float_repr z)).
Proof.
  destruct val as [v0 |]; [| discriminate].
  destruct v0; simpl;
    try discriminate;
    try (intros H; inversion H; subst; eexists; split; [reflexivity | auto];
         fail).
  - destruct b; intros H; inversion H; subst; eexists;
      (split; [reflexivity | eauto]).
  - destruct (is_nan repr); intros H; inversion H; subst; eexists;
      (split; [reflexivity | eauto]).
Qed.

Lemma store_str b s : store b (Some (PStr s)) = Some (PStr s).
Proof. reflexivity. Qed.

Lemma store_absent b : store b None = None.
Proof. reflexivity. Qed.

Lemma find_none {A} (f : A -> bool) (l : list A) :
  (forall x, In x l -> f x = false) -> find f l = None.
Proof.
  induction l as [| x rest IH]; intros H; simpl; [reflexivity |].
  rewrite (H x) by (left; reflexivity). apply IH. intros y Hy. apply H. right. exact Hy.
Qed.

End FrameFacts.

(* ================================================================== *)
(** ** data_factory.py: the row generator *)
(* ================================================================== *)

Module DataFactoryFacts.
Import DataFactory FrameFacts.

Lemma case_draws_app evs1 evs2 :
  case_draws (evs1 ++ evs2) = case_draws evs1 ++ case_draws evs2.
Proof.
  induction evs1 as [| ev rest IH]; simpl; [reflexivity |].
  destruct (drawn_case ev); simpl; rewrite IH; reflexivity.
Qed.

(** *** One field *)

(** [random.choice] on a non-empty population returns one of its members
    and logs the call. *)
Lemma random_choice_with_spec {A} (inj : A -> pyval) env (population : list A) w :
  population <> [] ->
  let i := random_index env w mod List.length population in
  exists a,
    nth_error population i = Some a /\
    random_choice_with inj env population w
      = (Ok a, w ++ [EvChoice (map inj population) i]).
Proof.
  intros Hne i. unfold random_choice_with. fold i.
  assert (Hlt : i < List.length population).
  { apply Nat.mod_upper_bound. destruct population; [contradiction | discriminate]. }
  destruct (nth_error population i) as [a |] eqn:E.
  - exists a. split; [reflexivity | reflexivity].
  - apply nth_error_None in E. lia.
Qed.

Lemma draws_follow_app env evs1 : forall w evs2,
  draws_follow env w evs1 -> draws_follow env (w ++ evs1) evs2 ->
  draws_follow env w (evs1 ++ evs2).
Proof.
  induction evs1 as [| ev rest IH]; intros w evs2 H1 H2; simpl in *.
  - rewrite app_nil_r in H2. exact H2.
  - destruct H1 as [Hev Hrest]. split; [exact Hev |].
    apply IH; [exact Hrest |]. rewrite <- app_assoc. exact H2.
Qed.

Lemma draws_follow_quiet env evs : forall w,
  case_draws evs = [] -> draws_follow env w evs.
Proof.
  induction evs as [| ev rest IH]; intros w H; simpl in *; [exact I |].
  destruct (drawn_case ev) as [c |]; [discriminate |].
  split; [discriminate | apply IH; exact H].
Qed.

Lemma drawn_case_choice i :
  drawn_case (EvChoice (map PStr ["positive"; "negative"]) i)
  = nth_error ["positive"; "negative"] i.
Proof. reflexivity. Qed.

(** Line 106 never raises; a fixed policy is used as it is and leaves no
    trace, the mixed policy makes exactly one draw. *)
Lemma select_case_spec env test_type w :
  exists c evs,
    select_case env test_type w = (Ok c, w ++ evs) /\
    In c (cases_of test_type) /\
    case_draws evs = (if String.eqb test_type "mixed" then [c] else []) /\
    draws_follow env w evs.
Proof.
  unfold select_case, cases_of.
  destruct (String.eqb test_type "mixed") eqn:E; cbn [negb].
  - destruct (random_choice_with_spec PStr env ["positive"; "negative"] w
                ltac:(discriminate)) as (c & Hn & Hr).
    cbn [List.length] in Hn, Hr.
    exists c, [EvChoice (map PStr ["positive"; "negative"])
                        (random_index env w mod 2)].
    split; [exact Hr |]. split; [eapply nth_error_In; exact Hn |].
    split.
    + cbn [case_draws]. rewrite drawn_case_choice, Hn. reflexivity.
    + cbn [draws_follow]. rewrite drawn_case_choice.
      split; [| exact I]. intros c' Hc'. exact Hc'.
  - exists test_type, []. rewrite app_nil_r.
    split; [reflexivity | split; [simpl; auto | split; [reflexivity | exact I]]].
Qed.

Lemma random_choice3_spec env (a b c : pyval) w :
  exists v i,
    random_choice env [a; b; c] w = (Ok v, w ++ [EvChoice [a; b; c] i]) /\
    In v [a; b; c].
Proof.
  destruct (random_choice_with_spec (fun v : pyval => v) env [a; b; c] w
              ltac:(discriminate)) as (v & Hn & Hr).
  rewrite map_id in Hr. exists v, (random_index env w mod 3).
  split; [exact Hr |]. eapply nth_error_In; exact Hn.
Qed.

(** [generate_ai_content] never raises. *)
Lemma generate_ai_content_total env prompt w :
  exists s evs,
    generate_ai_content env prompt w = (Ok (PStr s), w ++ evs) /\
    case_draws evs = [].
Proof.
  unfold generate_ai_content.
  destruct (gemini_enabled env); simpl.
  - unfold try_except, bind, model_generate_content.
    destruct (service env w (FieldPrompt prompt)) as [text |]; simpl;
      eexists; eexists; (split; [reflexivity | reflexivity]).
  - exists "AI_DISABLED", []. rewrite app_nil_r. split; reflexivity.
Qed.

(** The one way [field_value] raises: the [ai_text] entry for the
    negative case takes no argument and is called with the prompt. *)
Lemma field_value_spec env cfg c w :
  (cfg_type cfg = Some "ai_text" /\ c = "negative" /\
   field_value env cfg c w = (Raise TypeError, w))
  \/
  (exists v evs,
     field_value env cfg c w = (Ok v, w ++ evs) /\ case_draws evs = []).
Proof.
  unfold field_value, generators_of, type_is.
  destruct (cfg_type cfg) as [t |]; simpl.
  2:{ right. exists (PStr (sentinel None c)), []. rewrite app_nil_r. auto. }
  unfold dict_get_default. simpl.
  assert (Hsent : forall r : result pyval * World,
             r = (Ok (PStr (sentinel (Some t) c)), w) ->
             exists v evs, r = (Ok v, w ++ evs) /\ case_draws evs = []).
  { intros r ->. exists (PStr (sentinel (Some t) c)), []. rewrite app_nil_r. auto. }
  assert (Hret : forall s, exists v evs,
             (Ok (PStr s), w) = (Ok v, w ++ evs) /\ case_draws evs = []).
  { intros s. exists (PStr s), []. rewrite app_nil_r. auto. }
  assert (Hfake : forall m, exists v evs,
             call_faker env m w = (Ok v, w ++ evs) /\ case_draws evs = []).
  { intros m. unfold call_faker. eexists; eexists; split; reflexivity. }
  assert (Hch : forall a b d : pyval,
             (forall s1 s2, a = PStr s1 -> b = PStr s2 -> False) \/ True ->
             exists v evs,
               random_choice env [a; b; d] w = (Ok v, w ++ evs) /\
               case_draws evs = []).
  { intros a b d _. destruct (random_choice3_spec env a b d w) as (v & i & Hr & _).
    exists v, [EvChoice [a; b; d] i]. split; [exact Hr |].
    simpl. destruct a; try reflexivity. destruct b; reflexivity. }
  repeat match goal with
  | |- context [String.eqb ?x t] =>
      destruct (String.eqb_spec x t) as [<- | ?]; simpl
  end;
  repeat match goal with
  | |- context [String.eqb ?x c] =>
      destruct (String.eqb_spec x c) as [<- | ?]; simpl
  end;
  try (right; apply Hsent; reflexivity);
  try (right; apply Hret);
  try (right; apply Hfake);
  try (right; apply Hch; right; exact I).
  - right. unfold call1.
    destruct (generate_ai_content_total env
                match cfg_prompt cfg with Some p => p | None => "generate random text" end w)
      as (s & evs & Hg & Hd).
    exists (PStr s), evs. split; assumption.
  - left. repeat split; reflexivity.
Qed.

(** What [generate_ai_content] returns. *)
Lemma generate_ai_content_returns env prompt w v w' :
  generate_ai_content env prompt w = (Ok v, w') ->
  returns env AiContent prompt v.
Proof.
  unfold generate_ai_content, returns.
  destruct (gemini_enabled env); cbn [negb].
  - intros H. right. split; [reflexivity |]. exists w.
    unfold try_except, bind, model_generate_content, ret in H.
    destruct (service env w (FieldPrompt prompt)) as [text |];
      inversion H; reflexivity.
  - intros H. left. inversion H. auto.
Qed.

(** Every value stored by lines 108 to 119 is a value of the generator
    that the registry holds for the field's type and the case, or the
    text for a lacking generator. *)
Lemma field_value_gives_produced env cfg c v :
  field_value_gives env cfg c v -> produced_by env cfg c v.
Proof.
  intros (w & w' & H). revert H.
  unfold produced_by, field_value, generators_of, type_is.
  destruct (cfg_type cfg) as [t |]; simpl.
  2:{ intros H. inversion H. reflexivity. }
  unfold dict_get_default. simpl.
  repeat match goal with
  | |- context [String.eqb ?x t] =>
      destruct (String.eqb_spec x t) as [<- | ?]; simpl
  end;
  repeat match goal with
  | |- context [String.eqb ?x c] =>
      destruct (String.eqb_spec x c) as [<- | ?]; simpl
  end;
  intros H;
  try (inversion H; reflexivity);
  try (unfold call_faker in H; inversion H; eexists; reflexivity);
  try (match type of H with
       | random_choice _ [?a; ?b; ?d] _ = _ =>
           destruct (random_choice3_spec env a b d w) as (v0 & i & Hr & Hin);
           rewrite Hr in H; inversion H; subst; exact Hin
       end);
  try discriminate H.
  unfold call1 in H. eapply generate_ai_content_returns; exact H.
Qed.

Lemma field_value_ai_text_negative env cfg w :
  cfg_type cfg = Some "ai_text" ->
  field_value env cfg "negative" w = (Raise TypeError, w).
Proof.
  intros Ht. unfold field_value, generators_of, type_is. rewrite Ht. reflexivity.
Qed.

(** One pass of the inner loop body either stores a value under the
    field's name or raises the [TypeError] of the [ai_text] call. *)
Lemma field_step_spec env test_type field_name cfg record w :
  (exists evs,
     field_step env test_type field_name cfg record w
       = (Raise TypeError, w ++ evs) /\
     cfg_type cfg = Some "ai_text" /\ In "negative" (cases_of test_type))
  \/
  (exists c v evs,
     field_step env test_type field_name cfg record w
       = (Ok (dict_set record field_name v), w ++ evs) /\
     cell_ok env test_type (field_name, cfg) (c, v) /\
     case_draws evs = (if String.eqb test_type "mixed" then [c] else []) /\
     draws_follow env w evs).
Proof.
  destruct (select_case_spec env test_type w) as (c & evs1 & Hs & Hin & Hd & Hf).
  unfold field_step. run_ok Hs.
  destruct (field_value_spec env cfg c (w ++ evs1))
    as [(Ht & -> & Hr) | (v & evs2 & Hv & Hd2)].
  - left. exists evs1. run_raise Hr. auto.
  - right. exists c, v, (evs1 ++ evs2).
    run_ok Hv. unfold ret. rewrite app_assoc.
    split; [reflexivity |]. split; [| split].
    + split; [exact Hin |]. exists (w ++ evs1), (w ++ evs1 ++ evs2).
      simpl. rewrite Hv, app_assoc. reflexivity.
    + rewrite case_draws_app, Hd, Hd2, app_nil_r. reflexivity.
    + apply draws_follow_app; [exact Hf | apply draws_follow_quiet; exact Hd2].
Qed.

(** *** One record *)

Lemma record_of_cons n ns cv cvs r :
  record_of (n :: ns) (cv :: cvs) r = record_of ns cvs (dict_set r n (snd cv)).
Proof. reflexivity. Qed.

Lemma build_record_spec env test_type items : forall record w,
  (exists evs field_name cfg,
     build_record env test_type items record w = (Raise TypeError, w ++ evs) /\
     In (field_name, cfg) items /\
     cfg_type cfg = Some "ai_text" /\ In "negative" (cases_of test_type))
  \/
  (exists cvs evs,
     build_record env test_type items record w
       = (Ok (record_of (dict_keys items) cvs record), w ++ evs) /\
     Forall2 (cell_ok env test_type) items cvs /\
     case_draws evs
       = (if String.eqb test_type "mixed" then map fst cvs else []) /\
     draws_follow env w evs).
Proof.
  induction items as [| [field_name cfg] rest IH]; intros record w.
  - right. exists [], []. rewrite app_nil_r. simpl.
    split; [reflexivity |]. split; [constructor |].
    split; [destruct (String.eqb test_type "mixed"); reflexivity | exact I].
  - simpl build_record.
    destruct (field_step_spec env test_type field_name cfg record w)
      as [(evs & Hr & Ht & Hn) | (c & v & evs & Hr & Hok & Hd & Hf)].
    + left. exists evs, field_name, cfg. run_raise Hr.
      split; [reflexivity |]. split; [left; reflexivity | auto].
    + run_ok Hr.
      destruct (IH (dict_set record field_name v) (w ++ evs))
        as [(evs' & n' & cfg' & Hr' & Hin' & Ht' & Hn')
           | (cvs & evs' & Hr' & Hall & Hd' & Hf')].
      * left. exists (evs ++ evs'), n', cfg'. rewrite Hr', app_assoc.
        split; [reflexivity |]. split; [right; exact Hin' | auto].
      * right. exists ((c, v) :: cvs), (evs ++ evs').
        rewrite Hr', app_assoc. split; [reflexivity |].
        split; [constructor; assumption |]. split.
        -- rewrite case_draws_app, Hd, Hd'.
           destruct (String.eqb test_type "mixed"); reflexivity.
        -- apply draws_follow_app; assumption.
Qed.

(** *** All rows *)

Lemma generate_rows_spec env test_type fields n : forall data w,
  (exists evs field_name cfg,
     generate_rows env test_type fields n data w = (Raise TypeError, w ++ evs) /\
     In (field_name, cfg) fields /\
     cfg_type cfg = Some "ai_text" /\ In "negative" (cases_of test_type))
  \/
  (exists grid evs,
     generate_rows env test_type fields n data w
       = (Ok (data ++ map (fun cvs => record_of (dict_keys fields) cvs []) grid),
          w ++ evs) /\
     List.length grid = n /\
     Forall (Forall2 (cell_ok env test_type) fields) grid /\
     case_draws evs
       = (if String.eqb test_type "mixed"
          then List.concat (map (map fst) grid) else []) /\
     draws_follow env w evs).
Proof.
  induction n as [| k IH]; intros data w.
  - right. exists [], []. simpl. rewrite !app_nil_r.
    split; [reflexivity |]. split; [reflexivity |]. split; [constructor |].
    split; [destruct (String.eqb test_type "mixed"); reflexivity | exact I].
  - simpl generate_rows.
    destruct (build_record_spec env test_type fields [] w)
      as [(evs & n' & cfg' & Hr & Hin & Ht & Hn)
         | (cvs & evs & Hr & Hall & Hd & Hf)].
    + left. exists evs, n', cfg'. run_raise Hr. auto.
    + run_ok Hr.
      destruct (IH (data ++ [record_of (dict_keys fields) cvs []]) (w ++ evs))
        as [(evs' & n' & cfg' & Hr' & Hin' & Ht' & Hn')
           | (grid & evs' & Hr' & Hlen & Hall' & Hd' & Hf')].
      * left. exists (evs ++ evs'), n', cfg'. rewrite Hr', app_assoc. auto.
      * right. exists (cvs :: grid), (evs ++ evs').
        rewrite Hr', app_assoc, <- app_assoc. simpl.
        split; [reflexivity |]. split; [rewrite Hlen; reflexivity |].
        split; [constructor; assumption |]. split.
        -- rewrite case_draws_app, Hd, Hd'.
           destruct (String.eqb test_type "mixed"); reflexivity.
        -- apply draws_follow_app; assumption.
Qed.

(** *** Records and frames of a uniform shape *)

Lemma dict_set_fresh (d : dict pyval) k v :
  ~ In k (dict_keys d) -> dict_set d k v = d ++ [(k, v)].
Proof.
  induction d as [| [k' v'] rest IH]; simpl; intros Hn; [reflexivity |].
  destruct (String.eqb_spec k' k) as [-> | Hne].
  - exfalso. apply Hn. left. reflexivity.
  - rewrite IH; [reflexivity |]. intros Hin. apply Hn. right. exact Hin.
Qed.

Lemma record_of_combine names : forall cvs r,
  NoDup names ->
  (forall k, In k names -> ~ In k (dict_keys r)) ->
  List.length cvs = List.length names ->
  record_of names cvs r = r ++ combine names (map snd cvs).
Proof.
  induction names as [| n ns IH]; intros cvs r Hnd Hfresh Hlen.
  - destruct cvs; [| discriminate]. unfold record_of. simpl.
    rewrite app_nil_r. reflexivity.
  - destruct cvs as [| cv cvs]; [discriminate |].
    inversion Hnd as [| ? ? Hn Hns]; subst.
    rewrite record_of_cons, dict_set_fresh by (apply Hfresh; left; reflexivity).
    rewrite IH.
    + rewrite <- app_assoc. reflexivity.
    + exact Hns.
    + intros k Hk Hin. unfold dict_keys in Hin. rewrite map_app in Hin.
      apply in_app_or in Hin. destruct Hin as [Hin | [<- | []]].
      * apply (Hfresh k); [right; exact Hk | exact Hin].
      * contradiction.
    + simpl in Hlen. lia.
Qed.

Lemma dict_keys_combine (names : list string) (vs : list pyval) :
  List.length vs = List.length names -> dict_keys (combine names vs) = names.
Proof.
  revert vs. induction names as [| n ns IH]; intros [| v vs] Hlen;
    try discriminate; simpl; [reflexivity |].
  f_equal. apply IH. simpl in Hlen. lia.
Qed.

Lemma dict_get_combine (names : list string) : forall (vs : list pyval) j name v,
  NoDup names ->
  nth_error names j = Some name -> nth_error vs j = Some v ->
  dict_get (combine names vs) name = Some v.
Proof.
  induction names as [| n ns IH]; intros [| v0 vs] [| j] name v Hnd Hn Hv;
    simpl in *; try discriminate.
  - inversion Hn; inversion Hv; subst. rewrite String.eqb_refl. reflexivity.
  - inversion Hnd as [| ? ? Hfresh Hns]; subst.
    destruct (String.eqb_spec n name) as [-> | _].
    + exfalso. apply Hfresh. eapply nth_error_In; eauto.
    + eapply IH; eauto.
Qed.

Lemma frame_columns_fold names (data : list (dict pyval)) : forall cols,
  (forall r, In r data -> dict_keys r = names) ->
  fold_left (fun cols record => add_columns cols (dict_keys record)) data cols
  = match data with
    | [] => cols
    | _ => add_columns cols names
    end.
Proof.
  induction data as [| r rest IH]; intros cols Hall; simpl; [reflexivity |].
  rewrite IH by (intros r' Hr'; apply Hall; right; exact Hr').
  rewrite (Hall r) by (left; reflexivity).
  destruct rest; [reflexivity |].
  apply add_columns_known. intros k Hk. apply add_columns_in. right. exact Hk.
Qed.

(** The records of a grid all carry the names, in order. *)
Lemma grid_record names (grid : list (list (string * pyval))) cvs :
  NoDup names ->
  Forall (fun cvs => List.length cvs = List.length names) grid ->
  In cvs grid ->
  record_of names cvs [] = combine names (map snd cvs).
Proof.
  intros Hnd Hall Hin. rewrite Forall_forall in Hall.
  rewrite record_of_combine; auto.
Qed.

(** A frame built from records that all carry the same distinct keys has
    those keys as columns, in order. *)
Lemma grid_columns names (grid : list (list (string * pyval))) :
  NoDup names ->
  Forall (fun cvs => List.length cvs = List.length names) grid ->
  columns (pd_DataFrame (grid_records names grid))
  = match grid with [] => [] | _ => names end.
Proof.
  intros Hnd Hall. unfold pd_DataFrame, frame_columns, grid_records.
  cbn [columns]. rewrite (frame_columns_fold names).
  2:{ intros r Hr. apply in_map_iff in Hr. destruct Hr as (cvs & <- & Hin).
      rewrite (grid_record names grid cvs Hnd Hall Hin).
      apply dict_keys_combine.
      rewrite length_map. rewrite Forall_forall in Hall. auto. }
  destruct grid as [| cvs0 grid']; [reflexivity |].
  cbn [map]. rewrite add_columns_fresh by (auto; intros k _ []).
  reflexivity.
Qed.

Lemma index_of_nth names : forall j (name : string),
  NoDup names -> nth_error names j = Some name -> index_of name names = Some j.
Proof.
  induction names as [| n ns IH]; intros [| j] name Hnd Hj; simpl in *;
    try discriminate.
  - inversion Hj; subst. rewrite String.eqb_refl. reflexivity.
  - inversion Hnd as [| ? ? Hn Hns]; subst.
    destruct (String.eqb_spec n name) as [-> | _].
    + exfalso. apply Hn. eapply nth_error_In; eauto.
    + rewrite (IH j name Hns Hj). reflexivity.
Qed.

(** *** The whole dataset *)

(** [generate_data] either raises the [TypeError] of an [ai_text] field
    evaluated under the negative case, or returns the frame of one record
    per requested row, each record holding under every field name, in
    schema order, the value obtained for the case selected for that field
    of that row. *)
Lemma generate_data_spec env sch num_rows test_type w :
  (exists evs field_name cfg,
     generate_data env sch num_rows test_type w = (Raise TypeError, w ++ evs) /\
     In (field_name, cfg) (fields_of sch) /\
     cfg_type cfg = Some "ai_text" /\ In "negative" (cases_of test_type))
  \/
  (exists grid evs,
     generate_data env sch num_rows test_type w
       = (Ok (pd_DataFrame (grid_records (field_names sch) grid)), w ++ evs) /\
     List.length grid = Z.to_nat num_rows /\
     Forall (Forall2 (cell_ok env test_type) (fields_of sch)) grid /\
     case_draws evs
       = (if String.eqb test_type "mixed"
          then List.concat (map (map fst) grid) else []) /\
     draws_follow env w evs).
Proof.
  unfold generate_data. fold (fields_of sch).
  destruct (generate_rows_spec env test_type (fields_of sch)
              (Z.to_nat num_rows) [] w)
    as [(evs & n' & cfg' & Hr & Hin & Ht & Hn)
       | (grid & evs & Hr & Hlen & Hall & Hd & Hf)].
  - left. exists evs, n', cfg'. run_raise Hr. auto.
  - right. exists grid, evs. run_ok Hr. unfold ret. cbn [app]. auto.
Qed.

Lemma grid_lengths env test_type (fields : dict field_config) grid :
  Forall (Forall2 (cell_ok env test_type) fields) grid ->
  Forall (fun cvs => List.length cvs = List.length (dict_keys fields)) grid.
Proof.
  intros Hall. eapply Forall_impl; [| exact Hall]. intros cvs H2.
  unfold dict_keys. rewrite length_map. symmetry.
  eapply Forall2_length; eauto.
Qed.

Lemma Forall2_nth_error {A B} (R : A -> B -> Prop) l1 l2 j a :
  Forall2 R l1 l2 -> nth_error l1 j = Some a ->
  exists b, nth_error l2 j = Some b /\ R a b.
Proof.
  intros H. revert j. induction H as [| x y l1' l2' Hxy _ IH]; intros [| j] Hj;
    simpl in *; try discriminate.
  - inversion Hj; subst. eauto.
  - apply IH. exact Hj.
Qed.

(** The cell of a uniform frame: what the column stores for the value of
    the row under the name. *)
Lemma df_cell_grid names (grid : list (list (string * pyval))) i j name cvs cv :
  NoDup names ->
  Forall (fun cvs => List.length cvs = List.length names) grid ->
  nth_error names j = Some name ->
  nth_error grid i = Some cvs ->
  nth_error cvs j = Some cv ->
  df_cell (pd_DataFrame (grid_records names grid)) i name
  = Some (store (as_float (grid_records names grid) name) (Some (snd cv))).
Proof.
  intros Hnd Hall Hj Hi Hc.
  rewrite (df_cell_pd_DataFrame (grid_records names grid) i
             (combine names (map snd cvs)) name).
  - rewrite (dict_get_combine names (map snd cvs) j name (snd cv) Hnd Hj
               (map_nth_error snd _ _ Hc)).
    reflexivity.
  - unfold grid_records. rewrite nth_error_map, Hi. simpl.
    rewrite (grid_record names grid cvs Hnd Hall (nth_error_In _ _ Hi)).
    reflexivity.
  - rewrite (grid_columns names grid Hnd Hall).
    destruct grid; [destruct i; discriminate |].
    eapply nth_error_In; exact Hj.
Qed.

(** A dataset is returned whenever no [ai_text] field can be evaluated
    under the negative case. *)
Lemma generate_data_returns env sch num_rows test_type w :
  (forall name cfg, In (name, cfg) (fields_of sch) ->
                    cfg_type cfg <> Some "ai_text")
  \/ ~ In "negative" (cases_of test_type) ->
  exists df w', generate_data env sch num_rows test_type w = (Ok df, w').
Proof.
  intros Hsafe.
  destruct (generate_data_spec env sch num_rows test_type w)
    as [(evs & n' & cfg' & Hr & Hin & Ht & Hn)
       | (grid & evs & Hr & _)].
  - exfalso. destruct Hsafe as [Hno | Hno]; [eapply Hno; eauto | auto].
  - eauto.
Qed.

(** Whenever a dataset is returned it has exactly the requested number of
    rows, the schema's field names as columns in schema order, and a
    cell for every field in every row. *)
Lemma generate_data_shape env sch num_rows test_type w df w' :
  NoDup (field_names sch) -> (0 < num_rows)%Z ->
  generate_data env sch num_rows test_type w = (Ok df, w') ->
  nrows df = Z.to_nat num_rows /\
  columns df = field_names sch /\
  Forall (fun r => List.length r = List.length (field_names sch)) (rows df).
Proof.
  intros Hnd Hpos Hrun.
  destruct (generate_data_spec env sch num_rows test_type w)
    as [(evs & n' & cfg' & Hr & _) | (grid & evs & Hr & Hlen & Hall & _)].
  - rewrite Hr in Hrun. discriminate.
  - rewrite Hr in Hrun. inversion Hrun; subst df w'; clear Hrun.
    pose proof (grid_lengths env test_type (fields_of sch) grid Hall) as Hlens.
    pose proof (grid_columns (field_names sch) grid Hnd Hlens) as Hcols.
    assert (Hg : columns (pd_DataFrame (grid_records (field_names sch) grid))
                 = field_names sch).
    { rewrite Hcols. destruct grid; [simpl in Hlen; lia | reflexivity]. }
    split; [| split; [exact Hg |]].
    + unfold nrows, pd_DataFrame, grid_records. cbn [rows].
      rewrite !length_map. exact Hlen.
    + pose proof (pd_DataFrame_rows_length
                    (grid_records (field_names sch) grid)) as Hrows.
      rewrite Hg in Hrows. exact Hrows.
Qed.

(** *** C1 *)

(** C1 (defect): for every schema, every N > 0 and every case policy,
    generation should return N records carrying the schema's fields in
    order.  The code violates this on a schema with an [ai_text] field
    under the negative policy: the registry entry for that case takes no
    argument, line 115 calls it with the prompt, and the call raises
    [TypeError] before any record is stored. *)
Theorem generate_data_bio_negative_raises :
  forall env w,
    generate_data env Samples.bio_schema 1 "negative" w = (Raise TypeError, w).
Proof. intros env w. reflexivity. Qed.

(** *** C2 *)

(** C2 (defect): generation should never raise, and an [ai_text] field
    under the negative case should receive the fixed sentinel.  In the
    code every schema with an [ai_text] field aborts with [TypeError]
    under the negative policy as soon as one row is requested; no dataset
    is produced. *)
Theorem ai_text_negative_aborts env sch num_rows field_name cfg w :
  In (field_name, cfg) (fields_of sch) ->
  cfg_type cfg = Some "ai_text" ->
  (0 < num_rows)%Z ->
  exists evs,
    generate_data env sch num_rows "negative" w = (Raise TypeError, w ++ evs).
Proof.
  intros Hin Ht Hpos. unfold generate_data. fold (fields_of sch).
  destruct (generate_rows_spec env "negative" (fields_of sch)
              (Z.to_nat num_rows) [] w)
    as [(evs & n' & cfg' & Hr & _) | (grid & evs & Hr & Hlen & Hall & _)].
  - exists evs. run_raise Hr. reflexivity.
  - exfalso. destruct grid as [| cvs grid']; [simpl in Hlen; lia |].
    inversion Hall as [| ? ? Hrow _]; subst.
    destruct (In_nth_error _ _ Hin) as [j Hj].
    destruct (Forall2_nth_error _ _ _ j _ Hrow Hj) as ([c v] & _ & Hc & Hp).
    simpl in Hc, Hp. destruct Hc as [<- | []].
    destruct Hp as (w0 & w1 & Hv).
    rewrite (field_value_ai_text_negative env cfg w0 Ht) in Hv. discriminate.
Qed.

Lemma ai_text_negative_aborts_witness :
  exists evs,
    generate_data Samples.quiet Samples.email_bio_schema 3 "negative" []
    = (Raise TypeError, [] ++ evs).
Proof.
  apply (ai_text_negative_aborts Samples.quiet Samples.email_bio_schema 3
           "bio" (Samples.field "ai_text") []).
  - simpl. right. left. reflexivity.
  - reflexivity.
  - lia.
Defined.

(** *** C3 *)

Lemma field_value_missing env cfg c w :
  dict_get (generators_of env (cfg_type cfg)) c = None ->
  field_value env cfg c w = (Ok (PStr (sentinel (cfg_type cfg) c)), w).
Proof. intros H. unfold field_value. rewrite H. reflexivity. Qed.

(** The registry holds no generator for a type that is none of its seven
    names, and none for a case other than the two it knows. *)
Lemma no_generator env cfg c :
  (forall t, cfg_type cfg = Some t ->
             ~ In t ["name"; "email"; "password"; "integer"; "date"; "uuid";
                     "ai_text"])
  \/ ~ In c ["positive"; "negative"] ->
  dict_get (generators_of env (cfg_type cfg)) c = None.
Proof.
  intros H. unfold generators_of.
  destruct (cfg_type cfg) as [t |]; [| reflexivity].
  unfold dict_get_default. simpl.
  repeat match goal with
  | |- context [String.eqb ?x t] =>
      destruct (String.eqb_spec x t) as [<- | ?]; simpl
  end;
  try reflexivity;
  (destruct H as [H | H];
   [exfalso; apply (H _ eq_refl); simpl; tauto |]);
  repeat match goal with
  | |- context [String.eqb ?x c] =>
      destruct (String.eqb_spec x c) as [<- | ?]; simpl
  end;
  try reflexivity; exfalso; apply H; simpl; tauto.
Qed.

Lemma same_field (fields : dict field_config) name cfg cfg' :
  NoDup (dict_keys fields) ->
  In (name, cfg) fields -> In (name, cfg') fields -> cfg' = cfg.
Proof.
  induction fields as [| [k c0] rest IH]; intros Hnd Hin Hin'; [contradiction |].
  simpl in Hnd. inversion Hnd as [| ? ? Hk Hrest]; subst.
  destruct Hin as [E | Hin]; destruct Hin' as [E' | Hin'].
  - congruence.
  - inversion E; subst. exfalso. apply Hk.
    apply (in_map fst) in Hin'. exact Hin'.
  - inversion E'; subst. exfalso. apply Hk.
    apply (in_map fst) in Hin. exact Hin.
  - auto.
Qed.

(** C3 (defect): a field whose type has no registered generator for the
    selected case should get the text [NO_GENERATOR_FOR_<type>_<case>] in
    every row, and generation should never raise.  The code stores that
    very text, spelled out below, and a lacking generator never makes it
    raise; but generation as a whole does raise: with a field of the
    unknown type [foo] beside an [ai_text] field, the negative policy
    ends in the [TypeError] of the [ai_text] call, and no row is made.
    Whenever a dataset is returned, every row carries the text in the
    field's column; a raise is always that [TypeError], on account of
    another field; and a dataset is returned whenever the schema has no
    [ai_text] field or the policy cannot select the negative case. *)
Theorem missing_generator_sentinel :
  (forall env w,
     generate_data env Samples.foo_bio_schema 2 "negative" w
     = (Raise TypeError, w))
  /\
  (forall env cfg c w,
     (forall t, cfg_type cfg = Some t ->
                ~ In t ["name"; "email"; "password"; "integer"; "date";
                        "uuid"; "ai_text"])
     \/ ~ In c ["positive"; "negative"] ->
     field_value env cfg c w
     = (Ok (PStr ("NO_GENERATOR_FOR_"
                  ++ match cfg_type cfg with
                     | Some t => t
                     | None => "None"
                     end
                  ++ "_" ++ c)),
        w))
  /\
  (forall env sch num_rows test_type field_name cfg w,
     NoDup (field_names sch) ->
     In (field_name, cfg) (fields_of sch) ->
     (forall t, cfg_type cfg = Some t ->
                ~ In t ["name"; "email"; "password"; "integer"; "date";
                        "uuid"; "ai_text"])
     \/ ~ In test_type ["positive"; "negative"; "mixed"] ->
     (forall df w',
        generate_data env sch num_rows test_type w = (Ok df, w') ->
        nrows df = Z.to_nat num_rows /\
        forall i, i < nrows df ->
          exists c,
            (test_type <> "mixed" -> c = test_type) /\
            (test_type = "mixed" -> c = "positive" \/ c = "negative") /\
            df_cell df i field_name
            = Some (Some (PStr ("NO_GENERATOR_FOR_"
                                ++ match cfg_type cfg with
                                   | Some t => t
                                   | None => "None"
                                   end
                                ++ "_" ++ c))))
     /\
     (forall e w',
        generate_data env sch num_rows test_type w = (Raise e, w') ->
        e = TypeError /\
        (test_type = "negative" \/ test_type = "mixed") /\
        exists other cfg',
          In (other, cfg') (fields_of sch) /\ other <> field_name /\
          cfg_type cfg' = Some "ai_text")
     /\
     ((forall other cfg', In (other, cfg') (fields_of sch) ->
                          cfg_type cfg' <> Some "ai_text")
      \/ (test_type <> "negative" /\ test_type <> "mixed") ->
      exists df w', generate_data env sch num_rows test_type w = (Ok df, w'))).
Proof.
  split; [| split].
  - intros env w. reflexivity.
  - intros env cfg c w H.
    rewrite (field_value_missing env cfg c w (no_generator env cfg c H)).
    reflexivity.
  - intros env sch num_rows test_type field_name cfg w Hnd Hin Hlack.
    assert (Hcase : forall c, In c (cases_of test_type) ->
              (test_type <> "mixed" -> c = test_type) /\
              (test_type = "mixed" -> c = "positive" \/ c = "negative")).
    { intros c. unfold cases_of.
      destruct (String.eqb_spec test_type "mixed") as [-> | Hne].
      - intros [<- | [<- | []]]; split; auto; intros H; contradiction.
      - intros [<- | []]. split; [reflexivity | contradiction]. }
    assert (Hneg : In "negative" (cases_of test_type) ->
                   test_type = "negative" \/ test_type = "mixed").
    { unfold cases_of.
      destruct (String.eqb_spec test_type "mixed") as [-> | Hne];
        [auto | intros [<- | []]; auto]. }
    assert (Hmiss : forall c, In c (cases_of test_type) ->
              dict_get (generators_of env (cfg_type cfg)) c = None).
    { intros c Hc. apply no_generator.
      destruct Hlack as [Ht | Hp]; [left; exact Ht | right].
      intros Hpn. apply Hp. destruct (Hcase c Hc) as [Hfix Hmix].
      destruct (String.eqb_spec test_type "mixed") as [-> | Hne].
      - simpl. tauto.
      - rewrite <- (Hfix Hne). simpl in Hpn |- *. tauto. }
    split; [| split].
    + intros df w' Hrun.
      destruct (generate_data_spec env sch num_rows test_type w)
        as [(evs & n' & cfg' & Hr & _) | (grid & evs & Hr & Hlen & Hall & _)];
        rewrite Hr in Hrun; [discriminate |].
      inversion Hrun; subst df w'; clear Hrun.
      pose proof (grid_lengths env test_type (fields_of sch) grid Hall) as Hlens.
      assert (Hn : nrows (pd_DataFrame (grid_records (field_names sch) grid))
                   = Z.to_nat num_rows).
      { unfold nrows, pd_DataFrame, grid_records. cbn [rows].
        rewrite !length_map. exact Hlen. }
      split; [exact Hn |]. rewrite Hn. intros i Hi.
      destruct (nth_error grid i) as [cvs |] eqn:Ei;
        [| apply nth_error_None in Ei; lia].
      rewrite Forall_forall in Hall.
      pose proof (Hall cvs (nth_error_In _ _ Ei)) as Hrow.
      destruct (In_nth_error _ _ Hin) as [j Hj].
      destruct (Forall2_nth_error _ _ _ j _ Hrow Hj) as ([c v] & Hcv & Hc & Hp).
      simpl in Hc, Hp. exists c.
      destruct (Hcase c Hc) as [Hfix Hmix].
      split; [exact Hfix |]. split; [exact Hmix |].
      destruct Hp as (w0 & w1 & Hv).
      rewrite (field_value_missing env cfg c w0 (Hmiss c Hc)) in Hv.
      inversion Hv; subst v w1.
      rewrite (df_cell_grid (field_names sch) grid i j field_name cvs
                 (c, PStr (sentinel (cfg_type cfg) c)) Hnd Hlens
                 (map_nth_error fst _ _ Hj) Ei Hcv).
      reflexivity.
    + intros e w' Hrun.
      destruct (generate_data_spec env sch num_rows test_type w)
        as [(evs & n' & cfg' & Hr & Hin' & Ht & Hn) | (grid & evs & Hr & _)];
        rewrite Hr in Hrun; [| discriminate].
      inversion Hrun; subst e w'. split; [reflexivity |].
      split; [exact (Hneg Hn) |].
      exists n', cfg'. split; [exact Hin' |]. split; [| exact Ht].
      intros ->.
      assert (cfg' = cfg) as -> by (eapply same_field; eauto).
      specialize (Hmiss "negative" Hn).
      unfold generators_of in Hmiss. rewrite Ht in Hmiss. discriminate.
    + intros Hsafe. apply generate_data_returns.
      destruct Hsafe as [Hno | [H1 H2]]; [left; exact Hno | right].
      intros Hn. destruct (Hneg Hn); contradiction.
Qed.

(** The unknown type [foo] under the positive policy: both rows hold
    [NO_GENERATOR_FOR_foo_positive] under [code]. *)
Lemma missing_generator_sentinel_witness :
  exists df w',
    generate_data Samples.quiet Samples.foo_schema 2 "positive" [] = (Ok df, w')
    /\ nrows df = 2
    /\ df_cell df 0 "code" = Some (Some (PStr "NO_GENERATOR_FOR_foo_positive"))
    /\ df_cell df 1 "code" = Some (Some (PStr "NO_GENERATOR_FOR_foo_positive")).
Proof.
  assert (Hnd : NoDup (field_names Samples.foo_schema)).
  { repeat constructor; simpl; intuition discriminate. }
  assert (Hin : In ("code", Samples.field "foo") (fields_of Samples.foo_schema)).
  { left. reflexivity. }
  assert (Hlack :
            (forall t, cfg_type (Samples.field "foo") = Some t ->
                       ~ In t ["name"; "email"; "password"; "integer"; "date";
                               "uuid"; "ai_text"])
            \/ ~ In "positive" ["positive"; "negative"; "mixed"]).
  { left. intros t E. inversion E; subst. simpl. intuition discriminate. }
  destruct (proj2 (proj2 missing_generator_sentinel)
              Samples.quiet Samples.foo_schema 2%Z "positive" "code"
              (Samples.field "foo") [] Hnd Hin Hlack)
    as (Hrows & _ & Hret).
  destruct Hret as (df & w' & Hrun).
  { right. split; discriminate. }
  destruct (Hrows df w' Hrun) as (Hn & Hcells).
  exists df, w'. split; [exact Hrun |]. split; [exact Hn |].
  assert (Hcell : forall i, i < nrows df ->
            df_cell df i "code"
            = Some (Some (PStr "NO_GENERATOR_FOR_foo_positive"))).
  { intros i Hi. destruct (Hcells i Hi) as (c & Hfix & _ & Hc).
    rewrite (Hfix ltac:(discriminate)) in Hc. exact Hc. }
  split; apply Hcell; rewrite Hn; simpl; lia.
Defined.

(** *** C4 *)

Section ConcatUniform.
Context {A : Type} (F : nat).

Lemma length_concat_uniform (ls : list (list A)) :
  Forall (fun l => List.length l = F) ls ->
  List.length (List.concat ls) = List.length ls * F.
Proof.
  induction 1 as [| l ls' Hl _ IH]; simpl; [reflexivity |].
  rewrite length_app, IH, Hl. reflexivity.
Qed.

Lemma nth_error_concat_uniform (ls : list (list A)) : forall i j l,
  Forall (fun l => List.length l = F) ls ->
  nth_error ls i = Some l -> j < F ->
  nth_error (List.concat ls) (i * F + j) = nth_error l j.
Proof.
  induction ls as [| l0 ls' IH]; intros i j l Hall Hi Hj.
  - destruct i; discriminate.
  - inversion Hall as [| ? ? Hl0 Hrest]; subst. simpl.
    destruct i as [| i'].
    + simpl in Hi. inversion Hi; subst. simpl.
      apply nth_error_app1. lia.
    + simpl in Hi. rewrite nth_error_app2 by (simpl; lia).
      replace (S i' * List.length l0 + j - List.length l0)
        with (i' * List.length l0 + j) by (simpl; lia).
      apply IH; assumption.
Qed.
End ConcatUniform.

Lemma grid_draws_uniform {R : string * DataFactory.field_config ->
                              string * pyval -> Prop}
    (fields : dict DataFactory.field_config) grid :
  Forall (Forall2 R fields) grid ->
  Forall (fun l => List.length l = List.length fields) (map (map fst) grid).
Proof.
  intros Hall. apply Forall_map. eapply Forall_impl; [| exact Hall].
  intros cvs H2. rewrite length_map. symmetry. eapply Forall2_length; eauto.
Qed.

(** What the steered random source answers at the k-th case draw. *)
Lemma steered_pick cases k :
  Forall (fun c => c = "positive" \/ c = "negative") cases ->
  nth_error ["positive"; "negative"]
    ((if String.eqb (nth k cases "positive") "negative" then 1 else 0) mod 2)
  = Some (nth k cases "positive").
Proof.
  intros Hok.
  destruct (String.eqb_spec (nth k cases "positive") "negative") as [E | Hne].
  - rewrite E. reflexivity.
  - destruct (nth_in_or_default k cases "positive") as [Hin | ->];
      [| reflexivity].
    rewrite Forall_forall in Hok. destruct (Hok _ Hin) as [-> | E];
      [reflexivity | contradiction].
Qed.

(** Under a steered random source the case draws of a run follow the
    wanted cases, position by position. *)
Lemma steered_agrees base cases evs : forall w,
  Forall (fun c => c = "positive" \/ c = "negative") cases ->
  draws_follow (steered base cases) w evs ->
  (forall k, k < List.length (case_draws w) ->
             nth k (case_draws w) "positive" = nth k cases "positive") ->
  forall k, k < List.length (case_draws (w ++ evs)) ->
            nth k (case_draws (w ++ evs)) "positive" = nth k cases "positive".
Proof.
  induction evs as [| ev rest IH]; intros w Hok Hf Hag.
  - rewrite app_nil_r. exact Hag.
  - destruct Hf as [Hev Hrest].
    change (ev :: rest) with ([ev] ++ rest). rewrite app_assoc.
    apply IH; [exact Hok | exact Hrest |].
    rewrite case_draws_app. cbn [case_draws].
    destruct (drawn_case ev) as [c |] eqn:Ec.
    + specialize (Hev c eq_refl). cbn [steered random_index] in Hev.
      rewrite (steered_pick cases _ Hok) in Hev. inversion Hev as [Hc].
      intros k Hk. rewrite length_app in Hk. cbn [List.length] in Hk.
      destruct (Nat.lt_ge_cases k (List.length (case_draws w))) as [Hlt | Hge].
      * rewrite app_nth1 by exact Hlt. apply Hag. exact Hlt.
      * assert (k = List.length (case_draws w)) as -> by lia.
        rewrite app_nth2, Nat.sub_diag by lia. reflexivity.
    + rewrite app_nil_r. exact Hag.
Qed.

Lemma same_cases_refl l : same_cases l l = true.
Proof.
  induction l as [| a r IH]; simpl; [reflexivity |].
  rewrite String.eqb_refl. exact IH.
Qed.

Lemma length_answer_sequences n : List.length (answer_sequences n) = 2 ^ n.
Proof.
  induction n as [| k IH]; [reflexivity |].
  cbn [answer_sequences]. rewrite length_app, !length_map, IH.
  rewrite Nat.pow_succ_r'. lia.
Qed.

Lemma answer_sequences_spec n answers :
  In answers (answer_sequences n) <->
  List.length answers = n /\
  Forall (fun c => c = "positive" \/ c = "negative") answers.
Proof.
  revert answers. induction n as [| k IH]; intros answers; cbn [answer_sequences].
  - split.
    + intros [<- | []]. split; [reflexivity | constructor].
    + intros [Hl _]. destruct answers; [left; reflexivity | discriminate].
  - rewrite in_app_iff, !in_map_iff. split.
    + intros [(r & <- & Hr) | (r & <- & Hr)]; apply IH in Hr;
        destruct Hr as [Hl Hf]; (split; [simpl; congruence |]);
        constructor; auto.
    + intros [Hl Hf]. destruct answers as [| c r]; [discriminate |].
      inversion Hf as [| ? ? Hc Hr]; subst.
      assert (Hin : In r (answer_sequences k)).
      { apply IH. split; [simpl in Hl; lia | exact Hr]. }
      destruct Hc as [-> | ->]; [left | right]; exists r; auto.
Qed.

Lemma filter_cons_same c c' cases (l : list (list string)) :
  filter (fun answers => same_cases answers (c :: cases)) (map (cons c') l)
  = if String.eqb c' c
    then map (cons c') (filter (fun answers => same_cases answers cases) l)
    else [].
Proof.
  induction l as [| a r IH]; simpl.
  - destruct (String.eqb c' c); reflexivity.
  - rewrite IH. destruct (String.eqb c' c); simpl; [| reflexivity].
    destruct (same_cases a cases); reflexivity.
Qed.

(** Exactly one sequence of answers is a given sequence of cases. *)
Lemma one_answer_sequence n : forall cases,
  List.length cases = n ->
  Forall (fun c => c = "positive" \/ c = "negative") cases ->
  List.length (filter (fun answers => same_cases answers cases)
                      (answer_sequences n)) = 1.
Proof.
  induction n as [| k IH]; intros cases Hl Hf.
  - destruct cases; [reflexivity | discriminate].
  - destruct cases as [| c r]; [discriminate |].
    inversion Hf as [| ? ? Hc Hr]; subst.
    cbn [answer_sequences]. rewrite filter_app, !filter_cons_same, length_app.
    assert (Hk : List.length r = k) by (simpl in Hl; lia).
    destruct Hc as [-> | ->]; simpl; rewrite length_map, (IH r Hk Hr);
      reflexivity.
Qed.

(** Under a steered random source the draws of a run are the wanted
    cases. *)
Lemma steered_draws base sch num_rows cases :
  (forall name cfg, In (name, cfg) (fields_of sch) ->
                    cfg_type cfg <> Some "ai_text") ->
  Forall (fun c => c = "positive" \/ c = "negative") cases ->
  List.length cases = Z.to_nat num_rows * List.length (fields_of sch) ->
  exists df evs,
    generate_data (steered base cases) sch num_rows "mixed" []
    = (Ok df, evs) /\
    case_draws evs = cases.
Proof.
  intros Hno Hok Hlen.
  destruct (generate_data_spec (steered base cases) sch num_rows "mixed" [])
    as [(evs & n' & cfg' & Hr & Hin & Ht & _)
       | (grid & evs & Hr & Hg & Hall & Hd & Hf)].
  - exfalso. eapply Hno; eauto.
  - eexists. exists evs. split; [exact Hr |].
    pose proof (grid_draws_uniform (fields_of sch) grid Hall) as Hlens.
    assert (Hdl : List.length (case_draws evs) = List.length cases).
    { rewrite Hd. cbn [String.eqb]. rewrite String.eqb_refl.
      rewrite (length_concat_uniform _ _ Hlens), length_map, Hg, Hlen.
      reflexivity. }
    apply (nth_ext _ _ "positive" "positive" Hdl).
    intros k Hk.
    apply (steered_agrees base cases evs [] Hok Hf).
    + intros k' Hk'. simpl in Hk'. lia.
    + exact Hk.
Qed.

(** C4: under a fixed policy no case is drawn, and every record holds
    under every field a value of the generator registered for that
    policy's case: the Faker provider, the literal list drawn from, the
    constant or the text service of lines 40 to 47 (or the text for a
    lacking generator); the frame stores that value as its column does.
    Under the mixed policy the trace holds exactly one draw from
    [['positive', 'negative']] per field per row, each draw picks what
    the random source answers at that moment, and the value of row [i]
    and field [j] comes from the generator for the case picked by draw
    number [i * F + j], its own draw.  A dataset is returned whenever no
    [ai_text] field can be evaluated under the negative case.  The draws
    are independent and unbiased: the cases drawn are the answers of the
    random source, one answer per cell, so that each of the [2 ^ (N * F)]
    equally likely sequences of answers gives a dataset, and every
    assignment of cases to the cells comes from exactly one of them. *)
Theorem case_selection :
  (forall env sch num_rows test_type w,
     NoDup (field_names sch) ->
     ((forall name cfg, In (name, cfg) (fields_of sch) ->
                        cfg_type cfg <> Some "ai_text")
      \/ ~ In "negative" (cases_of test_type) ->
      exists df w', generate_data env sch num_rows test_type w = (Ok df, w'))
     /\
     forall df w',
       generate_data env sch num_rows test_type w = (Ok df, w') ->
       exists evs data,
         w' = w ++ evs /\
         draws_follow env w evs /\
         df = pd_DataFrame data /\
         List.length data = Z.to_nat num_rows /\
         let draws := case_draws evs in
         let F := List.length (fields_of sch) in
         (test_type <> "mixed" ->
          draws = [] /\
          forall i j name cfg,
            i < Z.to_nat num_rows ->
            nth_error (fields_of sch) j = Some (name, cfg) ->
            exists record v,
              nth_error data i = Some record /\
              dict_get record name = Some v /\
              produced_by env cfg test_type v /\
              df_cell df i name = Some (store (as_float data name) (Some v)))
         /\
         (test_type = "mixed" ->
          List.length draws = Z.to_nat num_rows * F /\
          forall i j name cfg,
            i < Z.to_nat num_rows ->
            nth_error (fields_of sch) j = Some (name, cfg) ->
            exists c record v,
              nth_error draws (i * F + j) = Some c /\
              In c ["positive"; "negative"] /\
              nth_error data i = Some record /\
              dict_get record name = Some v /\
              produced_by env cfg c v /\
              df_cell df i name = Some (store (as_float data name) (Some v))))
  /\
  (forall base sch num_rows,
     NoDup (field_names sch) ->
     (forall name cfg, In (name, cfg) (fields_of sch) ->
                       cfg_type cfg <> Some "ai_text") ->
     let n := Z.to_nat num_rows * List.length (fields_of sch) in
     List.length (answer_sequences n) = 2 ^ n /\
     (forall answers,
        In answers (answer_sequences n) ->
        exists df evs,
          generate_data (steered base answers) sch num_rows "mixed" []
          = (Ok df, evs) /\
          case_draws evs = answers) /\
     (forall cases,
        List.length cases = n ->
        Forall (fun c => c = "positive" \/ c = "negative") cases ->
        List.length
          (filter (fun answers =>
                     same_cases (cases_drawn (steered base answers) sch num_rows)
                                cases)
                  (answer_sequences n)) = 1)).
Proof.
  split.
  - intros env sch num_rows test_type w Hnd.
    split; [apply generate_data_returns |].
    intros df w' Hrun.
    destruct (generate_data_spec env sch num_rows test_type w)
      as [(evs & n' & cfg' & Hr & _)
         | (grid & evs & Hr & Hlen & Hall & Hd & Hf)];
      rewrite Hr in Hrun; [discriminate |].
    inversion Hrun; subst df w'; clear Hrun.
    set (data := grid_records (field_names sch) grid).
    exists evs, data. split; [reflexivity |]. split; [exact Hf |].
    split; [reflexivity |].
    split; [unfold data, grid_records; rewrite length_map; exact Hlen |].
    cbv zeta.
    pose proof (grid_lengths env test_type (fields_of sch) grid Hall) as Hlens.
    assert (Hcell : forall i j name cfg,
               i < Z.to_nat num_rows ->
               nth_error (fields_of sch) j = Some (name, cfg) ->
               exists cvs c v record,
                 nth_error grid i = Some cvs /\ nth_error cvs j = Some (c, v) /\
                 In c (cases_of test_type) /\
                 nth_error data i = Some record /\
                 dict_get record name = Some v /\
                 produced_by env cfg c v /\
                 df_cell (pd_DataFrame data) i name
                 = Some (store (as_float data name) (Some v))).
    { intros i j name cfg Hi Hj.
      destruct (nth_error grid i) as [cvs |] eqn:Ei;
        [| apply nth_error_None in Ei; lia].
      rewrite Forall_forall in Hall.
      pose proof (Hall cvs (nth_error_In _ _ Ei)) as Hrow.
      destruct (Forall2_nth_error _ _ _ j _ Hrow Hj) as ([c v] & Hcv & Hc & Hp).
      simpl in Hc, Hp.
      assert (Hname : nth_error (field_names sch) j = Some name).
      { apply (map_nth_error fst _ _ Hj). }
      exists cvs, c, v, (combine (field_names sch) (map snd cvs)).
      split; [reflexivity |]. split; [exact Hcv |]. split; [exact Hc |].
      split; [| split; [| split]].
      - unfold data, grid_records. rewrite nth_error_map, Ei. simpl.
        rewrite (grid_record (field_names sch) grid cvs Hnd Hlens
                   (nth_error_In _ _ Ei)).
        reflexivity.
      - apply (dict_get_combine (field_names sch) (map snd cvs) j name v Hnd
                 Hname (map_nth_error snd _ _ Hcv)).
      - apply field_value_gives_produced. exact Hp.
      - apply (df_cell_grid (field_names sch) grid i j name cvs (c, v));
          assumption. }
    split.
    + intros Hfix. apply String.eqb_neq in Hfix. rewrite Hfix in Hd.
      split; [exact Hd |].
      intros i j name cfg Hi Hj.
      destruct (Hcell i j name cfg Hi Hj)
        as (cvs & c & v & record & _ & _ & Hc & Hrec & Hget & Hp & Hdf).
      unfold cases_of in Hc. rewrite Hfix in Hc. destruct Hc as [<- | []].
      exists record, v. auto.
    + intros ->. rewrite String.eqb_refl in Hd.
      pose proof (grid_draws_uniform (fields_of sch) grid Hall) as Hl.
      rewrite Hd. split.
      * rewrite (length_concat_uniform _ _ Hl), length_map, Hlen. reflexivity.
      * intros i j name cfg Hi Hj.
        destruct (Hcell i j name cfg Hi Hj)
          as (cvs & c & v & record & Hg & Hcv & Hc & Hrec & Hget & Hp & Hdf).
        exists c, record, v.
        rewrite (nth_error_concat_uniform _ _ i j (map fst cvs) Hl).
        -- rewrite (map_nth_error fst _ _ Hcv). auto 7.
        -- apply map_nth_error. exact Hg.
        -- apply nth_error_Some. rewrite Hj. discriminate.
  - intros base sch num_rows Hnd Hno n.
    split; [apply length_answer_sequences |].
    assert (Hrun : forall answers,
               In answers (answer_sequences n) ->
               exists df evs,
                 generate_data (steered base answers) sch num_rows "mixed" []
                 = (Ok df, evs) /\
                 case_draws evs = answers).
    { intros answers Hin. apply answer_sequences_spec in Hin.
      destruct Hin as [Hl Hf]. apply steered_draws; assumption. }
    split; [exact Hrun |].
    intros cases Hl Hf.
    rewrite (filter_ext_in
               (fun answers =>
                  same_cases (cases_drawn (steered base answers) sch num_rows)
                             cases)
               (fun answers => same_cases answers cases)).
    + apply one_answer_sequence; assumption.
    + intros answers Hin. destruct (Hrun answers Hin) as (df & evs & Hr & Hd).
      unfold cases_drawn. rewrite Hr. cbn [snd]. rewrite Hd. reflexivity.
Qed.

(** Under the mixed policy the two fields of one row can differ in case:
    here the first is positive and the second negative; a random source
    can be found for the opposite assignment; and of the four sequences
    of two answers exactly one gives it. *)
Lemma case_selection_witness :
  (exists df evs,
     generate_data Samples.quiet Samples.two_emails_schema 1 "mixed" []
     = (Ok df, [] ++ evs) /\
     List.length (case_draws evs) = 2 /\
     df_cell df 0 "a" = Some (Some (PStr "asha@example.org")) /\
     df_cell df 0 "b" = Some (Some (PStr "not-an-email")))
  /\
  (exists df evs,
     generate_data (steered Samples.quiet ["negative"; "positive"])
       Samples.two_emails_schema 1 "mixed" []
     = (Ok df, evs) /\
     case_draws evs = ["negative"; "positive"])
  /\
  List.length
    (filter (fun answers =>
               same_cases (cases_drawn (steered Samples.quiet answers)
                             Samples.two_emails_schema 1)
                          ["negative"; "positive"])
            (answer_sequences 2)) = 1.
Proof.
  assert (Hnd : NoDup (field_names Samples.two_emails_schema)).
  { repeat constructor; simpl; intuition discriminate. }
  assert (Hno : forall name cfg,
             In (name, cfg) (fields_of Samples.two_emails_schema) ->
             cfg_type cfg <> Some "ai_text").
  { intros name cfg [E | [E | []]]; inversion E; subst; discriminate. }
  assert (Hok : Forall (fun c => c = "positive" \/ c = "negative")
                       ["negative"; "positive"]).
  { constructor; [right; reflexivity |].
    constructor; [left; reflexivity | constructor]. }
  split; [| split].
  - destruct (proj1 case_selection Samples.quiet Samples.two_emails_schema 1%Z
                "mixed" [] Hnd) as [Hret Hsel].
    destruct (Hret (or_introl Hno)) as (df & w' & Hrun).
    destruct (Hsel df w' Hrun) as (evs & data & -> & _ & _ & _ & _ & Hmixed).
    destruct (Hmixed eq_refl) as [Hlen _].
    exists df, evs. split; [exact Hrun |]. split; [exact Hlen |].
    vm_compute in Hrun. inversion Hrun; subst df. split; reflexivity.
  - destruct (proj2 case_selection Samples.quiet Samples.two_emails_schema 1%Z
                Hnd Hno) as (_ & Hrun & _).
    apply Hrun. apply answer_sequences_spec. split; [reflexivity | exact Hok].
  - destruct (proj2 case_selection Samples.quiet Samples.two_emails_schema 1%Z
                Hnd Hno) as (_ & _ & Hcount).
    apply Hcount; [reflexivity | exact Hok].
Defined.

End DataFactoryFacts.

(* ================================================================== *)
(** ** test_strategist.py: plans, row counts, scenario rows, reports *)
(* ================================================================== *)

Module TestStrategistFacts.
Import TestStrategist FrameFacts.

(** *** Tagging *)

Lemma tag_rows_spec scenario_name test_type generated : forall tagged,
  tag_rows scenario_name test_type generated = Ok tagged ->
  Forall2 (fun item row =>
             exists d, item = PDict d /\
               row = dict_set (dict_set d "scenario_name" scenario_name)
                              "test_type" test_type)
          generated tagged.
Proof.
  induction generated as [| item rest IH]; intros tagged H; simpl in H.
  - inversion H. constructor.
  - destruct item; simpl in H; try discriminate.
    destruct (tag_rows scenario_name test_type rest) as [others | e];
      [| discriminate].
    inversion H; subst. constructor; [eauto | apply IH; reflexivity].
Qed.

Lemma tag_row_tagged scenario_name test_type (d : dict pyval) :
  tagged_with scenario_name test_type
    (dict_set (dict_set d "scenario_name" scenario_name) "test_type" test_type).
Proof.
  split.
  - rewrite dict_get_set_other by discriminate. apply dict_get_set_same.
  - apply dict_get_set_same.
Qed.

Lemma tag_rows_tagged scenario_name test_type generated tagged :
  tag_rows scenario_name test_type generated = Ok tagged ->
  List.length tagged = List.length generated /\
  Forall (tagged_with scenario_name test_type) tagged.
Proof.
  intros H. apply tag_rows_spec in H. split.
  - symmetry. eapply Forall2_length; eauto.
  - induction H as [| item row items rows (d & _ & ->) _ IH]; constructor.
    + apply tag_row_tagged.
    + exact IH.
Qed.

(** *** One scenario *)

Lemma model_generate_content_run env p w :
  model_generate_content env p w
  = (match service env w p with
     | Some text => Ok text
     | None => Raise ServiceError
     end, w ++ [EvService p (service env w p)]).
Proof.
  unfold model_generate_content. destruct (service env w p); reflexivity.
Qed.

Lemma has_keys_true scenario :
  has_keys scenario = true ->
  exists scenario_name description test_type,
    py_getitem scenario "scenario_name" = Ok scenario_name /\
    py_getitem scenario "description" = Ok description /\
    py_getitem scenario "test_type" = Ok test_type.
Proof.
  unfold has_keys, dict_has. destruct scenario; try discriminate. simpl.
  destruct (dict_get entries "scenario_name") as [n |]; [| discriminate].
  destruct (dict_get entries "description") as [d |]; [| discriminate].
  destruct (dict_get entries "test_type") as [t |]; [| discriminate].
  intros _. exists n, d, t. auto.
Qed.

(** A scenario with its three keys never makes the step raise: the rows
    of a successful block are appended, a failed block appends nothing. *)
Lemma scenario_step_ok env rows_per_scenario fields scenario all_test_data w :
  has_keys scenario = true ->
  scenario_step env rows_per_scenario fields scenario all_test_data w
  = (Ok (all_test_data ++
         rows_or_skip
           (fst (scenario_outcome env rows_per_scenario fields scenario w))),
     snd (scenario_outcome env rows_per_scenario fields scenario w)).
Proof.
  intros Hk. destruct (has_keys_true scenario Hk) as (n & d & t & Hn & Hd & Ht).
  unfold scenario_step, scenario_outcome. rewrite Hn, Hd, Ht.
  unfold lift at 1 2 3. unfold bind at 1 2 3. cbv beta iota.
  unfold try_except, bind.
  destruct (scenario_rows env rows_per_scenario fields n d t w)
    as [[tagged | e] w1]; simpl.
  - reflexivity.
  - rewrite app_nil_r. reflexivity.
Qed.

(** A scenario that lacks one of the keys makes the step raise, before
    the guarded block is entered and without any call to the service. *)
Lemma scenario_step_missing_key env rows_per_scenario fields scenario
    all_test_data w :
  has_keys scenario = false ->
  exists e,
    scenario_step env rows_per_scenario fields scenario all_test_data w
    = (Raise e, w) /\
    (e = TypeError \/
     exists k, e = KeyError k /\
               In k ["scenario_name"; "description"; "test_type"]).
Proof.
  unfold has_keys, dict_has, scenario_step, py_getitem, lift, bind.
  destruct scenario; intros Hk;
    try (exists TypeError; split; [reflexivity | left; reflexivity]).
  destruct (dict_get entries "scenario_name") as [n |].
  2:{ exists (KeyError "scenario_name"). split; [reflexivity | right]. simpl. eauto. }
  destruct (dict_get entries "description") as [d |].
  2:{ exists (KeyError "description"). split; [reflexivity | right]. simpl. eauto. }
  destruct (dict_get entries "test_type") as [t |].
  2:{ exists (KeyError "test_type"). split; [reflexivity | right]. simpl. eauto 6. }
  discriminate Hk.
Qed.

(** What a successful block returned: the service answered, the answer
    parsed, the parsed value could be iterated, and every item was a dict;
    the rows are the items, in the order returned, with the tags set. *)
Lemma scenario_outcome_some env rows_per_scenario fields scenario w tagged w' :
  scenario_outcome env rows_per_scenario fields scenario w = (Some tagged, w') ->
  exists scenario_name description test_type text generated items,
    py_getitem scenario "scenario_name" = Ok scenario_name /\
    py_getitem scenario "description" = Ok description /\
    py_getitem scenario "test_type" = Ok test_type /\
    service env w (ScenarioPrompt rows_per_scenario description fields)
      = Some text /\
    json_loads env (strip_fences text) = Some generated /\
    py_iter generated = Ok items /\
    tag_rows scenario_name test_type items = Ok tagged.
Proof.
  unfold scenario_outcome.
  destruct (py_getitem scenario "scenario_name") as [n | ?]; [| discriminate].
  destruct (py_getitem scenario "description") as [d | ?]; [| discriminate].
  destruct (py_getitem scenario "test_type") as [t | ?]; [| discriminate].
  unfold scenario_rows, bind. rewrite model_generate_content_run.
  destruct (service env w (ScenarioPrompt rows_per_scenario d fields))
    as [text |] eqn:Es; [| discriminate].
  unfold py_json_loads.
  destruct (json_loads env (strip_fences text)) as [generated |] eqn:Ej;
    [| discriminate].
  unfold ret, lift.
  destruct (py_iter generated) as [items | ?] eqn:Ei; [| discriminate].
  destruct (tag_rows n t items) as [rows | ?] eqn:Et; [| discriminate].
  intros H. inversion H; subst.
  exists n, d, t, text, generated, items.
  repeat split; assumption || reflexivity.
Qed.

(** Every scenario makes exactly one call to the service. *)
Lemma scenario_outcome_world env rows_per_scenario fields scenario w :
  has_keys scenario = true ->
  exists p, snd (scenario_outcome env rows_per_scenario fields scenario w)
            = w ++ [EvService p (service env w p)].
Proof.
  intros Hk. destruct (has_keys_true scenario Hk) as (n & d & t & Hn & Hd & Ht).
  unfold scenario_outcome. rewrite Hn, Hd, Ht.
  exists (ScenarioPrompt rows_per_scenario d fields).
  unfold scenario_rows, bind. rewrite model_generate_content_run.
  destruct (service env w (ScenarioPrompt rows_per_scenario d fields))
    as [text |]; [| reflexivity].
  unfold py_json_loads.
  destruct (json_loads env (strip_fences text)) as [generated |];
    [| reflexivity].
  unfold ret, lift.
  destruct (py_iter generated) as [items | ?]; [| reflexivity].
  destruct (tag_rows n t items); reflexivity.
Qed.

(** *** All scenarios *)

Lemma scenarios_loop_ok env rows_per_scenario fields scenarios :
  forall all_test_data w,
  Forall (fun s => has_keys s = true) scenarios ->
  exists w',
    scenarios_loop env rows_per_scenario fields scenarios all_test_data w
    = (Ok (all_test_data ++
           plan_rows (plan_outcomes env rows_per_scenario fields scenarios w)),
       w').
Proof.
  induction scenarios as [| s rest IH]; intros all_test_data w Hall.
  - exists w. simpl. unfold plan_rows. simpl. rewrite app_nil_r. reflexivity.
  - inversion Hall as [| ? ? Hs Hrest]; subst.
    simpl scenarios_loop.
    run_ok (scenario_step_ok env rows_per_scenario fields s all_test_data w Hs).
    simpl plan_outcomes.
    destruct (scenario_outcome env rows_per_scenario fields s w) as [outcome w1].
    cbn [fst snd].
    destruct (IH (all_test_data ++ rows_or_skip outcome) w1 Hrest) as [w' Hrun].
    exists w'. rewrite Hrun. unfold plan_rows. simpl.
    rewrite app_assoc. reflexivity.
Qed.

Lemma scenarios_loop_missing_key env rows_per_scenario fields scenarios :
  forall all_test_data w,
  Exists (fun s => has_keys s = false) scenarios ->
  exists e w',
    scenarios_loop env rows_per_scenario fields scenarios all_test_data w
    = (Raise e, w') /\
    (e = TypeError \/
     exists k, e = KeyError k /\
               In k ["scenario_name"; "description"; "test_type"]).
Proof.
  induction scenarios as [| s rest IH]; intros all_test_data w Hex.
  - inversion Hex.
  - simpl scenarios_loop. destruct (has_keys s) eqn:Hs.
    + run_ok (scenario_step_ok env rows_per_scenario fields s all_test_data w Hs).
      apply IH. inversion Hex; subst; [congruence | assumption].
    + destruct (scenario_step_missing_key env rows_per_scenario fields s
                  all_test_data w Hs) as (e & Hr & He).
      exists e, w. run_raise Hr. auto.
Qed.

(** *** The dataset of a plan *)

Lemma tagged_with_keys scenario_name test_type row :
  tagged_with scenario_name test_type row -> has_tag_keys row.
Proof. intros [H1 H2]. split; eapply dict_get_in_keys; eauto. Qed.

Lemma rows_or_skip_tagged env rows_per_scenario fields scenario w :
  Forall has_tag_keys
    (rows_or_skip (fst (scenario_outcome env rows_per_scenario fields scenario w))).
Proof.
  destruct (scenario_outcome env rows_per_scenario fields scenario w)
    as [[tagged |] w1] eqn:E; simpl; [| constructor].
  apply scenario_outcome_some in E.
  destruct E as (n & d & t & text & g & items & _ & _ & _ & _ & _ & _ & Htag).
  apply tag_rows_tagged in Htag. destruct Htag as [_ Hall].
  eapply Forall_impl; [| exact Hall]. intros row. apply tagged_with_keys.
Qed.

Lemma scenarios_loop_tags env rows_per_scenario fields scenarios :
  forall all_test_data w all' w',
  scenarios_loop env rows_per_scenario fields scenarios all_test_data w
    = (Ok all', w') ->
  Forall has_tag_keys all_test_data -> Forall has_tag_keys all'.
Proof.
  induction scenarios as [| s rest IH]; intros all_test_data w all' w' Hrun Hall.
  - simpl in Hrun. inversion Hrun; subst. exact Hall.
  - simpl in Hrun. destruct (has_keys s) eqn:Hs.
    + rewrite (bind_ok _ (scenario_step_ok env rows_per_scenario fields s
                            all_test_data w Hs)) in Hrun.
      eapply IH; [exact Hrun |].
      apply Forall_app. split; [exact Hall | apply rows_or_skip_tagged].
    + destruct (scenario_step_missing_key env rows_per_scenario fields s
                  all_test_data w Hs) as (e & Hr & _).
      rewrite (bind_raise _ Hr) in Hrun. discriminate.
Qed.

(** The run of [generate_data_for_plan] on a plan object whose scenarios
    are a list. *)
Lemma generate_data_for_plan_unfold env d scenarios rows_per_scenario w :
  dict_get d "scenarios" = Some (PList scenarios) ->
  generate_data_for_plan env (PDict d) rows_per_scenario w
  = bind (scenarios_loop env rows_per_scenario
            (dict_get_default d "fields" (PList [])) scenarios [])
         (fun all_test_data => ret (pd_DataFrame all_test_data)) w.
Proof.
  intros Hs. unfold generate_data_for_plan, py_get, py_getitem, py_iter.
  rewrite Hs. reflexivity.
Qed.

(** Whatever the plan, a returned frame is built from tagged records. *)
Lemma generate_data_for_plan_inv env plan rows_per_scenario w df w' :
  generate_data_for_plan env plan rows_per_scenario w = (Ok df, w') ->
  exists data, df = pd_DataFrame data /\ Forall has_tag_keys data.
Proof.
  unfold generate_data_for_plan. intros Hrun.
  apply bind_ok_inv in Hrun. destruct Hrun as (fields & w1 & _ & Hrun).
  apply bind_ok_inv in Hrun. destruct Hrun as (sv & w2 & _ & Hrun).
  apply bind_ok_inv in Hrun. destruct Hrun as (scenarios & w3 & _ & Hrun).
  apply bind_ok_inv in Hrun. destruct Hrun as (data & w4 & Hloop & Hrun).
  inversion Hrun; subst. exists data. split; [reflexivity |].
  eapply scenarios_loop_tags; [exact Hloop | constructor].
Qed.

Lemma plan_outcomes_length env rows_per_scenario fields scenarios : forall w,
  List.length (plan_outcomes env rows_per_scenario fields scenarios w)
  = List.length scenarios.
Proof.
  induction scenarios as [| s rest IH]; intros w; simpl; [reflexivity |].
  destruct (scenario_outcome env rows_per_scenario fields s w) as [o w1].
  simpl. rewrite IH. reflexivity.
Qed.

Lemma plan_outcomes_tagged env rows_per_scenario fields scenarios : forall w,
  Forall2 (fun scenario outcome =>
             forall tagged, outcome = Some tagged ->
               exists scenario_name test_type,
                 py_getitem scenario "scenario_name" = Ok scenario_name /\
                 py_getitem scenario "test_type" = Ok test_type /\
                 Forall (tagged_with scenario_name test_type) tagged)
          scenarios (plan_outcomes env rows_per_scenario fields scenarios w).
Proof.
  induction scenarios as [| s rest IH]; intros w; simpl; [constructor |].
  destruct (scenario_outcome env rows_per_scenario fields s w) as [o w1] eqn:E.
  constructor; [| apply IH].
  intros tagged ->. apply scenario_outcome_some in E.
  destruct E as (n & d & t & text & g & items & Hn & _ & Ht & _ & _ & _ & Htag).
  exists n, t. split; [exact Hn |]. split; [exact Ht |].
  apply (tag_rows_tagged _ _ _ _ Htag).
Qed.

Lemma plan_rows_length outcomes :
  List.length (plan_rows outcomes)
  = list_sum (map (fun o => List.length (rows_or_skip o)) outcomes).
Proof.
  unfold plan_rows. induction outcomes as [| o rest IH]; simpl; [reflexivity |].
  rewrite length_app, IH. reflexivity.
Qed.

(** A failed call or an unparseable answer leaves the scenario without
    rows. *)
Lemma scenario_outcome_failure env rows_per_scenario fields scenario w
    scenario_name description test_type :
  py_getitem scenario "scenario_name" = Ok scenario_name ->
  py_getitem scenario "description" = Ok description ->
  py_getitem scenario "test_type" = Ok test_type ->
  let reply :=
    service env w (ScenarioPrompt rows_per_scenario description fields) in
  reply = None \/
  (exists text, reply = Some text /\ json_loads env (strip_fences text) = None) ->
  fst (scenario_outcome env rows_per_scenario fields scenario w) = None.
Proof.
  intros Hn Hd Ht reply Hfail. unfold scenario_outcome. rewrite Hn, Hd, Ht.
  unfold scenario_rows, bind. rewrite model_generate_content_run.
  fold reply. destruct Hfail as [-> | (text & -> & Hj)]; [reflexivity |].
  unfold py_json_loads. rewrite Hj. reflexivity.
Qed.

(** *** C5 *)

(** C5 (as stated): the rows of a plan are bounded by [rows_per_scenario]
    times the number of successful scenarios.  The code appends whatever
    the service returns: here one row is asked for one scenario and two
    rows are returned and kept. *)
Lemma row_bound_counterexample :
  ~ (forall env d scenarios rows_per_scenario w df w',
       dict_get d "scenarios" = Some (PList scenarios) ->
       generate_data_for_plan env (PDict d) rows_per_scenario w = (Ok df, w') ->
       (Z.of_nat (nrows df)
        <= rows_per_scenario *
           Z.of_nat (successes
                       (plan_outcomes env rows_per_scenario
                          (dict_get_default d "fields" (PList []))
                          scenarios w)))%Z).
Proof.
  intros H.
  specialize (H (Samples.scripted [Some Samples.two_rows_text] Samples.parsed)
                [("fields", PList [PStr "a"; PStr "b"]);
                 ("scenarios",
                  PList [Samples.scenario "valid login" "positive"])]
                [Samples.scenario "valid login" "positive"] 1%Z []).
  vm_compute in H.
  specialize (H _ _ eq_refl eq_refl). apply H. reflexivity.
Qed.

(** The tagging loop succeeds exactly on objects. *)
Lemma tag_rows_objects scenario_name test_type items :
  tag_rows scenario_name test_type items
  = if forallb is_object items
    then Ok (map (tagged scenario_name test_type) items)
    else Raise TypeError.
Proof.
  induction items as [| item rest IH]; [reflexivity |].
  cbn [tag_rows forallb map]. rewrite IH.
  destruct item; cbn [tag_row is_object andb tagged]; try reflexivity.
  destruct (forallb is_object rest); reflexivity.
Qed.

(** The outcome of a scenario, read off the reply of the service. *)
Lemma scenario_outcome_reply env rows_per_scenario fields scenario w :
  has_keys scenario = true ->
  exists request,
    request_for rows_per_scenario fields scenario = Some request /\
    snd (scenario_outcome env rows_per_scenario fields scenario w)
    = w ++ [EvService request (service env w request)] /\
    rows_or_skip (fst (scenario_outcome env rows_per_scenario fields scenario w))
    = contribution env scenario (service env w request).
Proof.
  intros Hk. destruct (has_keys_true scenario Hk) as (n & d & t & Hn & Hd & Ht).
  exists (ScenarioPrompt rows_per_scenario d fields).
  unfold request_for, scenario_outcome, contribution, returned_objects.
  rewrite Hn, Hd, Ht. split; [reflexivity |].
  unfold scenario_rows, bind. rewrite model_generate_content_run.
  destruct (service env w (ScenarioPrompt rows_per_scenario d fields))
    as [text |]; [| split; reflexivity].
  unfold py_json_loads.
  destruct (json_loads env (strip_fences text)) as [generated |];
    [| split; reflexivity].
  unfold ret, lift.
  destruct (py_iter generated) as [items | ?]; [| split; reflexivity].
  rewrite tag_rows_objects.
  destruct (forallb is_object items); split; reflexivity.
Qed.

(** The loop over the scenarios, read off the exchanges with the
    service. *)
Lemma scenarios_loop_run env rows_per_scenario fields scenarios :
  forall all_test_data w,
  Forall (fun s => has_keys s = true) scenarios ->
  let asked := exchanges env rows_per_scenario fields scenarios w in
  scenarios_loop env rows_per_scenario fields scenarios all_test_data w
  = (Ok (all_test_data
         ++ List.concat (contributions env scenarios (map snd asked))),
     w ++ map exchange_event asked)
  /\ List.length asked = List.length scenarios.
Proof.
  induction scenarios as [| s rest IH]; intros all_test_data w Hall.
  - simpl. rewrite !app_nil_r. split; reflexivity.
  - inversion Hall as [| ? ? Hs Hrest]; subst.
    destruct (scenario_outcome_reply env rows_per_scenario fields s w Hs)
      as (request & Hreq & Hw & Hrows).
    cbn [exchanges]. rewrite Hreq. cbv zeta.
    cbn [scenarios_loop].
    rewrite (bind_ok _ (scenario_step_ok env rows_per_scenario fields s
                          all_test_data w Hs)).
    rewrite Hw, Hrows.
    destruct (IH (all_test_data
                  ++ contribution env s (service env w request))
                 (w ++ [EvService request (service env w request)]) Hrest)
      as [Hrun Hlen].
    cbv zeta in Hrun. rewrite Hrun. split.
    + unfold contributions. cbn [map combine fst snd List.concat].
      rewrite <- !app_assoc. reflexivity.
    + cbn [List.length]. rewrite Hlen. reflexivity.
Qed.

Lemma contributions_length env scenarios replies :
  List.length replies = List.length scenarios ->
  List.length (contributions env scenarios replies) = List.length scenarios.
Proof.
  intros H. unfold contributions. rewrite length_map, length_combine, H.
  apply Nat.min_id.
Qed.

Lemma length_concat {A} (ls : list (list A)) :
  List.length (List.concat ls) = list_sum (map (@List.length A) ls).
Proof.
  induction ls as [| l rest IH]; simpl; [reflexivity |].
  rewrite length_app, IH. reflexivity.
Qed.

(** Every contributed row is an object of the reply with the scenario's
    two tags set. *)
Lemma contribution_rows env scenario reply row :
  In row (contribution env scenario reply) ->
  exists scenario_name test_type items d,
    py_getitem scenario "scenario_name" = Ok scenario_name /\
    py_getitem scenario "test_type" = Ok test_type /\
    returned_objects env reply = Some items /\
    In (PDict d) items /\
    row = dict_set (dict_set d "scenario_name" scenario_name)
                   "test_type" test_type.
Proof.
  unfold contribution.
  destruct (py_getitem scenario "scenario_name") as [n | ?]; [| intros []].
  destruct (py_getitem scenario "test_type") as [t0 | ?]; [| intros []].
  destruct (returned_objects env reply) as [items |] eqn:Er; [| intros []].
  intros Hin. apply in_map_iff in Hin. destruct Hin as (item & <- & Hitem).
  assert (Hobj : is_object item = true).
  { unfold returned_objects in Er.
    destruct reply as [text |]; [| discriminate].
    destruct (json_loads env (strip_fences text)) as [g |]; [| discriminate].
    destruct (py_iter g) as [its | ?]; [| discriminate].
    destruct (forallb is_object its) eqn:Ef; [| discriminate].
    inversion Er; subst. rewrite forallb_forall in Ef. apply Ef. exact Hitem. }
  destruct item; try discriminate.
  exists n, t0, items, entries. auto.
Qed.

Lemma contributions_rows env scenarios replies row :
  In row (List.concat (contributions env scenarios replies)) ->
  exists scenario reply,
    In scenario scenarios /\ In row (contribution env scenario reply).
Proof.
  intros Hin. apply in_concat in Hin. destruct Hin as (part & Hpart & Hrow).
  unfold contributions in Hpart. apply in_map_iff in Hpart.
  destruct Hpart as ([s r] & <- & Hsr).
  exists s, r. split; [eapply in_combine_l; exact Hsr | exact Hrow].
Qed.

(** C5 (amended): when every scenario of the plan carries its three keys,
    generation returns, whatever the service does.  It makes one request
    per scenario, in plan order, and the dataset is the frame of what the
    scenarios contribute, concatenated in plan order: a scenario whose
    reply is missing, does not parse, or is not an array of objects
    contributes nothing; any other scenario contributes every object of
    its reply, in the order returned, tagged with its [scenario_name] and
    [test_type], however many were asked for.  So the number of rows is
    the number of objects returned for the usable replies, and every row
    carries the tags of its scenario, in the record and in the frame. *)
Theorem plan_rows_in_order env d scenarios rows_per_scenario w :
  dict_get d "scenarios" = Some (PList scenarios) ->
  Forall (fun s => has_keys s = true) scenarios ->
  let fields := dict_get_default d "fields" (PList []) in
  let asked := exchanges env rows_per_scenario fields scenarios w in
  let parts := contributions env scenarios (map snd asked) in
  let data := List.concat parts in
  let df := pd_DataFrame data in
  generate_data_for_plan env (PDict d) rows_per_scenario w
  = (Ok df, w ++ map exchange_event asked)
  /\ List.length asked = List.length scenarios
  /\ List.length parts = List.length scenarios
  /\ nrows df = list_sum (map (@List.length (dict pyval)) parts)
  /\ (forall scenario reply scenario_name test_type,
        py_getitem scenario "scenario_name" = Ok scenario_name ->
        py_getitem scenario "test_type" = Ok test_type ->
        (reply = None \/
         (exists text, reply = Some text /\
                       json_loads env (strip_fences text) = None) \/
         (exists text items,
            reply = Some text /\
            json_loads env (strip_fences text) = Some (PList items) /\
            forallb is_object items = false) ->
         contribution env scenario reply = [])
        /\
        (forall text items,
           reply = Some text ->
           json_loads env (strip_fences text) = Some (PList items) ->
           forallb is_object items = true ->
           contribution env scenario reply
           = map (tagged scenario_name test_type) items /\
           List.length (contribution env scenario reply) = List.length items /\
           Forall (tagged_with scenario_name test_type)
                  (contribution env scenario reply)))
  /\ (forall i row,
        nth_error data i = Some row ->
        exists scenario scenario_name test_type,
          In scenario scenarios /\
          py_getitem scenario "scenario_name" = Ok scenario_name /\
          py_getitem scenario "test_type" = Ok test_type /\
          tagged_with scenario_name test_type row /\
          df_cell df i "scenario_name"
          = Some (store (as_float data "scenario_name") (Some scenario_name)) /\
          df_cell df i "test_type"
          = Some (store (as_float data "test_type") (Some test_type))).
Proof.
  intros Hs Hall fields asked parts data df.
  destruct (scenarios_loop_run env rows_per_scenario fields scenarios [] w Hall)
    as [Hrun Hlen].
  cbv zeta in Hrun. cbn [app] in Hrun.
  split; [| split; [| split; [| split; [| split]]]].
  - rewrite (generate_data_for_plan_unfold env d scenarios rows_per_scenario w Hs).
    fold fields. run_ok Hrun. reflexivity.
  - exact Hlen.
  - apply contributions_length. rewrite length_map. exact Hlen.
  - unfold nrows, df, pd_DataFrame. cbn [rows]. rewrite length_map.
    apply length_concat.
  - intros scenario reply n t0 Hn Ht. unfold contribution. rewrite Hn, Ht.
    split.
    + intros [-> | [(text & -> & Hj) | (text & items & -> & Hj & Hf)]];
        unfold returned_objects; try rewrite Hj; try reflexivity.
      cbn [py_iter]. rewrite Hf. reflexivity.
    + intros text items -> Hj Hf. unfold returned_objects. rewrite Hj.
      cbn [py_iter]. rewrite Hf.
      split; [reflexivity |]. split; [apply length_map |].
      apply Forall_forall. intros row Hin. apply in_map_iff in Hin.
      destruct Hin as (item & <- & Hitem).
      rewrite forallb_forall in Hf. specialize (Hf item Hitem).
      destruct item; try discriminate. apply tag_row_tagged.
  - intros i row Hi.
    pose proof (nth_error_In _ _ Hi) as Hin.
    destruct (contributions_rows env scenarios (map snd asked) row Hin)
      as (scenario & reply & Hsc & Hrow).
    destruct (contribution_rows env scenario reply row Hrow)
      as (n & t0 & items & d0 & Hn & Ht & _ & _ & ->).
    pose proof (tag_row_tagged n t0 d0) as Htag.
    exists scenario, n, t0.
    split; [exact Hsc |]. split; [exact Hn |]. split; [exact Ht |].
    split; [exact Htag |].
    destruct Htag as [Hgn Hgt].
    split.
    + rewrite <- Hgn. apply df_cell_pd_DataFrame; [exact Hi |].
      apply frame_columns_in. eexists. split; [exact Hin |].
      eapply dict_get_in_keys; exact Hgn.
    + rewrite <- Hgt. apply df_cell_pd_DataFrame; [exact Hi |].
      apply frame_columns_in. eexists. split; [exact Hin |].
      eapply dict_get_in_keys; exact Hgt.
Qed.

(** Three scenarios, the service failing for the second: the rows of the
    first and the third are kept, in that order.  The columns [a] and [b]
    hold a null cell and are therefore columns of floats. *)
Lemma plan_rows_in_order_witness :
  exists w',
    generate_data_for_plan
      (Samples.scripted [Some Samples.one_row_text; None;
                         Some Samples.two_rows_text] Samples.parsed)
      Samples.login_plan 2 []
    = (Ok {| columns := ["a"; "b"; "scenario_name"; "test_type"];
             rows :=
               [ [Some (PFloat "3.0"); Some (PFloat "4.0");
                  Some (PStr "valid login"); Some (PStr "positive")];
                 [Some (PFloat "1.0"); None;
                  Some (PStr "empty form"); Some (PStr "negative")];
                 [None; Some (PFloat "2.0");
                  Some (PStr "empty form"); Some (PStr "negative")] ] |},
       w').
Proof.
  eexists.
  refine (proj1 (plan_rows_in_order
            (Samples.scripted [Some Samples.one_row_text; None;
                               Some Samples.two_rows_text] Samples.parsed)
            [("fields", PList [PStr "a"; PStr "b"]);
             ("scenarios",
              PList [Samples.scenario "valid login" "positive";
                     Samples.scenario "wrong password" "negative";
                     Samples.scenario "empty form" "negative"])]
            [Samples.scenario "valid login" "positive";
             Samples.scenario "wrong password" "negative";
             Samples.scenario "empty form" "negative"]
            2%Z [] eq_refl _)).
  repeat constructor.
Defined.

(** *** C10 *)

(** C10: on a plan whose scenarios all carry the three keys, generation
    never raises, whatever the service answers; a scenario without one of
    the keys makes its step raise before the service is called, and the
    whole generation then ends in an uncaught [KeyError] (or the
    [TypeError] of an item that is not an object) and returns no dataset. *)
Theorem missing_scenario_key_aborts env d scenarios rows_per_scenario w :
  dict_get d "scenarios" = Some (PList scenarios) ->
  (Forall (fun s => has_keys s = true) scenarios ->
   exists df w',
     generate_data_for_plan env (PDict d) rows_per_scenario w = (Ok df, w'))
  /\
  (forall scenario,
     In scenario scenarios -> has_keys scenario = false ->
     (forall fields all_test_data w0, exists e,
        scenario_step env rows_per_scenario fields scenario all_test_data w0
        = (Raise e, w0))
     /\
     exists e w',
       generate_data_for_plan env (PDict d) rows_per_scenario w = (Raise e, w')
       /\ (e = TypeError \/
           exists k, e = KeyError k /\
                     In k ["scenario_name"; "description"; "test_type"])).
Proof.
  intros Hs. split.
  - intros Hall.
    rewrite (generate_data_for_plan_unfold env d scenarios rows_per_scenario w Hs).
    destruct (scenarios_loop_ok env rows_per_scenario
                (dict_get_default d "fields" (PList [])) scenarios [] w Hall)
      as [w' Hrun].
    eexists. exists w'. run_ok Hrun. reflexivity.
  - intros scenario Hin Hk. split.
    + intros fields all_test_data w0.
      destruct (scenario_step_missing_key env rows_per_scenario fields scenario
                  all_test_data w0 Hk) as (e & Hr & _).
      exists e. exact Hr.
    + rewrite (generate_data_for_plan_unfold env d scenarios rows_per_scenario w Hs).
      destruct (scenarios_loop_missing_key env rows_per_scenario
                  (dict_get_default d "fields" (PList [])) scenarios [] w)
        as (e & w' & Hr & He).
      { apply Exists_exists. exists scenario. auto. }
      exists e, w'. run_raise Hr. auto.
Qed.

(** The second scenario has no [description]: the rows already generated
    for the first are lost with the [KeyError]. *)
Lemma missing_scenario_key_aborts_witness :
  exists e w',
    generate_data_for_plan
      (Samples.scripted [Some Samples.one_row_text] Samples.parsed)
      Samples.broken_plan 2 []
    = (Raise e, w')
    /\ (e = TypeError \/
        exists k, e = KeyError k /\
                  In k ["scenario_name"; "description"; "test_type"]).
Proof.
  refine (proj2 (proj2 (missing_scenario_key_aborts
            (Samples.scripted [Some Samples.one_row_text] Samples.parsed)
            [("fields", PList [PStr "a"]);
             ("scenarios",
              PList [Samples.scenario "valid login" "positive";
                     PDict [("scenario_name", PStr "wrong password");
                            ("test_type", PStr "negative")]])]
            [Samples.scenario "valid login" "positive";
             PDict [("scenario_name", PStr "wrong password");
                    ("test_type", PStr "negative")]]
            2%Z [] eq_refl)
            (PDict [("scenario_name", PStr "wrong password");
                    ("test_type", PStr "negative")]) _ eq_refl)).
  right. left. reflexivity.
Defined.

(** *** C9 *)

(** C9 (as stated): a key absent from a record is filled with the sentinel
    rather than left as a missing cell.  The code hands the records to
    [pd.DataFrame] as they are: here the service returns two rows with
    different keys and the first row has a missing cell under [b]. *)
Lemma missing_cell_counterexample :
  ~ (forall env plan rows_per_scenario w df w' i c,
       generate_data_for_plan env plan rows_per_scenario w = (Ok df, w') ->
       i < nrows df -> In c (columns df) ->
       exists v, df_cell df i c = Some (Some v)).
Proof.
  intros H.
  specialize (H (Samples.scripted [Some Samples.two_rows_text] Samples.parsed)
                Samples.single_plan 2%Z [] _ _ 0 "b" eq_refl).
  vm_compute in H.
  destruct H as [v Hv]; [lia | right; right; right; left; reflexivity |].
  discriminate Hv.
Qed.

Lemma keys_or_not (scenarios : list pyval) :
  Forall (fun s => has_keys s = true) scenarios
  \/ Exists (fun s => has_keys s = false) scenarios.
Proof.
  induction scenarios as [| s rest [IH | IH]].
  - left. constructor.
  - destruct (has_keys s) eqn:E.
    + left. constructor; assumption.
    + right. apply Exists_cons_hd. exact E.
  - right. apply Exists_cons_tl. exact IH.
Qed.

(** A returned frame is the frame of what the scenarios contribute. *)
Lemma generate_data_for_plan_data env plan rows_per_scenario w df w' :
  generate_data_for_plan env plan rows_per_scenario w = (Ok df, w') ->
  exists d scenarios_value scenarios,
    plan = PDict d /\
    dict_get d "scenarios" = Some scenarios_value /\
    py_iter scenarios_value = Ok scenarios /\
    Forall (fun s => has_keys s = true) scenarios /\
    let asked :=
      exchanges env rows_per_scenario (dict_get_default d "fields" (PList []))
                scenarios w in
    df = pd_DataFrame
           (List.concat (contributions env scenarios (map snd asked))) /\
    w' = w ++ map exchange_event asked.
Proof.
  unfold generate_data_for_plan. intros Hrun.
  destruct plan; try discriminate.
  unfold py_get, py_getitem, lift in Hrun. unfold bind at 1 2 in Hrun.
  cbv beta iota in Hrun.
  destruct (dict_get entries "scenarios") as [sv |] eqn:Es; [| discriminate].
  unfold bind at 1 in Hrun.
  destruct (py_iter sv) as [scenarios | ?] eqn:Ei; [| discriminate].
  exists entries, sv, scenarios.
  split; [reflexivity |]. split; [exact Es |]. split; [exact Ei |].
  destruct (keys_or_not scenarios) as [Hall | Hex].
  - split; [exact Hall |].
    destruct (scenarios_loop_run env rows_per_scenario
                (dict_get_default entries "fields" (PList [])) scenarios [] w
                Hall) as [Hloop _].
    cbv zeta in Hloop. cbn [app] in Hloop. cbv zeta.
    rewrite (bind_ok _ Hloop) in Hrun. inversion Hrun. auto.
  - exfalso.
    destruct (scenarios_loop_missing_key env rows_per_scenario
                (dict_get_default entries "fields" (PList [])) scenarios [] w
                Hex) as (e & w1 & Hr & _).
    rewrite (bind_raise _ Hr) in Hrun. discriminate.
Qed.

(** C9 (amended): every frame handed to the export step has one cell per
    column in every row, but the engine pads nothing.  A plan-driven
    frame is the frame of the tagged objects the service returned; its
    columns are their keys, each where it first occurs; the cell of a
    record under a column is what the column stores for the record's own
    value (the value, or its float in a column of floats), and a null
    cell when the record lacks the key: no sentinel is put there.  A
    schema-driven frame has the schema's fields as columns, and every
    record carries every field, so that no cell is null for lack of a
    key. *)
Theorem frame_fields_consistent :
  (forall env plan rows_per_scenario w df w',
     generate_data_for_plan env plan rows_per_scenario w = (Ok df, w') ->
     exists d scenarios_value scenarios,
       plan = PDict d /\
       dict_get d "scenarios" = Some scenarios_value /\
       py_iter scenarios_value = Ok scenarios /\
       let asked :=
         exchanges env rows_per_scenario
                   (dict_get_default d "fields" (PList [])) scenarios w in
       let data := List.concat (contributions env scenarios (map snd asked)) in
       df = pd_DataFrame data /\
       columns df = first_occurrences [] (List.concat (map dict_keys data)) /\
       NoDup (columns df) /\
       Forall (fun r => List.length r = List.length (columns df)) (rows df) /\
       (forall i record c,
          nth_error data i = Some record -> In c (columns df) ->
          df_cell df i c = Some (store (as_float data c) (dict_get record c)) /\
          (dict_get record c = None -> df_cell df i c = Some None) /\
          (forall v,
             df_cell df i c = Some (Some v) ->
             exists v0,
               dict_get record c = Some v0 /\
               (v = v0 \/ exists z, v0 = PInt z /\ v = PFloat (float_repr z)))))
  /\
  (forall env sch num_rows test_type w df w',
     NoDup (DataFactory.field_names sch) -> (0 < num_rows)%Z ->
     DataFactory.generate_data env sch num_rows test_type w = (Ok df, w') ->
     exists data,
       df = pd_DataFrame data /\
       List.length data = Z.to_nat num_rows /\
       Forall (fun record => dict_keys record = DataFactory.field_names sch)
              data /\
       columns df = DataFactory.field_names sch /\
       Forall (fun r => List.length r = List.length (columns df)) (rows df) /\
       (forall i record name,
          nth_error data i = Some record ->
          In name (DataFactory.field_names sch) ->
          exists v,
            dict_get record name = Some v /\
            df_cell df i name = Some (store (as_float data name) (Some v)))).
Proof.
  split.
  - intros env plan rows_per_scenario w df w' Hrun.
    destruct (generate_data_for_plan_data env plan rows_per_scenario w df w' Hrun)
      as (d & sv & scenarios & Hp & Hs & Hi & _ & Hdf & _).
    exists d, sv, scenarios.
    split; [exact Hp |]. split; [exact Hs |]. split; [exact Hi |].
    cbv zeta in Hdf |- *.
    set (data := List.concat _) in *. subst df.
    split; [reflexivity |].
    split; [apply frame_columns_first |].
    split; [apply frame_columns_NoDup |].
    split; [apply pd_DataFrame_rows_length |].
    intros i record c Hrec Hc.
    pose proof (df_cell_pd_DataFrame data i record c Hrec Hc) as Hcell.
    split; [exact Hcell |]. split.
    + intros Hnone. rewrite Hcell, Hnone. reflexivity.
    + intros v Hv. rewrite Hcell in Hv. inversion Hv as [Hst].
      apply (store_value _ _ _ Hst).
  - intros env sch num_rows test_type w df w' Hnd Hpos Hrun.
    destruct (DataFactoryFacts.generate_data_shape env sch num_rows test_type
                w df w' Hnd Hpos Hrun) as (_ & Hcols & Hrows).
    destruct (DataFactoryFacts.generate_data_spec env sch num_rows test_type w)
      as [(evs & n' & cfg' & Hr & _) | (grid & evs & Hr & Hlen & Hall & _)];
      rewrite Hr in Hrun; [discriminate |].
    inversion Hrun; subst df w'; clear Hrun.
    pose proof (DataFactoryFacts.grid_lengths env test_type
                  (DataFactory.fields_of sch) grid Hall) as Hlens.
    fold (DataFactory.field_names sch) in Hlens.
    exists (DataFactory.grid_records (DataFactory.field_names sch) grid).
    split; [reflexivity |].
    split; [unfold DataFactory.grid_records; rewrite length_map; exact Hlen |].
    assert (Hrecs : forall i record,
              nth_error (DataFactory.grid_records
                           (DataFactory.field_names sch) grid) i = Some record ->
              exists cvs, nth_error grid i = Some cvs /\
                record = combine (DataFactory.field_names sch) (map snd cvs) /\
                List.length cvs = List.length (DataFactory.field_names sch)).
    { intros i record Hrec. unfold DataFactory.grid_records in Hrec.
      rewrite nth_error_map in Hrec.
      destruct (nth_error grid i) as [cvs |] eqn:Ei; [| discriminate].
      inversion Hrec as [Hrec']. exists cvs. split; [reflexivity |].
      pose proof (nth_error_In _ _ Ei) as Hin.
      split.
      - apply (DataFactoryFacts.grid_record _ grid cvs Hnd Hlens Hin).
      - rewrite Forall_forall in Hlens. apply Hlens. exact Hin. }
    split.
    { apply Forall_forall. intros record Hin.
      destruct (In_nth_error _ _ Hin) as [i Hi].
      destruct (Hrecs i record Hi) as (cvs & _ & -> & Hl).
      apply DataFactoryFacts.dict_keys_combine. rewrite length_map. exact Hl. }
    split; [exact Hcols |].
    split; [rewrite Hcols; exact Hrows |].
    intros i record name Hrec Hname.
    destruct (Hrecs i record Hrec) as (cvs & Ei & -> & Hl).
    destruct (In_nth_error _ _ Hname) as [j Hj].
    destruct (nth_error cvs j) as [cv |] eqn:Ecv.
    2:{ apply nth_error_None in Ecv.
        assert (j < List.length (DataFactory.field_names sch)).
        { apply nth_error_Some. rewrite Hj. discriminate. }
        lia. }
    exists (snd cv). split.
    + apply (DataFactoryFacts.dict_get_combine _ (map snd cvs) j name (snd cv)
               Hnd Hj (map_nth_error snd _ _ Ecv)).
    + apply (DataFactoryFacts.df_cell_grid _ grid i j name cvs cv); assumption.
Qed.

(** Two rows with different keys: both keys are columns, [b] coming after
    the tags of the first row, where it was first met, and the first row
    has a null cell under [b]. *)
Lemma frame_fields_consistent_witness :
  exists df w',
    generate_data_for_plan
      (Samples.scripted [Some Samples.two_rows_text] Samples.parsed)
      Samples.single_plan 2 [] = (Ok df, w')
    /\ columns df = ["a"; "scenario_name"; "test_type"; "b"]
    /\ Forall (fun r => List.length r = List.length (columns df)) (rows df)
    /\ df_cell df 0 "a" = Some (Some (PFloat "1.0"))
    /\ df_cell df 0 "b" = Some None.
Proof.
  eexists. eexists. split; [reflexivity |].
  destruct (proj1 frame_fields_consistent
              (Samples.scripted [Some Samples.two_rows_text] Samples.parsed)
              Samples.single_plan 2%Z [] _ _ eq_refl)
    as (d & sv & scenarios & _ & _ & _ & _ & _ & _ & Hlen & _).
  split; [vm_compute; reflexivity |]. split; [exact Hlen |].
  split; vm_compute; reflexivity.
Defined.

(** *** C8 *)

(** The two reports of a frame that has both provenance columns. *)
Lemma main_reports_run (df : DataFrame) :
  df_empty df = false ->
  In "scenario_name" (columns df) -> In "test_type" (columns df) ->
  main_reports df
  = Ok (Some
      ({| columns := cols_to_move ++
                     filter (fun col => negb (name_in col cols_to_move))
                            (columns df);
          rows := map (fun r =>
                         map (row_cell (columns df) r)
                             (cols_to_move ++
                              filter (fun col => negb (name_in col cols_to_move))
                                     (columns df)))
                      (rows df) |},
       {| columns := filter (fun c => negb (name_in c cols_to_move)) (columns df);
          rows := map (fun r =>
                         map (row_cell (columns df) r)
                             (filter (fun c => negb (name_in c cols_to_move))
                                     (columns df)))
                      (rows df) |})).
Proof.
  intros Hne Hn Ht. unfold main_reports. rewrite Hne. cbn [negb].
  unfold df_select, df_drop.
  rewrite find_none.
  2:{ intros c Hc. apply negb_false_iff, name_in_spec.
      apply in_app_or in Hc. destruct Hc as [[<- | [<- | []]] | Hc]; auto.
      apply filter_In in Hc. tauto. }
  rewrite find_none.
  2:{ intros c [<- | [<- | []]]; apply negb_false_iff, name_in_spec; auto. }
  reflexivity.
Qed.

(** C8: the full report and the data-only frame derived from one
    plan-driven dataset have the rows of the dataset, as many as it has;
    the data-only frame has the dataset's columns except [scenario_name]
    and [test_type], in the dataset's order; the full report has
    [scenario_name] and [test_type] first and then the data-only columns,
    which makes it a rearrangement of all the dataset's columns; and in
    every row the two frames agree with each other and with the dataset
    on every shared column.  An empty dataset yields no report. *)
Theorem reports_agree env plan rows_per_scenario w df w' :
  generate_data_for_plan env plan rows_per_scenario w = (Ok df, w') ->
  (df_empty df = true -> main_reports df = Ok None)
  /\
  (df_empty df = false ->
   exists df_full data_only_df,
     main_reports df = Ok (Some (df_full, data_only_df)) /\
     nrows df_full = nrows df /\
     nrows data_only_df = nrows df /\
     columns data_only_df
       = filter (fun c => negb (name_in c cols_to_move)) (columns df) /\
     columns df_full = "scenario_name" :: "test_type" :: columns data_only_df /\
     NoDup (columns df_full) /\
     (forall c, In c (columns df_full) <-> In c (columns df)) /\
     (forall c, In c (columns data_only_df) <->
                In c (columns df) /\ ~ In c cols_to_move) /\
     (forall i c, In c (columns data_only_df) ->
                  df_cell df_full i c = df_cell data_only_df i c /\
                  df_cell data_only_df i c = df_cell df i c) /\
     (forall i c, In c cols_to_move -> df_cell df_full i c = df_cell df i c)).
Proof.
  intros Hrun. split.
  - intros He. unfold main_reports. rewrite He. reflexivity.
  - intros Hne.
    destruct (generate_data_for_plan_inv env plan rows_per_scenario w df w' Hrun)
      as (data & -> & Htags).
    pose proof (frame_columns_NoDup data) as Hnd.
    pose proof (pd_DataFrame_rows_length data) as Hlen.
    assert (Hcols : In "scenario_name" (columns (pd_DataFrame data)) /\
                    In "test_type" (columns (pd_DataFrame data))).
    { destruct data as [| r rest].
      - unfold df_empty in Hne. simpl in Hne. discriminate.
      - inversion Htags as [| ? ? [Hn Ht] _]; subst.
        split; apply frame_columns_in; exists r; split;
          try (left; reflexivity); assumption. }
    destruct Hcols as [Hn Ht].
    set (df := pd_DataFrame data) in *.
    set (kept := filter (fun c => negb (name_in c cols_to_move)) (columns df)).
    assert (Hkept : forall c, In c kept <-> In c (columns df) /\ ~ In c cols_to_move).
    { intros c. unfold kept. rewrite filter_In, negb_true_iff, name_in_false.
      reflexivity. }
    eexists. eexists. split; [apply main_reports_run; assumption |].
    fold kept. cbn [columns rows nrows].
    split; [unfold nrows; cbn [rows]; apply length_map |].
    split; [unfold nrows; cbn [rows]; apply length_map |].
    split; [reflexivity |]. split; [reflexivity |].
    split; [| split; [| split; [| split]]].
    + assert (Hk : NoDup kept) by (apply NoDup_filter; exact Hnd).
      simpl. constructor.
      * intros [E | Hin]; [discriminate |]. apply Hkept in Hin.
        apply (proj2 Hin). left. reflexivity.
      * constructor; [| exact Hk]. intros Hin. apply Hkept in Hin.
        apply (proj2 Hin). right. left. reflexivity.
    + intros c. simpl. rewrite Hkept. split.
      * intros [<- | [<- | [H _]]]; assumption.
      * intros Hc. destruct (String.eqb_spec "scenario_name" c); [auto |].
        destruct (String.eqb_spec "test_type" c); [auto |].
        right. right. split; [exact Hc |]. simpl. tauto.
    + exact Hkept.
    + intros i c Hc.
      assert (Hfull : In c (cols_to_move ++ kept)) by (apply in_or_app; auto).
      rewrite (df_cell_mapped (cols_to_move ++ kept) (rows df)
                 (row_cell (columns df)) i c Hfull).
      rewrite (df_cell_mapped kept (rows df) (row_cell (columns df)) i c Hc).
      split; [reflexivity |].
      rewrite (df_cell_row_cell df i c Hlen); [reflexivity |].
      apply Hkept in Hc. tauto.
    + intros i c Hc.
      assert (Hfull : In c (cols_to_move ++ kept)) by (apply in_or_app; auto).
      rewrite (df_cell_mapped (cols_to_move ++ kept) (rows df)
                 (row_cell (columns df)) i c Hfull).
      rewrite (df_cell_row_cell df i c Hlen); [reflexivity |].
      destruct Hc as [<- | [<- | []]]; assumption.
Qed.

Lemma reports_agree_witness :
  exists df w' df_full data_only_df,
    generate_data_for_plan
      (Samples.scripted [Some Samples.two_rows_text] Samples.parsed)
      Samples.single_plan 2 [] = (Ok df, w')
    /\ main_reports df = Ok (Some (df_full, data_only_df))
    /\ nrows df_full = nrows df
    /\ nrows data_only_df = nrows df
    /\ columns df_full = "scenario_name" :: "test_type" :: columns data_only_df.
Proof.
  eexists. eexists.
  destruct (proj2 (reports_agree
              (Samples.scripted [Some Samples.two_rows_text] Samples.parsed)
              Samples.single_plan 2%Z [] _ _ eq_refl) eq_refl)
    as (df_full & data_only_df & Hmain & Hn1 & Hn2 & _ & Hc & _).
  exists df_full, data_only_df.
  split; [reflexivity |]. repeat split; assumption.
Defined.

(** *** C6 *)

(** The run of [generate_test_plan]: one call to the service, and the
    parsed value when [len(plan['scenarios'])] can be taken. *)
Lemma generate_test_plan_run env requirement w :
  let reply := service env w (PlanPrompt requirement) in
  generate_test_plan env requirement w
  = (Ok match reply with
        | Some text =>
            match json_loads env (strip_fences text) with
            | Some plan => if has_sized_scenarios plan then Some plan else None
            | None => None
            end
        | None => None
        end,
     w ++ [EvService (PlanPrompt requirement) reply]).
Proof.
  intros reply. unfold generate_test_plan, try_except, bind.
  rewrite model_generate_content_run. fold reply.
  destruct reply as [text |]; [| reflexivity].
  unfold py_json_loads.
  destruct (json_loads env (strip_fences text)) as [plan |]; [| reflexivity].
  unfold ret, lift, has_sized_scenarios.
  destruct (py_getitem plan "scenarios") as [scenarios | e]; [| reflexivity].
  destruct (py_len scenarios); reflexivity.
Qed.

(** C6 (as stated): plan synthesis fails when the parsed plan's scenario
    list is empty.  The code has no such check: the plan
    [{"fields": [], "scenarios": []}] is returned. *)
Lemma empty_plan_counterexample :
  ~ (forall env requirement w text d,
       service env w (PlanPrompt requirement) = Some text ->
       json_loads env (strip_fences text) = Some (PDict d) ->
       dict_get d "scenarios" = Some (PList []) ->
       fst (generate_test_plan env requirement w) = Ok None).
Proof.
  intros H.
  specialize (H (Samples.scripted [Some Samples.empty_plan_text] Samples.parsed)
                "a login form" [] Samples.empty_plan_text
                [("fields", PList []); ("scenarios", PList [])]
                eq_refl eq_refl eq_refl).
  vm_compute in H. discriminate H.
Qed.

(** C6 (amended): plan synthesis never raises and yields no plan in
    exactly three situations: the service call errors, the answer
    (stripped of code fences) is not valid JSON, or the parsed value has
    no ["scenarios"] entry whose length can be taken; in every other case
    it returns the parsed value as it is, a plan with an empty scenario
    list included. *)
Theorem plan_synthesis_outcome env requirement w :
  let reply := service env w (PlanPrompt requirement) in
  exists r,
    generate_test_plan env requirement w
    = (Ok r, w ++ [EvService (PlanPrompt requirement) reply]) /\
    (r = None <->
     reply = None \/
     (exists text, reply = Some text /\
                   json_loads env (strip_fences text) = None) \/
     (exists text plan, reply = Some text /\
                        json_loads env (strip_fences text) = Some plan /\
                        has_sized_scenarios plan = false)) /\
    (forall plan,
       r = Some plan <->
       exists text, reply = Some text /\
                    json_loads env (strip_fences text) = Some plan /\
                    has_sized_scenarios plan = true) /\
    (forall text d,
       reply = Some text ->
       json_loads env (strip_fences text) = Some (PDict d) ->
       dict_get d "scenarios" = Some (PList []) ->
       r = Some (PDict d)).
Proof.
  intros reply. eexists. split; [apply generate_test_plan_run |].
  fold reply. destruct reply as [text |].
  - destruct (json_loads env (strip_fences text)) as [plan |] eqn:Ej.
    + destruct (has_sized_scenarios plan) eqn:Hs.
      * split; [| split].
        -- split; [discriminate |].
           intros [H | [(t & Ht & Hj) | (t & p & Ht & Hj & Hp)]];
             try discriminate.
           inversion Ht; subst t. rewrite Ej in Hj. inversion Hj; subst p.
           congruence.
        -- intros p. split.
           ++ intros E. inversion E; subst p. exists text. auto.
           ++ intros (t & Ht & Hj & _). inversion Ht; subst t.
              rewrite Ej in Hj. exact Hj.
        -- intros t d Ht Hj Hd. inversion Ht; subst t.
           rewrite Ej in Hj. exact Hj.
      * split; [| split].
        -- split; [| reflexivity]. intros _. right. right.
           exists text, plan. auto.
        -- intros p. split; [discriminate |].
           intros (t & Ht & Hj & Hp). inversion Ht; subst t.
           rewrite Ej in Hj. inversion Hj; subst p. congruence.
        -- intros t d Ht Hj Hd. inversion Ht; subst t.
           rewrite Ej in Hj. inversion Hj; subst plan.
           unfold has_sized_scenarios, py_getitem in Hs. rewrite Hd in Hs.
           discriminate Hs.
    + split; [| split].
      * split; [| reflexivity]. intros _. right. left. exists text. auto.
      * intros p. split; [discriminate |].
        intros (t & Ht & Hj & _). inversion Ht; subst t. congruence.
      * intros t d Ht Hj _. inversion Ht; subst t. congruence.
  - split; [| split].
    + split; [auto | reflexivity].
    + intros p. split; [discriminate |]. intros (t & Ht & _). discriminate.
    + intros t d Ht. discriminate.
Qed.

(** The empty plan is handed back to the caller. *)
Lemma plan_synthesis_outcome_witness :
  exists w',
    generate_test_plan
      (Samples.scripted [Some Samples.empty_plan_text] Samples.parsed)
      "a login form" []
    = (Ok (Some Samples.empty_plan), w').
Proof.
  destruct (plan_synthesis_outcome
              (Samples.scripted [Some Samples.empty_plan_text] Samples.parsed)
              "a login form" [])
    as (r & Hrun & _ & _ & Hempty).
  rewrite (Hempty Samples.empty_plan_text
             [("fields", PList []); ("scenarios", PList [])]
             eq_refl eq_refl eq_refl) in Hrun.
  eexists. exact Hrun.
Defined.

(** *** C7 *)

(** C7 (as stated): the advised row count is at least 1.  The code
    returns whatever integer the service wrote: here it is 0. *)
Lemma row_count_counterexample :
  ~ (forall env plan w n w',
       get_ideal_row_count env plan w = (Ok n, w') -> (1 <= n)%Z).
Proof.
  intros H.
  specialize (H (Samples.scripted [Some "0"] []) Samples.login_plan [] 0%Z _
                eq_refl).
  lia.
Qed.

(** C7 (amended): the advisor never raises; it returns the integer read
    from the stripped answer of the service, whatever its sign, and the
    fallback 3 when the service call errors or the answer is not an
    integer. *)
Theorem row_count_outcome env plan w :
  let reply := service env w (RowCountPrompt plan) in
  exists n,
    get_ideal_row_count env plan w
    = (Ok n, w ++ [EvService (RowCountPrompt plan) reply]) /\
    (forall text ideal_count,
       reply = Some text -> py_int (strip text) = Some ideal_count ->
       n = ideal_count) /\
    (reply = None \/
     (exists text, reply = Some text /\ py_int (strip text) = None) ->
     n = 3%Z).
Proof.
  intros reply. unfold get_ideal_row_count, try_except, bind.
  rewrite model_generate_content_run. fold reply.
  destruct reply as [text |].
  - destruct (py_int (strip text)) as [k |] eqn:Ek.
    + exists k. split; [reflexivity |]. split.
      * intros t c Ht Hc. inversion Ht; subst t. congruence.
      * intros [H | (t & Ht & Hn)]; [discriminate |].
        inversion Ht; subst t. congruence.
    + exists 3%Z. split; [reflexivity |]. split.
      * intros t c Ht Hc. inversion Ht; subst t. congruence.
      * reflexivity.
  - exists 3%Z. split; [reflexivity |]. split.
    + intros t c Ht. discriminate.
    + reflexivity.
Qed.

(** The service is down: the advisor falls back to 3. *)
Lemma row_count_outcome_witness :
  exists w',
    get_ideal_row_count (Samples.scripted [None] []) Samples.login_plan []
    = (Ok 3%Z, w').
Proof.
  destruct (row_count_outcome (Samples.scripted [None] []) Samples.login_plan [])
    as (n & Hrun & _ & Hfall).
  rewrite (Hfall (or_introl eq_refl)) in Hrun.
  eexists. exact Hrun.
Defined.

End TestStrategistFacts.

(* ================================================================== *)
(** * Properties of the interactive front ends *)
(* ================================================================== *)

(** ** The console *)

Module ConsoleFacts.
Import Console.

Lemma io_bind_returned {A B} (m : IO A) (k : A -> IO B) s a s1 :
  m s = (Returned a, s1) -> io_bind m k s = k a s1.
Proof. intros H. unfold io_bind. rewrite H. reflexivity. Qed.

Lemma io_bind_inv {A B} (m : IO A) (k : A -> IO B) s b s' :
  io_bind m k s = (Returned b, s') ->
  exists a s1, m s = (Returned a, s1) /\ k a s1 = (Returned b, s').
Proof.
  unfold io_bind. destruct (m s) as [[a | e |] s1]; intros H;
    try discriminate. eauto.
Qed.

End ConsoleFacts.

(** ** Strings: [strip], [endswith], [replace] and code fences *)

Module StringFacts.

(** *** [strip] *)

Lemma lstrip_list s :
  list_ascii_of_string (lstrip s) = drop_spaces (list_ascii_of_string s).
Proof.
  induction s as [| c rest IH]; simpl; [reflexivity |].
  destruct (py_isspace c); [exact IH | reflexivity].
Qed.

Lemma strip_list s :
  list_ascii_of_string (strip s)
  = rev (drop_spaces (rev (drop_spaces (list_ascii_of_string s)))).
Proof.
  unfold strip, rstrip, string_rev.
  rewrite !list_ascii_of_string_of_list_ascii, lstrip_list.
  rewrite list_ascii_of_string_of_list_ascii, lstrip_list. reflexivity.
Qed.

Lemma drop_spaces_clean l : head_clean (drop_spaces l).
Proof.
  induction l as [| c rest IH]; simpl; [exact I |].
  destruct (py_isspace c) eqn:E; [exact IH | exact E].
Qed.

Lemma drop_spaces_id l : head_clean l -> drop_spaces l = l.
Proof. destruct l as [| c rest]; simpl; [reflexivity |]. intros ->. reflexivity. Qed.

Lemma drop_spaces_snoc l c :
  py_isspace c = false -> drop_spaces (l ++ [c]) = drop_spaces l ++ [c].
Proof.
  intros Hc. induction l as [| a rest IH]; simpl.
  - rewrite Hc. reflexivity.
  - destruct (py_isspace a); [exact IH | reflexivity].
Qed.

Lemma rev_drop_rev_clean l :
  head_clean l -> head_clean (rev (drop_spaces (rev l))).
Proof.
  destruct l as [| c rest]; simpl; [intros _; exact I |].
  intros Hc. rewrite drop_spaces_snoc by exact Hc.
  rewrite rev_app_distr. simpl. exact Hc.
Qed.

Lemma strip_idempotent s : strip (strip s) = strip s.
Proof.
  rewrite <- (string_of_list_ascii_of_string (strip (strip s))).
  rewrite <- (string_of_list_ascii_of_string (strip s)) at 2.
  f_equal. rewrite (strip_list (strip s)), (strip_list s).
  set (l := drop_spaces (list_ascii_of_string s)).
  assert (H1 : head_clean (rev (drop_spaces (rev l)))).
  { apply rev_drop_rev_clean, drop_spaces_clean. }
  rewrite (drop_spaces_id _ H1), rev_involutive.
  rewrite (drop_spaces_id (drop_spaces (rev l))) by apply drop_spaces_clean.
  reflexivity.
Qed.

(** *** [endswith] *)

Lemma endswith_refl b : endswith b b = true.
Proof. destruct b; simpl; [reflexivity |]. rewrite String.eqb_refl. reflexivity. Qed.

Lemma endswith_app a b : endswith (a ++ b)%string b = true.
Proof.
  induction a as [| c a IH]; simpl.
  - apply endswith_refl.
  - rewrite IH. apply orb_true_r.
Qed.

Lemma endswith_split s suffix :
  endswith s suffix = true -> exists pre, s = (pre ++ suffix)%string.
Proof.
  induction s as [| c rest IH]; simpl; intros H.
  - rewrite orb_false_r in H. apply String.eqb_eq in H. exists "". exact H.
  - apply orb_prop in H. destruct H as [H | H].
    + apply String.eqb_eq in H. exists "". exact H.
    + destruct (IH H) as [pre ->]. exists (String c pre). reflexivity.
Qed.

(** *** [replace] *)

Lemma replace_from_here old new c rest :
  replace_from old new 0 (String c rest)
  = if String.prefix old (String c rest)
    then (new ++ replace_from old new (String.length old - 1) rest)%string
    else String c (replace_from old new 0 rest).
Proof. reflexivity. Qed.

Lemma prefix_app old post : String.prefix old (old ++ post)%string = true.
Proof.
  induction old as [| a old' IH]; simpl; [destruct post; reflexivity |].
  destruct (ascii_dec a a); [exact IH | contradiction].
Qed.

(** Two replacements that part ways after a common first character give
    different results on any text that holds the pattern. *)
Lemma replace_differs o old' a b1 b2 n1 n2 pre post :
  b1 <> b2 ->
  replace (String o old') (String a (String b1 n1))
          (pre ++ String o old' ++ post)%string
  <> replace (String o old') (String a (String b2 n2))
             (pre ++ String o old' ++ post)%string.
Proof.
  intros Hb. unfold replace.
  assert (Hhead : forall x y : string,
            (String a (String b1 n1) ++ x)%string
            <> (String a (String b2 n2) ++ y)%string).
  { intros x y E. cbn [String.append] in E. inversion E. contradiction. }
  induction pre as [| c pre IH].
  - change ("" ++ String o old' ++ post)%string
      with (String o (old' ++ post)%string).
    rewrite !replace_from_here.
    change (String o (old' ++ post)%string)
      with (String o old' ++ post)%string.
    rewrite prefix_app. apply Hhead.
  - change (String c pre ++ String o old' ++ post)%string
      with (String c (pre ++ String o old' ++ post)%string).
    rewrite !replace_from_here.
    destruct (String.prefix (String o old')
                (String c (pre ++ String o old' ++ post))).
    + apply Hhead.
    + intros E. inversion E as [E']. apply IH. exact E'.
Qed.

(** *** Code fences *)

Lemma prefix_cons a s1 b s2 :
  String.prefix (String a s1) (String b s2)
  = if ascii_dec a b then String.prefix s1 s2 else false.
Proof. reflexivity. Qed.

Lemma prefix_fence s :
  String.prefix "```" s = true <->
  exists rest, s = String tick (String tick (String tick rest)).
Proof.
  split.
  - destruct s as [| a [| b [| c rest]]]; try discriminate.
    + rewrite prefix_cons. destruct (ascii_dec "`" a); discriminate.
    + rewrite !prefix_cons. destruct (ascii_dec "`" a); [| discriminate].
      destruct (ascii_dec "`" b); discriminate.
    + rewrite !prefix_cons.
      destruct (ascii_dec "`" a) as [<- |]; [| discriminate].
      destruct (ascii_dec "`" b) as [<- |]; [| discriminate].
      destruct (ascii_dec "`" c) as [<- |]; [| discriminate].
      intros _. exists rest. reflexivity.
  - intros [rest ->]. destruct rest; reflexivity.
Qed.

Lemma prefix_fence_ticks rest :
  String.prefix "```" (String tick (String tick (String tick rest))) = true.
Proof. apply prefix_fence. eauto. Qed.

Lemma unfence_head t c y :
  replace_from "```" "" 0 t = String c y -> c = tick -> exists t', t = String tick t'.
Proof.
  destruct t as [| a rest]; [discriminate |].
  rewrite replace_from_here.
  destruct (String.prefix "```" (String a rest)) eqn:E.
  - apply prefix_fence in E. destruct E as [r E]. inversion E; subst. eauto.
  - intros H Hc. inversion H; subst. eauto.
Qed.

Lemma unfence_all s :
  fence_free (replace_from "```" "" 0 s) = true /\
  fence_free (replace_from "```" "" 1 s) = true /\
  fence_free (replace_from "```" "" 2 s) = true.
Proof.
  induction s as [| c rest (IH0 & IH1 & IH2)]; [repeat split |].
  split; [| split; [exact IH0 | exact IH1]].
  rewrite replace_from_here.
  destruct (String.prefix "```" (String c rest)) eqn:E.
  - exact IH2.
  - cbn [fence_free]. rewrite IH0, andb_true_r.
    apply negb_true_iff.
    destruct (String.prefix "```" (String c (replace_from "```" "" 0 rest)))
      eqn:E2; [| reflexivity].
    exfalso. apply prefix_fence in E2. destruct E2 as [r2 E2].
    inversion E2 as [[Hc Hr]]. subst c.
    destruct (unfence_head rest tick _ Hr eq_refl) as [t1 ->].
    rewrite replace_from_here in Hr.
    destruct (String.prefix "```" (String tick t1)) eqn:E3.
    + apply prefix_fence in E3. destruct E3 as [r3 E3]. inversion E3; subst.
      rewrite prefix_fence_ticks in E. discriminate E.
    + inversion Hr as [Hr'].
      destruct (unfence_head t1 tick _ Hr' eq_refl) as [t2 ->].
      rewrite prefix_fence_ticks in E. discriminate E.
Qed.

End StringFacts.

(** ** data_factory.py: [get_user_input], the schema builder and [main] *)

Module DataFactoryCliFacts.
Import Console DataFactory DataFactoryCli StringFacts.

Lemma first_valid_spec {A} (conv : string -> option A) valid lines :
  match first_valid conv valid lines with
  | Some (value, rest) =>
      exists skipped line,
        lines = skipped ++ line :: rest /\
        conv line = Some value /\ valid value = true /\
        Forall (rejected conv valid) skipped
  | None => Forall (rejected conv valid) lines
  end.
Proof.
  induction lines as [| line rest IH]; simpl; [constructor |].
  destruct (conv line) as [value |] eqn:Ec.
  - destruct (valid value) eqn:Ev.
    + exists [], line. simpl. auto.
    + destruct (first_valid conv valid rest) as [[v r] |].
      * destruct IH as (skipped & l & -> & Hc & Hv & Hs).
        exists (line :: skipped), l. simpl. repeat split; auto.
        constructor; [unfold rejected; rewrite Ec; exact Ev | exact Hs].
      * constructor; [unfold rejected; rewrite Ec; exact Ev | exact IH].
  - destruct (first_valid conv valid rest) as [[v r] |].
    + destruct IH as (skipped & l & -> & Hc & Hv & Hs).
      exists (line :: skipped), l. simpl. repeat split; auto.
      constructor; [unfold rejected; rewrite Ec; exact I | exact Hs].
    + constructor; [unfold rejected; rewrite Ec; exact I | exact IH].
Qed.

(** *** X1 *)

(** X1.  [get_user_input] of data_factory.py returns the value of the
    first line typed that converts and passes the validation: every line
    before it was turned down (its conversion failed or its value was
    refused), the lines after it are left on the input, and nothing is
    written and no external call is made.  It never raises; the only other
    way out is the end of the input, after every remaining line was turned
    down. *)
Theorem get_user_input_first_valid {A} (type_converter : string -> option A)
    validation s :
  let (out, s') := get_user_input type_converter validation s in
  world s' = world s /\ written s' = written s /\
  match out with
  | Returned value =>
      exists skipped line,
        stdin s = skipped ++ line :: stdin s' /\
        type_converter line = Some value /\
        validation value = true /\
        Forall (rejected type_converter validation) skipped
  | EndOfInput =>
      Forall (rejected type_converter validation) (stdin s) /\ stdin s' = []
  | Raised _ => False
  end.
Proof.
  unfold get_user_input, reading.
  pose proof (first_valid_spec type_converter validation (stdin s)) as H.
  destruct (first_valid type_converter validation (stdin s)) as [[v r] |];
    simpl; auto.
Qed.

Lemma get_user_input_run {A} (conv : string -> option A) valid s :
  (exists v s1 line,
     get_user_input conv valid s = (Returned v, s1) /\
     world s1 = world s /\ written s1 = written s /\
     conv line = Some v /\ valid v = true)
  \/
  (exists s1,
     get_user_input conv valid s = (EndOfInput, s1) /\
     world s1 = world s /\ written s1 = written s).
Proof.
  unfold get_user_input, reading.
  pose proof (first_valid_spec conv valid (stdin s)) as H.
  destruct (first_valid conv valid (stdin s)) as [[v r] |].
  - destruct H as (skipped & line & _ & Hc & Hv & _).
    left. eexists v, _, line. repeat split; auto.
  - right. eexists. repeat split; auto.
Qed.

(** *** The schema builder *)

Lemma dict_keys_set {V} (d : dict V) k v :
  dict_keys (dict_set d k v) =
  if name_in k (dict_keys d) then dict_keys d else dict_keys d ++ [k].
Proof.
  induction d as [| [k' v'] rest IH]; simpl; [reflexivity |].
  destruct (String.eqb_spec k' k) as [-> | Hne].
  - unfold name_in. simpl. rewrite String.eqb_refl. reflexivity.
  - change (dict_keys ((k', v') :: dict_set rest k v))
      with (k' :: dict_keys (dict_set rest k v)).
    rewrite IH. unfold name_in. simpl.
    destruct (String.eqb_spec k k') as [E | _]; [symmetry in E; contradiction |].
    simpl. destruct (existsb (String.eqb k) (dict_keys rest)); reflexivity.
Qed.

Lemma dict_set_NoDup {V} (d : dict V) k v :
  NoDup (dict_keys d) -> NoDup (dict_keys (dict_set d k v)).
Proof.
  intros Hnd. rewrite dict_keys_set.
  destruct (name_in k (dict_keys d)) eqn:E; [exact Hnd |].
  apply name_in_false in E.
  apply NoDup_app; [exact Hnd | repeat constructor; intros [] |].
  intros x Hx [<- | []]. contradiction.
Qed.

Lemma dict_set_Forall {V} (P : V -> Prop) (d : dict V) k v :
  Forall (fun kv => P (snd kv)) d -> P v ->
  Forall (fun kv => P (snd kv)) (dict_set d k v).
Proof.
  intros Hd Hv. induction d as [| [k' v'] rest IH]; simpl.
  - constructor; [exact Hv | constructor].
  - inversion Hd as [| ? ? Hh Ht]; subst.
    destruct (String.eqb k' k); constructor; auto.
Qed.

Lemma dict_set_length {V} (d : dict V) k v :
  List.length d <= List.length (dict_set d k v) <= S (List.length d).
Proof.
  induction d as [| [k' v'] rest IH]; simpl; [lia |].
  destruct (String.eqb k' k); simpl; lia.
Qed.

Lemma dict_set_nonempty {V} (d : dict V) k v : dict_set d k v <> [].
Proof. destruct d as [| [k' v'] rest]; simpl; [| destruct (String.eqb k' k)]; discriminate. Qed.

Lemma dict_set_set {V} (d : dict V) k v1 v2 :
  dict_set (dict_set d k v1) k v2 = dict_set d k v2.
Proof.
  induction d as [| [k' v'] rest IH]; simpl.
  - rewrite String.eqb_refl. reflexivity.
  - destruct (String.eqb k' k) eqn:E; simpl; rewrite E; [reflexivity |].
    rewrite IH. reflexivity.
Qed.

(** The index validated on line 79 is always a position of the menu. *)
Lemma menu_choice (types : list string) (i : Z) :
  ((1 <=? i) && (i <=? Z.of_nat (List.length types)))%Z = true ->
  exists t, list_getitem types (i - 1) = Ok t /\ In t types.
Proof.
  intros H. apply andb_prop in H. destruct H as [H1 H2].
  apply Z.leb_le in H1, H2. unfold list_getitem.
  destruct (i - 1 <? 0)%Z eqn:E; [apply Z.ltb_lt in E; lia |].
  assert (Hb : ((0 <=? i - 1) && (i - 1 <? Z.of_nat (List.length types)))%Z = true).
  { apply andb_true_intro. split; [apply Z.leb_le | apply Z.ltb_lt]; lia. }
  rewrite Hb.
  destruct (nth_error types (Z.to_nat (i - 1))) as [t |] eqn:En.
  - exists t. split; [reflexivity | eapply nth_error_In; eauto].
  - apply nth_error_None in En. lia.
Qed.

Lemma define_fields_inv env n : forall fields s,
  NoDup (dict_keys fields) ->
  Forall (fun kv => built_config env (snd kv)) fields ->
  let (out, s') := define_fields env n fields s in
  world s' = world s /\ written s' = written s /\
  match out with
  | Returned fields' =>
      NoDup (dict_keys fields') /\
      Forall (fun kv => built_config env (snd kv)) fields' /\
      List.length fields <= List.length fields' <= List.length fields + n /\
      (0 < n -> fields' <> [])
  | EndOfInput => True
  | Raised _ => False
  end.
Proof.
  induction n as [| k IH]; intros fields s Hnd Hall.
  - simpl. repeat split; auto; lia.
  - cbn [define_fields]. unfold io_bind at 1.
    destruct (get_user_input_run as_str any_value s)
      as [(field_name & s1 & l1 & -> & Hw1 & Hf1 & _ & _) | (s1 & -> & Hw1 & Hf1)];
      [| auto].
    unfold io_bind at 1.
    destruct (get_user_input_run py_int
                (fun x => (1 <=? x)%Z &&
                          (x <=? Z.of_nat (List.length (available_types env)))%Z) s1)
      as [(idx & s2 & l2 & -> & Hw2 & Hf2 & _ & Hv) | (s2 & -> & Hw2 & Hf2)];
      [| split; [congruence | split; [congruence | exact I]]].
    destruct (menu_choice _ _ Hv) as (t & Hget & Hin).
    unfold io_bind at 1. rewrite Hget. cbn [io_lift].
    set (fields1 := dict_set fields field_name
                      {| cfg_type := Some t; cfg_prompt := None |}).
    assert (Hstep : forall fields2 s3,
               world s3 = world s -> written s3 = written s ->
               NoDup (dict_keys fields2) ->
               Forall (fun kv => built_config env (snd kv)) fields2 ->
               List.length fields <= List.length fields2 <= S (List.length fields) ->
               fields2 <> [] ->
               let (out, s') := define_fields env k fields2 s3 in
               world s' = world s /\ written s' = written s /\
               match out with
               | Returned fields' =>
                   NoDup (dict_keys fields') /\
                   Forall (fun kv => built_config env (snd kv)) fields' /\
                   List.length fields <= List.length fields'
                     <= List.length fields + S k /\
                   (0 < S k -> fields' <> [])
               | EndOfInput => True
               | Raised _ => False
               end).
    { intros fields2 s3 Hw3 Hf3 Hnd2 Hall2 Hlen2 Hne2.
      specialize (IH fields2 s3 Hnd2 Hall2).
      destruct (define_fields env k fields2 s3) as [[fields' | e |] s'];
        destruct IH as (Hw & Hf & IH); (split; [congruence |]);
        (split; [congruence |]); auto.
      destruct IH as (Hnd' & Hall' & Hlen' & Hne').
      repeat split; auto; try lia.
      intros _ E. subst fields'. destruct fields2; [contradiction | simpl in Hlen'; lia]. }
    destruct (String.eqb_spec t "ai_text") as [-> | Hna].
    + destruct (gemini_enabled env) eqn:Eg; cbn [negb].
      * unfold io_bind at 1.
        destruct (get_user_input_run as_str any_value s2)
          as [(ai_prompt & s3 & l3 & -> & Hw3 & Hf3 & _ & _) | (s3 & -> & Hw3 & Hf3)];
          [| split; [congruence | split; [congruence | exact I]]].
        unfold fields1. rewrite dict_set_set.
        apply Hstep; try congruence.
        -- apply dict_set_NoDup, Hnd.
        -- apply dict_set_Forall; [exact Hall |].
           exists "ai_text". simpl. split; [reflexivity |]. split; [exact Hin |].
           split; [auto | discriminate].
        -- apply dict_set_length.
        -- apply dict_set_nonempty.
      * apply Hstep; try congruence.
        -- apply dict_set_NoDup, Hnd.
        -- apply dict_set_Forall; [exact Hall |].
           exists "ai_text". simpl. split; [reflexivity |]. split; [exact Hin |].
           split; [intros H; contradiction | intros [_ H]; congruence].
        -- apply dict_set_length.
        -- apply dict_set_nonempty.
    + apply Hstep; try congruence.
      * apply dict_set_NoDup, Hnd.
      * apply dict_set_Forall; [exact Hall |].
        exists t. simpl. split; [reflexivity |]. split; [exact Hin |].
        split; [intros H; contradiction | intros [H _]; contradiction].
      * apply dict_set_length.
      * apply dict_set_nonempty.
Qed.

Lemma build_schema_inv env s :
  let (out, s') := build_schema_interactively env s in
  world s' = world s /\ written s' = written s /\
  match out with
  | Returned sch =>
      exists fields,
        schema_fields sch = Some fields /\
        fields <> [] /\
        NoDup (dict_keys fields) /\
        Forall (fun kv => built_config env (snd kv)) fields
  | EndOfInput => True
  | Raised _ => False
  end.
Proof.
  unfold build_schema_interactively. unfold io_bind at 1.
  destruct (get_user_input_run py_int (fun x => (0 <? x)%Z) s)
    as [(n & s1 & l1 & -> & Hw1 & Hf1 & _ & Hv) | (s1 & -> & Hw1 & Hf1)];
    [| auto].
  apply Z.ltb_lt in Hv. unfold io_bind.
  pose proof (define_fields_inv env (Z.to_nat n) [] s1 (NoDup_nil _)
                (Forall_nil _)) as H.
  destruct (define_fields env (Z.to_nat n) [] s1) as [[fields | e |] s2];
    destruct H as (Hw & Hf & H); (split; [congruence |]);
    (split; [congruence |]); auto.
  destruct H as (Hnd & Hall & _ & Hne).
  exists fields. cbn [schema_fields io_ret fst]. repeat split; auto.
  apply Hne. lia.
Qed.

(** Every type of the menu has a producer for both cases. *)
Lemma menu_registered env t c :
  In t (available_types env) -> In c ["positive"; "negative"] ->
  dict_get (generators_of env (Some t)) c <> None.
Proof.
  intros Ht Hc. unfold available_types in Ht. simpl in Ht.
  destruct Hc as [<- | [<- | []]];
    repeat (destruct Ht as [<- | Ht]; [discriminate |]); contradiction.
Qed.

(** *** X2 *)

(** X2.  [build_schema_interactively] makes no external call, writes
    nothing and never raises.  A schema it returns has at least one field,
    no field name twice, and for every field a type of the menu (so a
    producer is registered for the positive and for the negative case),
    with a prompt exactly when the type is [ai_text] and the text service
    is configured. *)
Theorem build_schema_well_formed env s :
  let (out, s') := build_schema_interactively env s in
  world s' = world s /\ written s' = written s /\
  match out with
  | Returned sch =>
      fields_of sch <> [] /\
      NoDup (field_names sch) /\
      Forall (fun kv => built_config env (snd kv)) (fields_of sch) /\
      forall name cfg c,
        In (name, cfg) (fields_of sch) -> In c ["positive"; "negative"] ->
        dict_get (generators_of env (cfg_type cfg)) c <> None
  | EndOfInput => True
  | Raised _ => False
  end.
Proof.
  pose proof (build_schema_inv env s) as H.
  destruct (build_schema_interactively env s) as [[sch | e |] s'];
    destruct H as (Hw & Hf & H); (split; [exact Hw |]);
    (split; [exact Hf |]); auto.
  destruct H as (fields & Hs & Hne & Hnd & Hall).
  unfold field_names, fields_of. rewrite Hs.
  repeat split; auto.
  intros name cfg c Hin Hc. rewrite Forall_forall in Hall.
  destruct (Hall _ Hin) as (t & Ht & Hmenu & _). simpl in Ht. rewrite Ht.
  apply menu_registered; assumption.
Qed.

Lemma build_schema_well_formed_witness :
  exists sch s',
    build_schema_interactively Samples.quiet Scripts.two_fields
    = (Returned sch, s') /\
    field_names sch = ["email"; "age"] /\
    NoDup (field_names sch) /\
    forall name cfg c,
      In (name, cfg) (fields_of sch) -> In c ["positive"; "negative"] ->
      dict_get (generators_of Samples.quiet (cfg_type cfg)) c <> None.
Proof.
  pose proof (build_schema_well_formed Samples.quiet Scripts.two_fields) as H.
  destruct (build_schema_interactively Samples.quiet Scripts.two_fields)
    as [out s'] eqn:E.
  vm_compute in E. inversion E; subst out; clear E.
  destruct H as (_ & _ & _ & Hnd & _ & Hreg).
  eexists. eexists. split; [reflexivity |].
  split; [reflexivity |]. split; [exact Hnd | exact Hreg].
Defined.

(** *** [main] *)

Lemma test_type_choice_valid choice :
  existsb (Z.eqb choice) [1%Z; 2%Z; 3%Z] = true ->
  exists t, int_dict_getitem test_type_map choice = Ok t /\
            In t ["positive"; "negative"; "mixed"].
Proof.
  intros H. apply existsb_exists in H. destruct H as (x & Hin & Hx).
  apply Z.eqb_eq in Hx. subst x.
  destruct Hin as [<- | [<- | [<- | []]]];
    eexists; (split; [reflexivity | simpl; auto]).
Qed.

Lemma get_user_input_returned {A} (conv : string -> option A) valid s v s1 :
  get_user_input conv valid s = (Returned v, s1) ->
  valid v = true /\ world s1 = world s /\ written s1 = written s.
Proof.
  unfold get_user_input, reading.
  pose proof (first_valid_spec conv valid (stdin s)) as H.
  destruct (first_valid conv valid (stdin s)) as [[v0 r] |];
    [| discriminate].
  destruct H as (skipped & line & _ & _ & Hv & _).
  intros E. inversion E; subst. auto.
Qed.

Lemma test_type_of_choice choice test_type :
  int_dict_getitem test_type_map choice = Ok test_type ->
  In (choice, test_type) [(1%Z, "positive"); (2%Z, "negative"); (3%Z, "mixed")].
Proof.
  unfold test_type_map. cbn [int_dict_getitem].
  destruct (Z.eqb_spec 1 choice) as [E | _];
    [intros H; inversion H; subst; left; reflexivity |].
  destruct (Z.eqb_spec 2 choice) as [E | _];
    [intros H; inversion H; subst; right; left; reflexivity |].
  destruct (Z.eqb_spec 3 choice) as [E | _];
    [intros H; inversion H; subst; right; right; left; reflexivity
    | discriminate].
Qed.

(** The frame generated for a schema of the builder and a positive row
    count. *)
Lemma built_frame env sch num_rows test_type w df w' :
  fields_of sch <> [] -> NoDup (field_names sch) -> (0 < num_rows)%Z ->
  generate_data env sch num_rows test_type w = (Ok df, w') ->
  nrows df = Z.to_nat num_rows /\ 0 < nrows df /\
  columns df = field_names sch /\ columns df <> [] /\
  NoDup (columns df) /\ df_empty df = false.
Proof.
  intros Hne Hnd Hpos Hrun.
  destruct (DataFactoryFacts.generate_data_shape env sch num_rows test_type
              w df w' Hnd Hpos Hrun) as (Hn & Hc & _).
  assert (Hcols : field_names sch <> []).
  { unfold field_names. destruct (fields_of sch); [contradiction | discriminate]. }
  split; [exact Hn |]. split; [lia |]. split; [exact Hc |].
  split; [rewrite Hc; exact Hcols |]. split; [rewrite Hc; exact Hnd |].
  unfold df_empty. fold (nrows df). rewrite Hc.
  destruct (field_names sch); [contradiction |].
  destruct (nrows df) eqn:E; [lia | reflexivity].
Qed.

(** *** X3 *)

(** X3.  [main] of data_factory.py ends in one of four ways.  It returns,
    having written exactly one file, whose name ends in [.csv], holding a
    frame with at least one row, at least one column and no column twice.
    It raises the [TypeError] of the row generator, and no file was
    written.  It raises the exception of a file that cannot be opened
    (an [OSError], as a rule), and no file was written.  Or the input
    runs out, and no file was
    written.  Once the schema, the row count, the policy and the name
    have been read, the run is settled: the policy is the one the number
    typed stands for, the file is named after the name typed, with
    [.csv] added unless the name ends in it, and it holds the frame
    generated from the schema built, with the number of rows asked for
    and the schema's fields as columns. *)
Theorem factory_main_outcome env s :
  (let (out, s') := main env s in
   match out with
   | Returned _ =>
       exists filename df,
         written s' = written s ++ [(filename, df)] /\
         endswith filename ".csv" = true /\
         0 < nrows df /\ columns df <> [] /\ NoDup (columns df)
   | Raised e =>
       written s' = written s /\
       (e = TypeError \/
        exists filename,
          endswith filename ".csv" = true /\
          open_error env (map fst (written s)) filename = Some e)
   | EndOfInput => written s' = written s
   end)
  /\
  (forall sch s1 num_rows s2 choice s3 name s4,
     build_schema_interactively env s = (Returned sch, s1) ->
     get_user_input py_int (fun x => (0 <? x)%Z) s1 = (Returned num_rows, s2) ->
     get_user_input py_int (fun x => existsb (Z.eqb x) [1%Z; 2%Z; 3%Z]) s2
     = (Returned choice, s3) ->
     get_user_input as_str any_value s3 = (Returned name, s4) ->
     exists test_type filename,
       In (choice, test_type)
          [(1%Z, "positive"); (2%Z, "negative"); (3%Z, "mixed")] /\
       filename = (if endswith name ".csv" then name else (name ++ ".csv")%string) /\
       endswith filename ".csv" = true /\
       match generate_data env sch num_rows test_type (world s4) with
       | (Raise e, w') =>
           e = TypeError /\
           main env s
           = (Raised TypeError,
              {| stdin := stdin s4; world := w'; written := written s |})
       | (Ok df, w') =>
           nrows df = Z.to_nat num_rows /\ 0 < nrows df /\
           columns df = field_names sch /\
           main env s
           = match open_error env (map fst (written s)) filename with
             | Some e =>
                 (Raised e,
                  {| stdin := stdin s4; world := w'; written := written s |})
             | None =>
                 (Returned tt,
                  {| stdin := stdin s4; world := w';
                     written := written s ++ [(filename, df)] |})
             end
       end).
Proof.
  assert (Hsettled :
    forall sch s1 num_rows s2 choice s3 name s4,
     build_schema_interactively env s = (Returned sch, s1) ->
     get_user_input py_int (fun x => (0 <? x)%Z) s1 = (Returned num_rows, s2) ->
     get_user_input py_int (fun x => existsb (Z.eqb x) [1%Z; 2%Z; 3%Z]) s2
     = (Returned choice, s3) ->
     get_user_input as_str any_value s3 = (Returned name, s4) ->
     exists test_type filename,
       In (choice, test_type)
          [(1%Z, "positive"); (2%Z, "negative"); (3%Z, "mixed")] /\
       filename = (if endswith name ".csv" then name else (name ++ ".csv")%string) /\
       endswith filename ".csv" = true /\
       match generate_data env sch num_rows test_type (world s4) with
       | (Raise e, w') =>
           e = TypeError /\
           main env s
           = (Raised TypeError,
              {| stdin := stdin s4; world := w'; written := written s |})
       | (Ok df, w') =>
           nrows df = Z.to_nat num_rows /\ 0 < nrows df /\
           columns df = field_names sch /\ columns df <> [] /\
           NoDup (columns df) /\
           main env s
           = match open_error env (map fst (written s)) filename with
             | Some e =>
                 (Raised e,
                  {| stdin := stdin s4; world := w'; written := written s |})
             | None =>
                 (Returned tt,
                  {| stdin := stdin s4; world := w';
                     written := written s ++ [(filename, df)] |})
             end
       end).
  { intros sch s1 num_rows s2 choice s3 name s4 Hb Hr Hc Hf.
    pose proof (build_schema_inv env s) as Hinv. rewrite Hb in Hinv.
    destruct Hinv as (Hw0 & Hf0 & fields & Hs & Hne & Hnd & _).
    destruct (get_user_input_returned _ _ _ _ _ Hr) as (Hpos & Hw1 & Hf1).
    destruct (get_user_input_returned _ _ _ _ _ Hc) as (Hch & Hw2 & Hf2).
    destruct (get_user_input_returned _ _ _ _ _ Hf) as (_ & Hw3 & Hf3).
    apply Z.ltb_lt in Hpos.
    destruct (test_type_choice_valid choice Hch) as (test_type & Ht & _).
    exists test_type,
      (if endswith name ".csv" then name else (name ++ ".csv")%string).
    split; [apply test_type_of_choice; exact Ht |].
    split; [reflexivity |].
    split.
    { destruct (endswith name ".csv") eqn:E; [exact E | apply endswith_app]. }
    assert (Hnd' : NoDup (field_names sch)).
    { unfold field_names, fields_of. rewrite Hs. exact Hnd. }
    assert (Hne' : fields_of sch <> []).
    { unfold fields_of. rewrite Hs. exact Hne. }
    assert (Hwr : written s4 = written s) by congruence.
    assert (Hmain :
      main env s
      = io_bind (run (generate_data env sch num_rows test_type))
          (fun df =>
             if negb (df_empty df)
             then to_csv env df
                    (if negb (endswith name ".csv")
                     then (name ++ ".csv")%string else name)
             else io_ret tt) s4).
    { unfold main.
      rewrite (ConsoleFacts.io_bind_returned _ _ _ _ _ Hb).
      rewrite (ConsoleFacts.io_bind_returned _ _ _ _ _ Hr).
      rewrite (ConsoleFacts.io_bind_returned _ _ _ _ _ Hc).
      unfold io_bind at 1. rewrite Ht. cbn [io_lift].
      rewrite (ConsoleFacts.io_bind_returned _ _ _ _ _ Hf).
      reflexivity. }
    rewrite Hmain. clear Hmain. unfold io_bind, run.
    destruct (generate_data env sch num_rows test_type (world s4))
      as [[df | e] w'] eqn:Eg.
    - destruct (built_frame env sch num_rows test_type (world s4) df w'
                  Hne' Hnd' Hpos Eg) as (Hn & Hn0 & Hcols & Hc0 & Hcnd & He).
      split; [exact Hn |]. split; [exact Hn0 |]. split; [exact Hcols |].
      split; [exact Hc0 |]. split; [exact Hcnd |].
      rewrite He. cbn [negb]. unfold to_csv. cbn [written stdin world].
      rewrite Hwr.
      destruct (endswith name ".csv"); cbn [negb];
        destruct (open_error env (map fst (written s)) _); reflexivity.
    - destruct (DataFactoryFacts.generate_data_spec env sch num_rows test_type
                  (world s4))
        as [(evs & n' & cfg' & Hr' & _) | (grid & evs & Hr' & _)];
        rewrite Hr' in Eg; inversion Eg; subst.
      split; [reflexivity |]. rewrite Hwr. reflexivity. }
  split; [| intros sch s1 num_rows s2 choice s3 name s4 Hb Hr Hc Hf;
            destruct (Hsettled sch s1 num_rows s2 choice s3 name s4 Hb Hr Hc Hf)
              as (test_type & filename & Hin & Hfn & Hext & Hrun);
            exists test_type, filename;
            split; [exact Hin |]; split; [exact Hfn |]; split; [exact Hext |];
            destruct (generate_data env sch num_rows test_type (world s4))
              as [[df | e] w']; [| exact Hrun];
            destruct Hrun as (H1 & H2 & H3 & _ & _ & H6); auto].
  pose proof (build_schema_inv env s) as Hb.
  destruct (build_schema_interactively env s) as [[sch | e |] s1] eqn:Eb.
  2:{ destruct Hb as (_ & _ & []). }
  2:{ destruct Hb as (_ & Hf0 & _). unfold main.
      unfold io_bind at 1. rewrite Eb. exact Hf0. }
  destruct Hb as (Hw0 & Hf0 & _).
  destruct (get_user_input_run py_int (fun x => (0 <? x)%Z) s1)
    as [(n & s2 & l1 & Hr & Hw1 & Hf1 & _ & _) | (s2 & Hr & Hw1 & Hf1)].
  2:{ unfold main. rewrite (ConsoleFacts.io_bind_returned _ _ _ _ _ Eb).
      unfold io_bind at 1. rewrite Hr. congruence. }
  destruct (get_user_input_run py_int
              (fun x => existsb (Z.eqb x) [1%Z; 2%Z; 3%Z]) s2)
    as [(choice & s3 & l2 & Hc & Hw2 & Hf2 & _ & Hch) | (s3 & Hc & Hw2 & Hf2)].
  2:{ unfold main. rewrite (ConsoleFacts.io_bind_returned _ _ _ _ _ Eb).
      rewrite (ConsoleFacts.io_bind_returned _ _ _ _ _ Hr).
      unfold io_bind at 1. rewrite Hc. congruence. }
  destruct (get_user_input_run as_str any_value s3)
    as [(name & s4 & l3 & Hf & Hw3 & Hf3 & _ & _) | (s4 & Hf & Hw3 & Hf3)].
  2:{ destruct (test_type_choice_valid choice Hch) as (test_type & Ht & _).
      unfold main. rewrite (ConsoleFacts.io_bind_returned _ _ _ _ _ Eb).
      rewrite (ConsoleFacts.io_bind_returned _ _ _ _ _ Hr).
      rewrite (ConsoleFacts.io_bind_returned _ _ _ _ _ Hc).
      unfold io_bind at 1. rewrite Ht. cbn [io_lift].
      unfold io_bind at 1. rewrite Hf. congruence. }
  destruct (Hsettled sch s1 n s2 choice s3 name s4 eq_refl Hr Hc Hf)
    as (test_type & filename & _ & _ & Hext & Hrun).
  destruct (generate_data env sch n test_type (world s4)) as [[df | e] w'].
  - destruct Hrun as (_ & Hn0 & _ & Hc0 & Hcnd & ->).
    destruct (open_error env (map fst (written s)) filename) as [e |] eqn:Eo.
    + cbn [written]. split; [reflexivity |]. right. exists filename. auto.
    + cbn [written]. exists filename, df. auto.
  - destruct Hrun as (-> & ->). cbn [written]. auto.
Qed.

(** One [email] field, two rows, the positive policy: the file [out.csv]
    holds two addresses. *)
Lemma factory_main_outcome_witness :
  main Samples.quiet Scripts.email_run
  = (Returned tt,
     {| stdin := [];
        world := [EvFaker fake_safe_email (PStr "asha@example.org");
                  EvFaker fake_safe_email (PStr "asha@example.org")];
        written :=
          [("out.csv",
            {| columns := ["email"];
               rows := [[Some (PStr "asha@example.org")];
                        [Some (PStr "asha@example.org")]] |})] |}).
Proof.
  destruct (proj2 (factory_main_outcome Samples.quiet Scripts.email_run)
              {| schema_fields :=
                   Some [("email", {| cfg_type := Some "email";
                                      cfg_prompt := None |})] |}
              {| stdin := ["2"; "1"; "out"]; world := []; written := [] |}
              2%Z
              {| stdin := ["1"; "out"]; world := []; written := [] |}
              1%Z
              {| stdin := ["out"]; world := []; written := [] |}
              "out"
              {| stdin := []; world := []; written := [] |}
              eq_refl eq_refl eq_refl eq_refl)
    as (test_type & filename & Hin & -> & _ & Hrun).
  destruct Hin as [E | [E | [E | []]]]; inversion E; subst test_type.
  vm_compute in Hrun. destruct Hrun as (_ & _ & _ & Hmain). exact Hmain.
Defined.

End DataFactoryCliFacts.

(** ** External calls of a computation *)

Module TraceFacts.

Section Emits.
Context (P : event -> Prop).

Lemma emits_ret {A} (a : A) : emits P (ret a).
Proof. intros w. exists []. rewrite app_nil_r. split; [reflexivity | constructor]. Qed.

Lemma emits_raise {A} e : emits P (@raise A e).
Proof. intros w. exists []. rewrite app_nil_r. split; [reflexivity | constructor]. Qed.

Lemma emits_lift {A} (r : result A) : emits P (lift r).
Proof. intros w. exists []. rewrite app_nil_r. split; [reflexivity | constructor]. Qed.

Lemma emits_bind {A B} (m : M A) (k : A -> M B) :
  emits P m -> (forall a, emits P (k a)) -> emits P (bind m k).
Proof.
  intros Hm Hk w. unfold bind.
  destruct (Hm w) as (evs1 & Hw1 & H1).
  destruct (m w) as [[a | e] w1]; simpl in Hw1; subst w1.
  - destruct (Hk a (w ++ evs1)) as (evs2 & Hw2 & H2).
    exists (evs1 ++ evs2). rewrite Hw2, app_assoc.
    split; [reflexivity | apply Forall_app; auto].
  - exists evs1. auto.
Qed.

Lemma emits_try_except {A} (m : M A) (handler : exn -> M A) :
  emits P m -> (forall e, emits P (handler e)) -> emits P (try_except m handler).
Proof.
  intros Hm Hh w. unfold try_except.
  destruct (Hm w) as (evs1 & Hw1 & H1).
  destruct (m w) as [[a | e] w1]; simpl in Hw1; subst w1.
  - exists evs1. auto.
  - destruct (Hh e (w ++ evs1)) as (evs2 & Hw2 & H2).
    exists (evs1 ++ evs2). rewrite Hw2, app_assoc.
    split; [reflexivity | apply Forall_app; auto].
Qed.

Lemma emits_call_faker env m :
  (forall v, P (EvFaker m v)) -> emits P (call_faker env m).
Proof.
  intros H w. unfold call_faker. eexists. split; [reflexivity |].
  constructor; [apply H | constructor].
Qed.

Lemma emits_random_choice {A} (inj : A -> pyval) env population :
  (forall i, P (EvChoice (map inj population) i)) ->
  emits P (random_choice_with inj env population).
Proof.
  intros H w. unfold random_choice_with.
  destruct (nth_error population _).
  - eexists. split; [reflexivity |]. constructor; [apply H | constructor].
  - exists []. rewrite app_nil_r. split; [reflexivity | constructor].
Qed.

Lemma emits_service env p :
  (forall reply, P (EvService p reply)) ->
  emits P (model_generate_content env p).
Proof.
  intros H w. unfold model_generate_content.
  destruct (service env w p); eexists; (split; [reflexivity |]);
    (constructor; [apply H | constructor]).
Qed.
End Emits.

End TraceFacts.

(** ** data_factory.py: what the row generator consults *)

Module DataFactoryMoreFacts.
Import DataFactory TraceFacts.

(** *** Nothing to generate *)

Lemma generate_rows_no_fields env test_type n : forall data w,
  generate_rows env test_type [] n data w = (Ok (data ++ repeat [] n), w).
Proof.
  induction n as [| k IH]; intros data w; simpl.
  - rewrite app_nil_r. reflexivity.
  - unfold bind, ret. rewrite IH, <- app_assoc. reflexivity.
Qed.

Lemma frame_columns_no_keys n cols :
  fold_left (fun cols (record : dict pyval) => add_columns cols (dict_keys record))
            (repeat [] n) cols = cols.
Proof. induction n as [| k IH]; simpl; [reflexivity | exact IH]. Qed.

(** *** X4 *)

(** X4.  With a row count of zero or less, or a schema without fields,
    [generate_data] returns without any external call a frame that pandas
    reports as empty: it has no column, and one row without cells for each
    record requested. *)
Theorem generate_data_nothing_to_generate env sch num_rows test_type w :
  (num_rows <= 0)%Z \/ fields_of sch = [] ->
  exists df,
    generate_data env sch num_rows test_type w = (Ok df, w) /\
    df_empty df = true /\ columns df = [] /\
    rows df = repeat [] (Z.to_nat num_rows).
Proof.
  intros H. unfold generate_data. fold (fields_of sch).
  destruct H as [Hn | Hf].
  - replace (Z.to_nat num_rows) with 0 by lia.
    eexists. split; [reflexivity |]. repeat split.
  - rewrite Hf. unfold bind. rewrite generate_rows_no_fields. cbn [app ret].
    eexists. split; [reflexivity |].
    unfold pd_DataFrame, frame_columns, df_empty. cbn [columns rows].
    rewrite frame_columns_no_keys. repeat split.
    rewrite map_repeat. reflexivity.
Qed.

Lemma generate_data_nothing_to_generate_witness :
  exists df,
    generate_data Samples.quiet Samples.foo_schema (-2) "mixed" [] = (Ok df, [])
    /\ df_empty df = true /\ columns df = [] /\ rows df = repeat [] (Z.to_nat (-2)).
Proof.
  apply (generate_data_nothing_to_generate Samples.quiet Samples.foo_schema
           (-2) "mixed" []).
  left. lia.
Defined.

(** *** What each policy consults *)

Lemma select_case_fixed env test_type :
  test_type <> "mixed" -> select_case env test_type = ret test_type.
Proof.
  intros H. unfold select_case. apply String.eqb_neq in H. rewrite H. reflexivity.
Qed.

Section Loops.
Context (P : event -> Prop) (env : Env) (test_type : string).
Hypothesis select_ok :
  forall w, exists c evs,
    select_case env test_type w = (Ok c, w ++ evs) /\
    In c (cases_of test_type) /\ Forall P evs.
Hypothesis value_ok :
  forall cfg c, In c (cases_of test_type) -> emits P (field_value env cfg c).

Lemma field_step_emits field_name cfg record :
  emits P (field_step env test_type field_name cfg record).
Proof.
  intros w. unfold field_step.
  destruct (select_ok w) as (c & evs1 & Hs & Hc & H1).
  run_ok Hs.
  destruct (value_ok cfg c Hc (w ++ evs1)) as (evs2 & Hw2 & H2).
  unfold bind. destruct (field_value env cfg c (w ++ evs1)) as [[v | e] w2];
    simpl in Hw2; subst w2; exists (evs1 ++ evs2); rewrite app_assoc;
    (split; [reflexivity | apply Forall_app; auto]).
Qed.

Lemma build_record_emits items : forall record,
  emits P (build_record env test_type items record).
Proof.
  induction items as [| [field_name cfg] rest IH]; intros record; simpl.
  - apply emits_ret.
  - apply emits_bind; [apply field_step_emits | intros r; apply IH].
Qed.

Lemma generate_rows_emits fields n : forall data,
  emits P (generate_rows env test_type fields n data).
Proof.
  induction n as [| k IH]; intros data; simpl.
  - apply emits_ret.
  - apply emits_bind; [apply build_record_emits | intros r; apply IH].
Qed.

Lemma generate_data_emits sch num_rows :
  emits P (generate_data env sch num_rows test_type).
Proof.
  unfold generate_data. apply emits_bind; [apply generate_rows_emits |].
  intros data. apply emits_ret.
Qed.
End Loops.

Lemma generate_ai_content_emits P env prompt :
  (forall p reply, P (EvService p reply)) ->
  emits P (generate_ai_content env prompt).
Proof.
  intros H. unfold generate_ai_content.
  destruct (gemini_enabled env); cbn [negb]; [| apply emits_ret].
  apply emits_try_except; [| intros e; apply emits_ret].
  apply emits_bind; [apply emits_service; apply H | intros r; apply emits_ret].
Qed.

Ltac registry_cases t c :=
  unfold field_value, generators_of, type_is, dict_get_default; simpl;
  repeat match goal with
  | |- context [String.eqb ?x t] =>
      destruct (String.eqb_spec x t) as [<- | ?]; simpl
  end;
  repeat match goal with
  | |- context [String.eqb ?x c] =>
      destruct (String.eqb_spec x c) as [<- | ?]; simpl
  end.

Lemma field_value_positive_emits env cfg :
  emits (fun ev => is_random_call ev = false) (field_value env cfg "positive").
Proof.
  destruct cfg as [[t |] p]; [| apply emits_ret].
  registry_cases t "positive";
    try apply emits_ret; try congruence;
    try (apply emits_call_faker; reflexivity).
  unfold call1. apply generate_ai_content_emits. reflexivity.
Qed.

Lemma field_value_negative_emits env cfg :
  emits (fun ev => is_random_call ev = true) (field_value env cfg "negative").
Proof.
  destruct cfg as [[t |] p]; [| apply emits_ret].
  registry_cases t "negative";
    try apply emits_ret; try congruence;
    try (apply emits_random_choice; reflexivity);
    try apply emits_raise.
Qed.

Lemma field_value_other_emits env cfg c :
  c <> "positive" -> c <> "negative" ->
  emits (fun _ => False) (field_value env cfg c).
Proof.
  intros Hp Hn.
  destruct cfg as [[t |] p]; [| apply emits_ret].
  registry_cases t c; try apply emits_ret; congruence.
Qed.

Lemma field_value_no_service env cfg c :
  gemini_enabled env = false ->
  emits (fun ev => is_service_call ev = false) (field_value env cfg c).
Proof.
  intros Hg.
  destruct cfg as [[t |] p]; [| apply emits_ret].
  registry_cases t c;
    try apply emits_ret; try apply emits_raise;
    try (apply emits_call_faker; reflexivity);
    try (apply emits_random_choice; reflexivity).
  unfold call1, generate_ai_content. rewrite Hg. apply emits_ret.
Qed.

Lemma fixed_select_ok P env test_type :
  test_type <> "mixed" ->
  forall w, exists c evs,
    select_case env test_type w = (Ok c, w ++ evs) /\
    In c (cases_of test_type) /\ Forall P evs.
Proof.
  intros H w. exists test_type, []. rewrite select_case_fixed by exact H.
  rewrite app_nil_r. split; [reflexivity |]. split; [| constructor].
  unfold cases_of. apply String.eqb_neq in H. rewrite H. left. reflexivity.
Qed.

Lemma cases_of_fixed test_type c :
  test_type <> "mixed" -> In c (cases_of test_type) -> c = test_type.
Proof.
  intros H. unfold cases_of. apply String.eqb_neq in H. rewrite H.
  intros [<- | []]. reflexivity.
Qed.

(** *** X5 *)

(** X5.  What [generate_data] consults under each fixed policy, whatever
    the schema, the row count and the outcome.  Under [positive] it never
    calls the random source.  Under [negative] it calls nothing but the
    random source: neither Faker nor the text service.  Under any other
    name than [positive], [negative] and [mixed] it makes no external call
    at all. *)
Theorem policy_sources env sch num_rows :
  emits (fun ev => is_random_call ev = false)
        (generate_data env sch num_rows "positive")
  /\
  emits (fun ev => is_random_call ev = true)
        (generate_data env sch num_rows "negative")
  /\
  forall test_type,
    test_type <> "positive" -> test_type <> "negative" -> test_type <> "mixed" ->
    emits (fun _ => False) (generate_data env sch num_rows test_type).
Proof.
  split; [| split].
  - apply generate_data_emits.
    + apply fixed_select_ok. discriminate.
    + intros cfg c Hc. apply cases_of_fixed in Hc; [| discriminate]. subst c.
      apply field_value_positive_emits.
  - apply generate_data_emits.
    + apply fixed_select_ok. discriminate.
    + intros cfg c Hc. apply cases_of_fixed in Hc; [| discriminate]. subst c.
      apply field_value_negative_emits.
  - intros t Hp Hn Hm. apply generate_data_emits.
    + apply fixed_select_ok. exact Hm.
    + intros cfg c Hc. apply cases_of_fixed in Hc; [| exact Hm]. subst c.
      apply field_value_other_emits; assumption.
Qed.

Lemma policy_sources_witness :
  emits (fun _ => False)
        (generate_data Samples.quiet Samples.two_emails_schema 2 "boundary").
Proof.
  apply (policy_sources Samples.quiet Samples.two_emails_schema 2);
    discriminate.
Defined.

Lemma select_case_events (P : event -> Prop) env test_type :
  (forall population i, P (EvChoice population i)) ->
  forall w, exists c evs,
    select_case env test_type w = (Ok c, w ++ evs) /\
    In c (cases_of test_type) /\ Forall P evs.
Proof.
  intros HP w. unfold select_case, cases_of.
  destruct (String.eqb test_type "mixed"); cbn [negb].
  - destruct (DataFactoryFacts.random_choice_with_spec PStr env
                ["positive"; "negative"] w ltac:(discriminate))
      as (c & Hn & Hr).
    exists c. eexists. split; [exact Hr |].
    split; [eapply nth_error_In; exact Hn |].
    constructor; [apply HP | constructor].
  - exists test_type, []. rewrite app_nil_r.
    split; [reflexivity |]. split; [left; reflexivity | constructor].
Qed.

(** *** X6 *)

(** X6.  When the text service is not configured, [generate_data] never
    calls it, whatever the schema, the row count, the policy and the
    outcome. *)
Theorem no_service_call_when_disabled env sch num_rows test_type :
  gemini_enabled env = false ->
  emits (fun ev => is_service_call ev = false)
        (generate_data env sch num_rows test_type).
Proof.
  intros Hg. apply generate_data_emits.
  - apply select_case_events. reflexivity.
  - intros cfg c _. apply field_value_no_service. exact Hg.
Qed.

Lemma no_service_call_when_disabled_witness :
  emits (fun ev => is_service_call ev = false)
        (generate_data Scripts.offline Samples.bio_schema 2 "mixed").
Proof.
  apply (no_service_call_when_disabled Scripts.offline Samples.bio_schema 2
           "mixed").
  reflexivity.
Defined.

(** *** The cells of an [ai_text] field *)

Lemma field_value_ai_text_positive env cfg w :
  cfg_type cfg = Some "ai_text" ->
  field_value env cfg "positive" w
  = generate_ai_content env
      match cfg_prompt cfg with
      | Some p => p
      | None => "generate random text"
      end w.
Proof.
  intros Ht. unfold field_value, generators_of, type_is. rewrite Ht. reflexivity.
Qed.

Lemma ai_text_positive_value env cfg v :
  cfg_type cfg = Some "ai_text" ->
  field_value_gives env cfg "positive" v ->
  (gemini_enabled env = false /\ v = PStr "AI_DISABLED")
  \/
  (gemini_enabled env = true /\
   (v = PStr "AI_GENERATION_ERROR" \/
    exists w text,
      service env w
        (FieldPrompt match cfg_prompt cfg with
                     | Some p => p
                     | None => "generate random text"
                     end) = Some text /\
      v = PStr (strip text))).
Proof.
  intros Ht (w & w' & Hv). rewrite (field_value_ai_text_positive env cfg w Ht) in Hv.
  unfold generate_ai_content in Hv.
  destruct (gemini_enabled env); cbn [negb] in Hv.
  - right. split; [reflexivity |].
    unfold try_except, bind, model_generate_content, ret in Hv.
    destruct (service env w (FieldPrompt _)) as [text |] eqn:Es;
      inversion Hv; subst; [right; eauto | left; reflexivity].
  - left. inversion Hv. auto.
Qed.

(** *** X7 *)

(** X7.  Under the positive policy a schema without a repeated field name
    always gives a frame of the requested number of rows, and every cell
    of an [ai_text] field is [AI_DISABLED] when the text service is not
    configured, and otherwise [AI_GENERATION_ERROR] or the stripped text
    of a reply of the service to the field's prompt ([generate random
    text] when the field has none). *)
Theorem ai_text_cells env sch num_rows w field_name cfg :
  NoDup (field_names sch) ->
  In (field_name, cfg) (fields_of sch) ->
  cfg_type cfg = Some "ai_text" ->
  exists df w',
    generate_data env sch num_rows "positive" w = (Ok df, w') /\
    nrows df = Z.to_nat num_rows /\
    forall i, i < Z.to_nat num_rows ->
      exists v,
        df_cell df i field_name = Some (Some v) /\
        ((gemini_enabled env = false /\ v = PStr "AI_DISABLED")
         \/
         (gemini_enabled env = true /\
          (v = PStr "AI_GENERATION_ERROR" \/
           exists w0 text,
             service env w0
               (FieldPrompt match cfg_prompt cfg with
                            | Some p => p
                            | None => "generate random text"
                            end) = Some text /\
             v = PStr (strip text)))).
Proof.
  intros Hnd Hin Ht.
  destruct (DataFactoryFacts.generate_data_spec env sch num_rows "positive" w)
    as [(evs & n' & cfg' & _ & _ & _ & Hneg)
       | (grid & evs & Hr & Hlen & Hall & _)].
  - exfalso. destruct Hneg as [E | []]. discriminate E.
  - eexists. eexists. split; [exact Hr |].
    unfold nrows, pd_DataFrame, grid_records. cbn [rows].
    rewrite !length_map. split; [exact Hlen |].
    intros i Hi.
    pose proof (DataFactoryFacts.grid_lengths env "positive" (fields_of sch)
                  grid Hall) as Hlens.
    destruct (nth_error grid i) as [cvs |] eqn:Ei;
      [| apply nth_error_None in Ei; lia].
    rewrite Forall_forall in Hall.
    pose proof (Hall cvs (nth_error_In _ _ Ei)) as Hrow.
    destruct (In_nth_error _ _ Hin) as [j Hj].
    destruct (DataFactoryFacts.Forall2_nth_error _ _ _ j _ Hrow Hj)
      as ([c v] & Hcv & Hc & Hp).
    simpl in Hc, Hp. destruct Hc as [<- | []].
    exists v.
    pose proof (ai_text_positive_value env cfg v Ht Hp) as Hval.
    split; [| exact Hval].
    pose proof (DataFactoryFacts.df_cell_grid (field_names sch) grid i j
                  field_name cvs ("positive", v) Hnd Hlens
                  (map_nth_error fst _ _ Hj) Ei Hcv) as Hcell.
    cbn [snd] in Hcell.
    fold (grid_records (field_names sch) grid).
    fold (pd_DataFrame (grid_records (field_names sch) grid)).
    rewrite Hcell.
    destruct Hval as [[_ ->] | [_ [-> | (w0 & text & _ & ->)]]]; reflexivity.
Qed.

Lemma ai_text_cells_witness :
  exists df w',
    generate_data Samples.quiet Samples.email_bio_schema 2 "positive" []
    = (Ok df, w') /\
    nrows df = 2 /\
    df_cell df 1 "bio" = Some (Some (PStr "AI_GENERATION_ERROR")).
Proof.
  assert (Hnd : NoDup (field_names Samples.email_bio_schema)).
  { repeat constructor; simpl; intuition discriminate. }
  destruct (ai_text_cells Samples.quiet Samples.email_bio_schema 2 []
              "bio" (Samples.field "ai_text") Hnd
              (or_intror (or_introl eq_refl)) eq_refl)
    as (df & w' & Hrun & Hn & _).
  exists df, w'. split; [exact Hrun |]. split; [exact Hn |].
  vm_compute in Hrun. inversion Hrun. reflexivity.
Defined.

End DataFactoryMoreFacts.

(** ** test_strategist.py: [get_user_input], requests and [main] *)

Module TestStrategistCliFacts.
Import Console TestStrategist TestStrategistCli StringFacts.

(** *** [get_user_input] *)

Lemma first_nonblank_spec lines :
  match first_nonblank lines with
  | Some (value, rest) =>
      exists skipped line,
        lines = skipped ++ line :: rest /\
        value = strip line /\ value <> "" /\
        Forall (fun l => strip l = "") skipped
  | None => Forall (fun l => strip l = "") lines
  end.
Proof.
  induction lines as [| line rest IH]; simpl; [constructor |].
  destruct (String.eqb_spec (strip line) "") as [E | Hne]; cbn [negb].
  - destruct (first_nonblank rest) as [[v r] |].
    + destruct IH as (skipped & l & -> & Hv & Hn & Hs).
      exists (line :: skipped), l. repeat split; auto.
    + constructor; assumption.
  - exists [], line. repeat split; auto.
Qed.

(** *** X8 *)

(** X8.  [get_user_input] of test_strategist.py returns the first line
    typed that is not blank, stripped: the value is not empty and has no
    white space at either end, every line before it was blank, the lines
    after it are left on the input, and nothing is written and no external
    call is made.  It never raises; the only other way out is the end of
    the input, after only blank lines. *)
Theorem get_user_input_nonblank s :
  let (out, s') := get_user_input s in
  world s' = world s /\ written s' = written s /\
  match out with
  | Returned value =>
      exists skipped line,
        stdin s = skipped ++ line :: stdin s' /\
        value = strip line /\ value <> "" /\ strip value = value /\
        Forall (fun l => strip l = "") skipped
  | EndOfInput =>
      Forall (fun l => strip l = "") (stdin s) /\ stdin s' = []
  | Raised _ => False
  end.
Proof.
  unfold get_user_input, reading.
  pose proof (first_nonblank_spec (stdin s)) as H.
  destruct (first_nonblank (stdin s)) as [[v r] |]; simpl; auto.
  destruct H as (skipped & line & Hl & Hv & Hn & Hs).
  repeat split; auto. exists skipped, line. repeat split; auto.
  subst v. apply strip_idempotent.
Qed.

Lemma get_user_input_nonblank_run s :
  (exists v s1,
     get_user_input s = (Returned v, s1) /\
     world s1 = world s /\ written s1 = written s)
  \/
  (exists s1,
     get_user_input s = (EndOfInput, s1) /\
     world s1 = world s /\ written s1 = written s).
Proof.
  unfold get_user_input, reading.
  destruct (first_nonblank (stdin s)) as [[v r] |]; [left | right]; eauto.
Qed.

(** *** Code fences *)

(** *** X9 *)

(** X9.  The text handed to [json.loads] (the reply after [strip] and the
    two [replace] calls) holds no code fence at any position: removing the
    fences never brings the backticks around them together into a new
    one. *)
Theorem strip_fences_fence_free text : fence_free (strip_fences text) = true.
Proof. unfold strip_fences, replace. apply unfence_all. Qed.

(** *** One request per scenario *)

Lemma scenario_step_world env rows_per_scenario fields scenario all_test_data w :
  has_keys scenario = true ->
  exists description reply,
    py_getitem scenario "description" = Ok description /\
    snd (scenario_step env rows_per_scenario fields scenario all_test_data w)
    = w ++ [EvService (ScenarioPrompt rows_per_scenario description fields) reply].
Proof.
  intros Hk.
  destruct (TestStrategistFacts.has_keys_true scenario Hk)
    as (n & d & t & Hn & Hd & Ht).
  exists d, (service env w (ScenarioPrompt rows_per_scenario d fields)).
  split; [exact Hd |].
  unfold scenario_step. rewrite Hn, Hd, Ht.
  unfold lift at 1 2 3. unfold bind at 1 2 3. cbv beta iota.
  unfold try_except, bind, scenario_rows, bind.
  rewrite TestStrategistFacts.model_generate_content_run.
  destruct (service env w (ScenarioPrompt rows_per_scenario d fields))
    as [text |]; [| reflexivity].
  unfold py_json_loads.
  destruct (json_loads env (strip_fences text)) as [generated |];
    [| reflexivity].
  unfold ret, lift.
  destruct (py_iter generated) as [items | ?]; [| reflexivity].
  destruct (tag_rows n t items); reflexivity.
Qed.

Lemma scenarios_loop_requests env rows_per_scenario fields scenarios :
  forall all_test_data w,
  Forall (fun s => has_keys s = true) scenarios ->
  exists evs,
    snd (scenarios_loop env rows_per_scenario fields scenarios all_test_data w)
    = w ++ evs /\
    Forall2 (fun scenario ev =>
               exists description reply,
                 py_getitem scenario "description" = Ok description /\
                 ev = EvService
                        (ScenarioPrompt rows_per_scenario description fields)
                        reply)
            scenarios evs.
Proof.
  induction scenarios as [| s rest IH]; intros all_test_data w Hall.
  - exists []. simpl. rewrite app_nil_r. split; [reflexivity | constructor].
  - inversion Hall as [| ? ? Hs Hrest]; subst.
    destruct (scenario_step_world env rows_per_scenario fields s all_test_data w Hs)
      as (d & reply & Hd & Hw).
    simpl scenarios_loop.
    pose proof (TestStrategistFacts.scenario_step_ok env rows_per_scenario
                  fields s all_test_data w Hs) as Hok.
    rewrite Hok in Hw. cbn [snd] in Hw. rewrite Hw in Hok.
    run_ok Hok.
    destruct (IH (all_test_data ++
                  rows_or_skip (fst (scenario_outcome env rows_per_scenario
                                       fields s w)))
                 (w ++ [EvService (ScenarioPrompt rows_per_scenario d fields) reply])
                 Hrest) as (evs & Hevs & H2).
    exists (EvService (ScenarioPrompt rows_per_scenario d fields) reply :: evs).
    rewrite Hevs, <- app_assoc. split; [reflexivity |].
    constructor; [eauto | exact H2].
Qed.

(** *** X10 *)

(** X10.  For a plan whose scenarios all have the three keys,
    [generate_data_for_plan] makes exactly one request per scenario, in
    the order of the plan, each for the requested number of rows, the
    scenario's description and the plan's fields, and no other external
    call; a failed scenario is not asked again. *)
Theorem one_request_per_scenario env d scenarios rows_per_scenario w :
  dict_get d "scenarios" = Some (PList scenarios) ->
  Forall (fun s => has_keys s = true) scenarios ->
  exists evs,
    snd (generate_data_for_plan env (PDict d) rows_per_scenario w) = w ++ evs /\
    Forall2 (fun scenario ev =>
               exists description reply,
                 py_getitem scenario "description" = Ok description /\
                 ev = EvService
                        (ScenarioPrompt rows_per_scenario description
                           (dict_get_default d "fields" (PList [])))
                        reply)
            scenarios evs.
Proof.
  intros Hs Hall.
  rewrite (TestStrategistFacts.generate_data_for_plan_unfold env d scenarios
             rows_per_scenario w Hs).
  destruct (scenarios_loop_requests env rows_per_scenario
              (dict_get_default d "fields" (PList [])) scenarios [] w Hall)
    as (evs & Hw & H2).
  exists evs. split; [| exact H2].
  unfold bind.
  destruct (scenarios_loop env rows_per_scenario
              (dict_get_default d "fields" (PList [])) scenarios [] w)
    as [[data | e] w1]; exact Hw.
Qed.

Lemma one_request_per_scenario_witness :
  exists evs,
    snd (generate_data_for_plan Samples.quiet Samples.login_plan 4 [])
    = [] ++ evs /\
    List.length evs = 3.
Proof.
  destruct (one_request_per_scenario Samples.quiet
              [("fields", PList [PStr "a"; PStr "b"]);
               ("scenarios",
                PList [Samples.scenario "valid login" "positive";
                       Samples.scenario "wrong password" "negative";
                       Samples.scenario "empty form" "negative"])]
              [Samples.scenario "valid login" "positive";
               Samples.scenario "wrong password" "negative";
               Samples.scenario "empty form" "negative"]
              4 [] eq_refl)
    as (evs & Hw & H2).
  - repeat constructor.
  - exists evs. split; [exact Hw |].
    symmetry. exact (Forall2_length H2).
Defined.

(** *** [main] *)

(** *** X11 *)

(** X11.  When no plan is obtained for the requirement typed, [main] of
    test_strategist.py returns at once: it has made the one request for
    the plan and nothing else, it reads no further line and writes no
    file. *)
Theorem main_stops_without_plan env s requirement s1 :
  get_user_input s = (Returned requirement, s1) ->
  fst (generate_test_plan env requirement (world s1)) = Ok None ->
  main env s
  = (Returned tt,
     {| stdin := stdin s1;
        world := world s1 ++
                 [EvService (PlanPrompt requirement)
                            (service env (world s1) (PlanPrompt requirement))];
        written := written s1 |}).
Proof.
  intros Hin Hplan. unfold main, io_bind. rewrite Hin. unfold run.
  pose proof (TestStrategistFacts.generate_test_plan_run env requirement
                (world s1)) as Hrun.
  cbv zeta in Hrun. rewrite Hrun in Hplan |- *. cbn [fst] in Hplan.
  match type of Hplan with
  | Ok ?r = Ok None => set (outcome := r) in *
  end.
  assert (Hnone : outcome = None) by congruence.
  clearbody outcome. subst outcome. reflexivity.
Qed.

Lemma main_stops_without_plan_witness :
  main Samples.quiet Scripts.one_requirement
  = (Returned tt,
     {| stdin := [];
        world := [EvService (PlanPrompt "a login form") None];
        written := [] |}).
Proof.
  apply (main_stops_without_plan Samples.quiet Scripts.one_requirement
           "a login form" {| stdin := []; world := []; written := [] |});
    reflexivity.
Defined.

Lemma get_ideal_row_count_total env plan w :
  exists n w', get_ideal_row_count env plan w = (Ok n, w').
Proof.
  unfold get_ideal_row_count, try_except, bind.
  rewrite TestStrategistFacts.model_generate_content_run.
  destruct (service env w (RowCountPrompt plan)) as [text |];
    [| eexists; eexists; reflexivity].
  destruct (py_int (strip text)); eexists; eexists; reflexivity.
Qed.

Lemma rows_per_scenario_of_run env plan rows_input s :
  exists n s',
    rows_per_scenario_of env plan rows_input s = (Returned n, s') /\
    stdin s' = stdin s /\ written s' = written s.
Proof.
  unfold rows_per_scenario_of.
  destruct (name_in (py_lower rows_input) ["ideal"; "ai"; "auto"]).
  - unfold run.
    destruct (get_ideal_row_count_total env plan (world s)) as (n & w' & ->).
    eexists. eexists. split; [reflexivity | auto].
  - destruct (py_int rows_input); eexists; eexists; (split; [reflexivity | auto]).
Qed.

Lemma main_reports_parts df f d :
  df_empty df = false ->
  main_reports df = Ok (Some (f, d)) ->
  df_select df
    (cols_to_move ++
     filter (fun col => negb (name_in col cols_to_move)) (columns df)) = Ok f /\
  df_drop df cols_to_move = Ok d.
Proof.
  intros He. unfold main_reports. rewrite He. cbn [negb].
  destruct (df_select df _) as [f' | e]; [| discriminate].
  destruct (df_drop df cols_to_move) as [d' | e]; [| discriminate].
  intros H. inversion H. auto.
Qed.

Lemma run_returned {A} (m : M A) s a w' :
  m (world s) = (Ok a, w') ->
  run m s
  = (Returned a, {| stdin := stdin s; world := w'; written := written s |}).
Proof. intros H. unfold run. rewrite H. reflexivity. Qed.

Lemma run_raised {A} (m : M A) s e w' :
  m (world s) = (Raise e, w') ->
  run m s
  = (Raised e, {| stdin := stdin s; world := w'; written := written s |}).
Proof. intros H. unfold run. rewrite H. reflexivity. Qed.

(** What [write_reports] does with a frame built from tagged records:
    nothing for an empty frame; otherwise the full report and then the
    data-only frame, as far as the file system lets it. *)
Lemma write_reports_run env data output_filename s :
  Forall has_tag_keys data ->
  let df := pd_DataFrame data in
  let full_name := replace ".csv" "_full_report.csv" output_filename in
  let data_name := replace ".csv" "_data_only.csv" output_filename in
  (df_empty df = true /\
   write_reports env df output_filename s = (Returned tt, s))
  \/
  (df_empty df = false /\
   exists df_full data_only_df,
     main_reports df = Ok (Some (df_full, data_only_df)) /\
     write_reports env df output_filename s
     = match open_error env (map fst (written s)) full_name with
       | Some e => (Raised e, s)
       | None =>
           match open_error env (map fst (written s) ++ [full_name])
                            data_name with
           | Some e =>
               (Raised e,
                {| stdin := stdin s; world := world s;
                   written := written s ++ [(full_name, df_full)] |})
           | None =>
               (Returned tt,
                {| stdin := stdin s; world := world s;
                   written :=
                     written s ++
                     [(full_name, df_full); (data_name, data_only_df)] |})
           end
       end).
Proof.
  intros Htags df full_name data_name. unfold write_reports.
  destruct (df_empty df) eqn:He; [left; auto | right]. split; [reflexivity |].
  assert (Hcols : In "scenario_name" (columns df) /\ In "test_type" (columns df)).
  { destruct data as [| r rest].
    - unfold df_empty in He. simpl in He. discriminate.
    - inversion Htags as [| ? ? [Hn Ht] _]; subst.
      split; apply FrameFacts.frame_columns_in; exists r; split;
        try (left; reflexivity); assumption. }
  destruct Hcols as [Hn Ht].
  pose proof (TestStrategistFacts.main_reports_run df He Hn Ht) as Hmain.
  destruct (main_reports_parts df _ _ He Hmain) as [Hsel Hdrop].
  eexists. eexists. split; [exact Hmain |].
  cbn [negb]. unfold io_bind at 1. rewrite Hsel. cbn [io_lift].
  unfold io_bind at 1. unfold to_csv at 1. fold full_name.
  destruct (open_error env (map fst (written s)) full_name); [reflexivity |].
  unfold io_bind. rewrite Hdrop. cbn [io_lift]. unfold to_csv.
  cbn [stdin world written]. fold data_name.
  rewrite map_app. cbn [map fst].
  destruct (open_error env (map fst (written s) ++ [full_name]) data_name);
    [reflexivity |].
  rewrite <- app_assoc. reflexivity.
Qed.

Lemma report_names_differ output_filename :
  endswith output_filename ".csv" = true ->
  replace ".csv" "_full_report.csv" output_filename
  <> replace ".csv" "_data_only.csv" output_filename.
Proof.
  intros H. destruct (endswith_split _ _ H) as [pre ->].
  apply (replace_differs "." "csv" "_" "f" "d" "ull_report.csv" "ata_only.csv"
           pre "").
  discriminate.
Qed.

Lemma get_user_input_nonblank_returned s v s1 :
  get_user_input s = (Returned v, s1) ->
  world s1 = world s /\ written s1 = written s.
Proof.
  unfold get_user_input, reading.
  destruct (first_nonblank (stdin s)) as [[v0 r] |]; [| discriminate].
  intros E. inversion E; subst. auto.
Qed.

(** *** X12 *)

(** X12.  [main] of test_strategist.py writes no file, or the full
    report alone and then raises the exception of the second file (an
    [OSError], as a rule), or the full report and then the data-only
    file, under different names, and returns.  Once the requirement, a plan, the row count and the name
    have been obtained, the run is settled.  The row count is the one
    advised when the answer typed is [ideal], [ai] or [auto] in any
    letter case, the integer typed otherwise, and 3 when that is no
    integer.  The dataset is generated for that plan and that row count.
    A failure of the generation ends the run with nothing written, and an
    empty dataset writes nothing.  Otherwise the two files are the full
    report and the data-only view of that dataset, named after the name
    typed, [.csv] being added unless the name ends in it and then
    replaced by [_full_report.csv] and by [_data_only.csv]; the first
    file the file system refuses ends the run with its exception, the
    files before it staying written. *)
Theorem main_report_files env s :
  (let (out, s') := main env s in
   written s' = written s
   \/
   (exists e full_name df_full data_name,
      out = Raised e /\
      open_error env (map fst (written s) ++ [full_name]) data_name = Some e /\
      written s' = written s ++ [(full_name, df_full)])
   \/
   (out = Returned tt /\
    exists full_name df_full data_name data_only_df,
      full_name <> data_name /\
      written s'
      = written s ++ [(full_name, df_full); (data_name, data_only_df)]))
  /\
  (forall requirement s1 plan w1 rows_input s2 rows_per_scenario s3 name s4,
     get_user_input s = (Returned requirement, s1) ->
     generate_test_plan env requirement (world s1) = (Ok (Some plan), w1) ->
     py_truthy plan = true ->
     get_user_input {| stdin := stdin s1; world := w1; written := written s1 |}
     = (Returned rows_input, s2) ->
     rows_per_scenario_of env plan rows_input s2
     = (Returned rows_per_scenario, s3) ->
     get_user_input s3 = (Returned name, s4) ->
     let filename :=
       if endswith name ".csv" then name else (name ++ ".csv")%string in
     let full_name := replace ".csv" "_full_report.csv" filename in
     let data_name := replace ".csv" "_data_only.csv" filename in
     full_name <> data_name /\
     (name_in (py_lower rows_input) ["ideal"; "ai"; "auto"] = true ->
      run (get_ideal_row_count env plan) s2 = (Returned rows_per_scenario, s3)) /\
     (name_in (py_lower rows_input) ["ideal"; "ai"; "auto"] = false ->
      s3 = s2 /\
      rows_per_scenario = match py_int rows_input with
                          | Some typed => typed
                          | None => 3%Z
                          end) /\
     match generate_data_for_plan env plan rows_per_scenario (world s4) with
     | (Raise e, w') =>
         main env s
         = (Raised e, {| stdin := stdin s4; world := w'; written := written s |})
     | (Ok df, w') =>
         let s5 := {| stdin := stdin s4; world := w'; written := written s |} in
         (df_empty df = true /\ main env s = (Returned tt, s5))
         \/
         (df_empty df = false /\
          exists df_full data_only_df,
            main_reports df = Ok (Some (df_full, data_only_df)) /\
            main env s
            = match open_error env (map fst (written s)) full_name with
              | Some e => (Raised e, s5)
              | None =>
                  match open_error env (map fst (written s) ++ [full_name])
                                   data_name with
                  | Some e =>
                      (Raised e,
                       {| stdin := stdin s4; world := w';
                          written := written s ++ [(full_name, df_full)] |})
                  | None =>
                      (Returned tt,
                       {| stdin := stdin s4; world := w';
                          written :=
                            written s
                            ++ [(full_name, df_full);
                                (data_name, data_only_df)] |})
                  end
              end)
     end).
Proof.
  assert (Hsettled :
    forall requirement s1 plan w1 rows_input s2 rows_per_scenario s3 name s4,
     get_user_input s = (Returned requirement, s1) ->
     generate_test_plan env requirement (world s1) = (Ok (Some plan), w1) ->
     py_truthy plan = true ->
     get_user_input {| stdin := stdin s1; world := w1; written := written s1 |}
     = (Returned rows_input, s2) ->
     rows_per_scenario_of env plan rows_input s2
     = (Returned rows_per_scenario, s3) ->
     get_user_input s3 = (Returned name, s4) ->
     let filename :=
       if endswith name ".csv" then name else (name ++ ".csv")%string in
     let full_name := replace ".csv" "_full_report.csv" filename in
     let data_name := replace ".csv" "_data_only.csv" filename in
     full_name <> data_name /\
     match generate_data_for_plan env plan rows_per_scenario (world s4) with
     | (Raise e, w') =>
         main env s
         = (Raised e, {| stdin := stdin s4; world := w'; written := written s |})
     | (Ok df, w') =>
         let s5 := {| stdin := stdin s4; world := w'; written := written s |} in
         (df_empty df = true /\ main env s = (Returned tt, s5))
         \/
         (df_empty df = false /\
          exists df_full data_only_df,
            main_reports df = Ok (Some (df_full, data_only_df)) /\
            main env s
            = match open_error env (map fst (written s)) full_name with
              | Some e => (Raised e, s5)
              | None =>
                  match open_error env (map fst (written s) ++ [full_name])
                                   data_name with
                  | Some e =>
                      (Raised e,
                       {| stdin := stdin s4; world := w';
                          written := written s ++ [(full_name, df_full)] |})
                  | None =>
                      (Returned tt,
                       {| stdin := stdin s4; world := w';
                          written :=
                            written s
                            ++ [(full_name, df_full);
                                (data_name, data_only_df)] |})
                  end
              end)
     end).
  { intros requirement s1 plan w1 rows_input s2 rows_per_scenario s3 name s4
           Hq Hp Htruthy Hri Hrps Hn filename full_name data_name.
    destruct (get_user_input_nonblank_returned _ _ _ Hq) as (_ & Hf1).
    destruct (get_user_input_nonblank_returned _ _ _ Hri) as (_ & Hf2).
    cbn [written] in Hf2.
    destruct (rows_per_scenario_of_run env plan rows_input s2)
      as (n0 & s3' & Hrps' & _ & Hf3).
    rewrite Hrps in Hrps'. inversion Hrps'; subst n0 s3'.
    destruct (get_user_input_nonblank_returned _ _ _ Hn) as (_ & Hf4).
    assert (Hwr : written s4 = written s) by congruence.
    assert (Hext : endswith filename ".csv" = true).
    { unfold filename. destruct (endswith name ".csv") eqn:E;
        [exact E | apply endswith_app]. }
    split; [apply report_names_differ; exact Hext |].
    assert (Hmain :
      main env s
      = io_bind (run (generate_data_for_plan env plan rows_per_scenario))
          (fun df => write_reports env df filename) s4).
    { unfold main.
      rewrite (ConsoleFacts.io_bind_returned _ _ _ _ _ Hq).
      rewrite (ConsoleFacts.io_bind_returned _ _ _ _ _
                 (run_returned _ _ _ _ Hp)).
      rewrite Htruthy. cbn [negb].
      rewrite (ConsoleFacts.io_bind_returned _ _ _ _ _ Hri).
      rewrite (ConsoleFacts.io_bind_returned _ _ _ _ _ Hrps).
      rewrite (ConsoleFacts.io_bind_returned _ _ _ _ _ Hn).
      unfold filename. destruct (endswith name ".csv"); reflexivity. }
    rewrite Hmain. clear Hmain.
    destruct (generate_data_for_plan env plan rows_per_scenario (world s4))
      as [[df | e] w'] eqn:Eg.
    - rewrite (ConsoleFacts.io_bind_returned _ _ _ _ _
                 (run_returned _ _ _ _ Eg)).
      destruct (TestStrategistFacts.generate_data_for_plan_inv env plan
                  rows_per_scenario (world s4) df w' Eg) as (data & -> & Htags).
      rewrite Hwr.
      destruct (write_reports_run env data filename
                  {| stdin := stdin s4; world := w'; written := written s |}
                  Htags)
        as [(He & Hw) | (He & f & d & Hm & Hw)];
        cbv zeta in Hw; cbn [stdin world written] in Hw.
      + left. split; [exact He | exact Hw].
      + right. split; [exact He |]. exists f, d. split; [exact Hm | exact Hw].
    - unfold io_bind. rewrite (run_raised _ _ _ _ Eg). rewrite Hwr.
      reflexivity. }
  split.
  2:{ intros requirement s1 plan w1 rows_input s2 rows_per_scenario s3 name s4
             Hq Hp Htruthy Hri Hrps Hn filename full_name data_name.
      destruct (Hsettled requirement s1 plan w1 rows_input s2 rows_per_scenario
                  s3 name s4 Hq Hp Htruthy Hri Hrps Hn) as [Hdiff Hrun].
      split; [exact Hdiff |]. split; [| split; [| exact Hrun]].
      - intros Hideal. unfold rows_per_scenario_of in Hrps.
        rewrite Hideal in Hrps. exact Hrps.
      - intros Hnum. unfold rows_per_scenario_of in Hrps.
        rewrite Hnum in Hrps.
        destruct (py_int rows_input); inversion Hrps; auto. }
  destruct (get_user_input_nonblank_run s)
    as [(requirement & s1 & Hq & Hw1 & Hf1) | (s1 & Hq & Hw1 & Hf1)].
  2:{ unfold main. unfold io_bind at 1. rewrite Hq. left. exact Hf1. }
  pose proof (TestStrategistFacts.generate_test_plan_run env requirement
                (world s1)) as Hplan.
  cbv zeta in Hplan.
  destruct (generate_test_plan env requirement (world s1)) as [r w1] eqn:Ep.
  assert (Hcases : r = Ok None \/ exists plan, r = Ok (Some plan)).
  { inversion Hplan as [[Hr Hw]].
    match goal with
    | |- Ok ?o = _ \/ _ => destruct o as [plan |]
    end; [right; eauto | left; reflexivity]. }
  destruct Hcases as [-> | [plan ->]].
  { unfold main. rewrite (ConsoleFacts.io_bind_returned _ _ _ _ _ Hq).
    rewrite (ConsoleFacts.io_bind_returned _ _ _ _ _
               (run_returned _ _ _ _ Ep)).
    left. exact Hf1. }
  destruct (py_truthy plan) eqn:Htruthy.
  2:{ unfold main. rewrite (ConsoleFacts.io_bind_returned _ _ _ _ _ Hq).
      rewrite (ConsoleFacts.io_bind_returned _ _ _ _ _
                 (run_returned _ _ _ _ Ep)).
      rewrite Htruthy. left. exact Hf1. }
  destruct (get_user_input_nonblank_run
              {| stdin := stdin s1; world := w1; written := written s1 |})
    as [(rows_input & s2 & Hri & Hw2 & Hf2) | (s2 & Hri & Hw2 & Hf2)].
  2:{ unfold main. rewrite (ConsoleFacts.io_bind_returned _ _ _ _ _ Hq).
      rewrite (ConsoleFacts.io_bind_returned _ _ _ _ _
                 (run_returned _ _ _ _ Ep)).
      rewrite Htruthy. cbn [negb]. unfold io_bind at 1. rewrite Hri.
      left. cbn [written] in Hf2. congruence. }
  cbn [written] in Hf2.
  destruct (rows_per_scenario_of_run env plan rows_input s2)
    as (n & s3 & Hrps & _ & Hf3).
  destruct (get_user_input_nonblank_run s3)
    as [(name & s4 & Hn & Hw4 & Hf4) | (s4 & Hn & Hw4 & Hf4)].
  2:{ unfold main. rewrite (ConsoleFacts.io_bind_returned _ _ _ _ _ Hq).
      rewrite (ConsoleFacts.io_bind_returned _ _ _ _ _
                 (run_returned _ _ _ _ Ep)).
      rewrite Htruthy. cbn [negb].
      rewrite (ConsoleFacts.io_bind_returned _ _ _ _ _ Hri).
      rewrite (ConsoleFacts.io_bind_returned _ _ _ _ _ Hrps).
      unfold io_bind at 1. rewrite Hn. left. congruence. }
  destruct (Hsettled requirement s1 plan w1 rows_input s2 n s3 name s4
              Hq Ep Htruthy Hri Hrps Hn) as [Hdiff Hrun].
  cbv zeta in Hdiff, Hrun.
  destruct (generate_data_for_plan env plan n (world s4)) as [[df | e] w'].
  - destruct Hrun as [(_ & ->) | (_ & f & d0 & _ & ->)];
      [left; reflexivity |].
    destruct (open_error env (map fst (written s)) _);
      [left; reflexivity |].
    destruct (open_error env (map fst (written s) ++ _) _) as [e |] eqn:Eo.
    + right. left. eexists. eexists. eexists. eexists.
      split; [reflexivity |]. split; [exact Eo |]. reflexivity.
    + right. right. split; [reflexivity |]. cbn [written].
      eexists. eexists. eexists. eexists. split; [exact Hdiff | reflexivity].
  - rewrite Hrun. left. reflexivity.
Qed.

(** A plan with one scenario, two rows, the name [login], and a file
    system that lets one file be written: the full report is written and
    the run ends in [OSError]; with a file system that refuses nothing
    both files are written. *)
Lemma main_report_files_witness :
  (exists s',
     main (Scripts.one_file_only Scripts.planner) Scripts.login_run
     = (Raised OSError, s') /\
     map fst (written s') = ["login_full_report.csv"])
  /\
  (exists s',
     main Scripts.planner Scripts.login_run = (Returned tt, s') /\
     map fst (written s') = ["login_full_report.csv"; "login_data_only.csv"]).
Proof.
  split.
  - destruct (proj2 (main_report_files (Scripts.one_file_only Scripts.planner)
                       Scripts.login_run)
                "a login form"
                {| stdin := ["2"; "login"]; world := []; written := [] |}
                Samples.single_plan
                [EvService (PlanPrompt "a login form")
                           (Some Scripts.single_plan_text)]
                "2"
                {| stdin := ["login"];
                   world := [EvService (PlanPrompt "a login form")
                                       (Some Scripts.single_plan_text)];
                   written := [] |}
                2%Z
                {| stdin := ["login"];
                   world := [EvService (PlanPrompt "a login form")
                                       (Some Scripts.single_plan_text)];
                   written := [] |}
                "login"
                {| stdin := [];
                   world := [EvService (PlanPrompt "a login form")
                                       (Some Scripts.single_plan_text)];
                   written := [] |}
                eq_refl eq_refl eq_refl eq_refl eq_refl eq_refl)
      as (_ & _ & _ & Hrun).
    vm_compute in Hrun.
    destruct Hrun as [(He & _) | (_ & f & d0 & _ & Hmain)]; [discriminate He |].
    eexists. split; [exact Hmain | reflexivity].
  - destruct (proj2 (main_report_files Scripts.planner Scripts.login_run)
                "a login form"
                {| stdin := ["2"; "login"]; world := []; written := [] |}
                Samples.single_plan
                [EvService (PlanPrompt "a login form")
                           (Some Scripts.single_plan_text)]
                "2"
                {| stdin := ["login"];
                   world := [EvService (PlanPrompt "a login form")
                                       (Some Scripts.single_plan_text)];
                   written := [] |}
                2%Z
                {| stdin := ["login"];
                   world := [EvService (PlanPrompt "a login form")
                                       (Some Scripts.single_plan_text)];
                   written := [] |}
                "login"
                {| stdin := [];
                   world := [EvService (PlanPrompt "a login form")
                                       (Some Scripts.single_plan_text)];
                   written := [] |}
                eq_refl eq_refl eq_refl eq_refl eq_refl eq_refl)
      as (_ & _ & _ & Hrun).
    vm_compute in Hrun.
    destruct Hrun as [(He & _) | (_ & f & d0 & _ & Hmain)]; [discriminate He |].
    eexists. split; [exact Hmain | reflexivity].
Defined.

(** *** X13 *)

(** X13.  When no scenario of the plan contributes a row (every request
    failed, or every reply was an empty array), the dataset is returned,
    pandas reports it as empty, and the report step writes nothing. *)
Theorem no_rows_no_files env d scenarios rows_per_scenario w output_filename s :
  dict_get d "scenarios" = Some (PList scenarios) ->
  Forall (fun sc => has_keys sc = true) scenarios ->
  plan_rows (plan_outcomes env rows_per_scenario
               (dict_get_default d "fields" (PList [])) scenarios w) = [] ->
  exists df w',
    generate_data_for_plan env (PDict d) rows_per_scenario w = (Ok df, w') /\
    df_empty df = true /\
    write_reports env df output_filename s = (Returned tt, s).
Proof.
  intros Hs Hall Hrows.
  rewrite (TestStrategistFacts.generate_data_for_plan_unfold env d scenarios
             rows_per_scenario w Hs).
  destruct (TestStrategistFacts.scenarios_loop_ok env rows_per_scenario
              (dict_get_default d "fields" (PList [])) scenarios [] w Hall)
    as [w' Hrun].
  rewrite Hrows in Hrun. cbn [app] in Hrun.
  exists (pd_DataFrame []), w'. run_ok Hrun.
  split; [reflexivity |]. split; reflexivity.
Qed.

Lemma no_rows_no_files_witness :
  exists df w',
    generate_data_for_plan Samples.quiet Samples.login_plan 4 [] = (Ok df, w') /\
    df_empty df = true /\
    write_reports Samples.quiet df "login.csv" Scripts.one_requirement
    = (Returned tt, Scripts.one_requirement).
Proof.
  apply (no_rows_no_files Samples.quiet
           [("fields", PList [PStr "a"; PStr "b"]);
            ("scenarios",
             PList [Samples.scenario "valid login" "positive";
                    Samples.scenario "wrong password" "negative";
                    Samples.scenario "empty form" "negative"])]
           [Samples.scenario "valid login" "positive";
            Samples.scenario "wrong password" "negative";
            Samples.scenario "empty form" "negative"]
           4 [] "login.csv" Scripts.one_requirement).
  - reflexivity.
  - repeat constructor.
  - reflexivity.
Defined.

End TestStrategistCliFacts.
